(** * MIKA: governed cognitive assistant

    A shallow embedding of the policy engine ([engine.py]), the affect
    state ([emotion.py], [feedback.py]), the two-tier memory ([memory.py])
    and the turn pipeline ([assistant.py]), with the properties the
    specification states about them.

    Conventions.
    - Python [float] values are idealised as rationals [Q]; [min] and [max]
      are [Qmin] and [Qmax], which pick their second argument exactly when
      Python does (strictly smaller, respectively strictly larger).
    - A Python exception is a value [Raise e] of the [result] type; state is
      passed explicitly and returned next to the result.
    - Clock readings ([datetime.utcnow().isoformat()], [time.time()]) are
      arguments of the operations that read the clock.
    - The analyzer, the language model, the handler registry and the input
      and output adapters are parameters; [Session] lets them raise. *)

From Stdlib Require Import QArith Qminmax Qabs Qround ZArith String Ascii List Lia Lqa.
From Stdlib Require Import DecimalString DecimalZ DecimalPos.
From stdpp Require Import base option list gmap strings.

Import ListNotations.
Set Warnings "-register-all".
Local Open Scope string_scope.
Local Open Scope list_scope.

(** ** Python values shared by the modules *)

Inductive exn : Set :=
  | KeyError
  | TypeError
  | ValueError
  | AttributeError.

Inductive result (A : Type) : Type :=
  | Ok (a : A)
  | Raise (e : exn).

Arguments Ok {A} a.
Arguments Raise {A} e.

Definition is_ok {A} (r : result A) : bool :=
  match r with Ok _ => true | Raise _ => false end.

(** ** Strings *)

Module PyStr.

(** [s.split(sep)] for a one-character separator: never the empty list. *)
Fixpoint split (sep : ascii) (s : string) : list string :=
  match s with
  | EmptyString => [EmptyString]
  | String c s' =>
      if Ascii.eqb c sep then EmptyString :: split sep s'
      else match split sep s' with
           | [] => [String c EmptyString]
           | w :: ws => String c w :: ws
           end
  end.

(** [sep.join(ws)] *)
Fixpoint join (sep : string) (ws : list string) : string :=
  match ws with
  | [] => EmptyString
  | [w] => w
  | w :: ws' => w ++ sep ++ join sep ws'
  end.

(** [a in s] on strings *)
Fixpoint contains (a s : string) : bool :=
  String.prefix a s
  || match s with
     | EmptyString => false
     | String _ s' => contains a s'
     end.

(** [s.endswith(a)] *)
Fixpoint endswith (s a : string) : bool :=
  String.eqb s a
  || match s with
     | EmptyString => false
     | String _ s' => endswith s' a
     end.

(** [s.lower()] on the ASCII letters; other bytes are left as they are. *)
Definition lower_ascii (c : ascii) : ascii :=
  let n := nat_of_ascii c in
  if (65 <=? n)%nat && (n <=? 90)%nat then ascii_of_nat (n + 32) else c.

Fixpoint lower (s : string) : string :=
  match s with
  | EmptyString => EmptyString
  | String c s' => String (lower_ascii c) (lower s')
  end.

Definition is_space (c : ascii) : bool :=
  let n := nat_of_ascii c in
  (n =? 32)%nat || ((9 <=? n)%nat && (n <=? 13)%nat)
  || ((28 <=? n)%nat && (n <=? 31)%nat).

Fixpoint lstrip (s : string) : string :=
  match s with
  | EmptyString => EmptyString
  | String c s' => if is_space c then lstrip s' else s
  end.

Fixpoint rstrip (s : string) : string :=
  match s with
  | EmptyString => EmptyString
  | String c s' =>
      match rstrip s' with
      | EmptyString => if is_space c then EmptyString else String c EmptyString
      | r => String c r
      end
  end.

(** [s.strip()] for the white space among the ASCII characters *)
Definition strip (s : string) : string := rstrip (lstrip s).

Definition chars (s : string) : list string :=
  map (fun c => String c EmptyString) (list_ascii_of_string s).

Definition no_sep (sep : ascii) (w : string) : Prop :=
  ~ In sep (list_ascii_of_string w).

End PyStr.

(** ** engine.py *)

Module Engine.

(** What [yaml.safe_load] returns.  Mapping keys that are not strings can
    never equal a path segment or a [str] key, so mappings keep only
    their string keys; a mapping is an association list read by first
    match.  Numbers stand for both [int] and [float]. *)
Inductive yaml : Type :=
  | YNull
  | YBool (b : bool)
  | YNum (q : Q)
  | YStr (s : string)
  | YSeq (l : list yaml)
  | YMap (m : list (string * yaml)).

Definition pydict : Type := list (string * yaml).

Fixpoint dict_get (k : string) (m : pydict) : option yaml :=
  match m with
  | [] => None
  | (k', v) :: m' => if String.eqb k k' then Some v else dict_get k m'
  end.

(** [bool(v)] *)
Definition truthy (v : yaml) : bool :=
  match v with
  | YNull => false
  | YBool b => b
  | YNum q => negb (Qeq_bool q 0)
  | YStr s => negb (String.eqb s "")
  | YSeq l => match l with [] => false | _ => true end
  | YMap m => match m with [] => false | _ => true end
  end.

(** [node[p]] for a [str] subscript [p] *)
Definition subscript (node : yaml) (p : string) : result yaml :=
  match node with
  | YMap m => match dict_get p m with
              | Some v => Ok v
              | None => Raise KeyError
              end
  | _ => Raise TypeError
  end.

(** [v.get(k, {})] *)
Definition get_or_empty (v : yaml) (k : string) : result yaml :=
  match v with
  | YMap m => Ok (default (YMap []) (dict_get k m))
  | _ => Raise AttributeError
  end.

(** [iter(v)] *)
Definition iterate (v : yaml) : result (list yaml) :=
  match v with
  | YSeq l => Ok l
  | YMap m => Ok (map (fun kv => YStr (fst kv)) m)
  | YStr s => Ok (map YStr (PyStr.chars s))
  | _ => Raise TypeError
  end.

(** a value used as an operand of [min] and [max] next to a float *)
Definition as_number (v : yaml) : result Q :=
  match v with
  | YNum q => Ok q
  | YBool b => Ok (if b then 1%Q else 0%Q)
  | _ => Raise TypeError
  end.

Record GovernorDecision : Type := mkDecision {
  allowed : bool;
  reason : string;
  requires_approval : bool
}.

(** The value whose [str(...)] the audit record keeps in ["decision"]. *)
Inductive audited : Type :=
  | OfDecision (d : GovernorDecision)
  | OfClamp (input output : Q).

Record AuditRecord : Type := mkAudit {
  time : string;
  event : string;
  subject : string;
  decision : audited
}.

Record GovernorEngine : Type := mkEngine {
  rules : pydict;
  audit_log : list AuditRecord
}.

(** [_audit] *)
Definition _audit (now event subject : string) (d : audited)
    (g : GovernorEngine) : GovernorEngine :=
  {| rules := rules g;
     audit_log := audit_log g ++ [mkAudit now event subject d] |}.

(** the loop [for p in parts: node = node[p]] *)
Fixpoint walk (node : yaml) (parts : list string) : result yaml :=
  match parts with
  | [] => Ok node
  | p :: ps => match subscript node p with
               | Ok child => walk child ps
               | Raise e => Raise e
               end
  end.

(** [_lookup_permission]: every exception of the loop is caught. *)
Definition _lookup_permission (g : GovernorEngine) (path : string) : bool :=
  let parts := PyStr.split "." path in
  let node := default (YMap []) (dict_get "permissions" (rules g)) in
  match walk node parts with
  | Ok _ => true
  | Raise _ => false
  end.

(** [any(path.endswith(a) or a in path for a in approvals)], left to
    right, stopping at the first true element. *)
Fixpoint any_approval (path : string) (approvals : list yaml) : result bool :=
  match approvals with
  | [] => Ok false
  | YStr a :: rest =>
      if PyStr.endswith path a || PyStr.contains a path then Ok true
      else any_approval path rest
  | _ :: _ => Raise TypeError
  end.

(** [_requires_approval] *)
Definition _requires_approval (g : GovernorEngine) (path : string) : result bool :=
  match iterate (default (YSeq []) (dict_get "approval_required_for" (rules g))) with
  | Ok approvals => any_approval path approvals
  | Raise e => Raise e
  end.

(** [allows] *)
Definition allows (now path : string) (g : GovernorEngine)
    : result GovernorDecision * GovernorEngine :=
  let ok := _lookup_permission g path in
  match _requires_approval g path with
  | Raise e => (Raise e, g)
  | Ok appr =>
      let d := mkDecision ok (if ok then "allowed" else "forbidden") appr in
      (Ok d, _audit now "permission_check" path (OfDecision d) g)
  end.

(** [min_v, max_v = bounds] *)
Definition unpack2 (bounds : yaml) : result (yaml * yaml) :=
  match iterate bounds with
  | Ok [a; b] => Ok (a, b)
  | Ok _ => Raise ValueError
  | Raise e => Raise e
  end.

(** the chained [.get] that fetches the bounds of [key] *)
Definition clamp_bounds (g : GovernorEngine) (key : string) : result (option yaml) :=
  match get_or_empty (default (YMap []) (dict_get "learning_bounds" (rules g)))
                     "personality_clamp" with
  | Ok (YMap table) => Ok (dict_get key table)
  | Ok _ => Raise AttributeError
  | Raise e => Raise e
  end.

(** [clamp] *)
Definition clamp (now category key : string) (value : Q) (g : GovernorEngine)
    : result Q * GovernorEngine :=
  match clamp_bounds g key with
  | Raise e => (Raise e, g)
  | Ok None => (Ok value, g)
  | Ok (Some bounds) =>
      if negb (truthy bounds) then (Ok value, g)
      else match unpack2 bounds with
           | Raise e => (Raise e, g)
           | Ok (lo, hi) =>
               match as_number hi, as_number lo with
               | Ok max_v, Ok min_v =>
                   let clamped := Qmax min_v (Qmin max_v value) in
                   (Ok clamped,
                    _audit now "clamp" (category ++ "." ++ key)
                           (OfClamp value clamped) g)
               | Raise e, _ => (Raise e, g)
               | _, Raise e => (Raise e, g)
               end
           end
  end.

(** [requires_approval]: [action in approvals], which is membership for
    a list and for the keys of a mapping and containment for a string *)
Definition requires_approval_exact (g : GovernorEngine) (action : string) : result bool :=
  match default (YSeq []) (dict_get "approval_required_for" (rules g)) with
  | YSeq l => Ok (existsb (fun a => match a with
                                    | YStr s => String.eqb s action
                                    | _ => false
                                    end) l)
  | YMap m => Ok (existsb (fun kv => String.eqb (fst kv) action) m)
  | YStr s => Ok (PyStr.contains action s)
  | _ => Raise TypeError
  end.

(** The outcome of [enforce]: it returns, or raises [GovernorViolation]
    with a message, or lets an exception of [allows] through. *)
Inductive enforced : Type :=
  | Enforced
  | Violation (message : string)
  | Failed (e : exn).

(** [enforce] *)
Definition enforce (now path : string) (g : GovernorEngine)
    : enforced * GovernorEngine :=
  match allows now path g with
  | (Raise e, g') => (Failed e, g')
  | (Ok d, g') =>
      if negb (allowed d) then
        (Violation ("Action '" ++ path ++ "' is forbidden by Governor."), g')
      else if requires_approval d then
        (Violation ("Action '" ++ path ++ "' requires human approval."), g')
      else (Enforced, g')
  end.

(** *** Specification-side notions *)

(** The segments [parts] are present as a chain of mapping keys from
    [node]: presence of a path means the path is allowed. *)
Inductive chain : yaml -> list string -> Prop :=
  | chain_nil node : chain node []
  | chain_cons m p child ps :
      dict_get p m = Some child ->
      chain child ps ->
      chain (YMap m) (p :: ps).

(** Following the keys [parts] down from [node] ends at [last]. *)
Inductive reaches : yaml -> list string -> yaml -> Prop :=
  | reaches_here node : reaches node [] node
  | reaches_step m p child ps last :
      dict_get p m = Some child ->
      reaches child ps last ->
      reaches (YMap m) (p :: ps) last.

Definition permissions (g : GovernorEngine) : yaml :=
  default (YMap []) (dict_get "permissions" (rules g)).

(** a segment holds no dot *)
Definition dot_free (w : string) : Prop :=
  ~ In "."%char (list_ascii_of_string w).

(** The dot-delimited path [path] consists of the segments [parts]: one
    segment, or a segment, a dot and the rest of the path. *)
Inductive segments : string -> list string -> Prop :=
  | segments_one w : dot_free w -> segments w [w]
  | segments_more w rest parts :
      dot_free w ->
      segments rest parts ->
      segments (w ++ "." ++ rest) (w :: parts).

(** [q] is a dot-delimited prefix of [p]: the whole of [p], or what
    stands before one of its dots. *)
Definition dot_prefix (q p : string) : Prop :=
  q = p \/ exists rest, p = (q ++ "." ++ rest)%string.

(** [path] is present in the permission tree of [g]: its segments are a
    chain of keys from the ["permissions"] subtree. *)
Definition present (g : GovernorEngine) (path : string) : Prop :=
  exists parts, segments path parts /\ chain (permissions g) parts.

(** Following [parts] from [node] meets, after the segments [before], a
    node that is not a mapping while segments remain. *)
Definition hits_malformed (node : yaml) (parts : list string) : Prop :=
  exists before p after bad,
    parts = before ++ p :: after
    /\ reaches node before bad
    /\ (forall m, bad <> YMap m).

(** The traversal of [path] in the permission tree of [g] meets a node
    that is not a mapping where a mapping is expected. *)
Definition malformed (g : GovernorEngine) (path : string) : Prop :=
  exists parts, segments path parts /\ hits_malformed (permissions g) parts.

(** The approval list is absent or a sequence of strings, as the rule
    source format has it. *)
Definition approvals_wf (g : GovernorEngine) : Prop :=
  match dict_get "approval_required_for" (rules g) with
  | None => True
  | Some (YSeq l) => Forall (fun a => exists s, a = YStr s) l
  | Some _ => False
  end.

(** [g'] is [g] with one more audit record, at the end. *)
Definition appends_one (g g' : GovernorEngine) : Prop :=
  rules g' = rules g /\ exists r, audit_log g' = audit_log g ++ [r].

(** [key] has a configured pair of numeric bounds. *)
Definition bounded (g : GovernorEngine) (key : string) (lo hi : Q) : Prop :=
  clamp_bounds g key = Ok (Some (YSeq [YNum lo; YNum hi])).

(** A rule file used in the examples: two permission chains, a leaf
    under ["models"], one approval-gated action and one clamp bound. *)
Definition sample_rules : pydict :=
  [ ("governor", YMap [("version", YStr "1.0")]);
    ("permissions",
     YMap [ ("cognition", YMap [("reason", YBool true)]);
            ("tools", YMap [("execute_code_in_sandbox", YBool true)]);
            ("models", YStr "none") ]);
    ("approval_required_for", YSeq [YStr "deploy"]);
    ("learning_bounds",
     YMap [("personality_clamp",
            YMap [("warmth", YSeq [YNum 0.2; YNum 0.8])])]) ].

(** The same rule file without the permission to run tools. *)
Definition sample_rules_no_tools : pydict :=
  [ ("governor", YMap [("version", YStr "1.0")]);
    ("permissions", YMap [ ("cognition", YMap [("reason", YBool true)]) ]) ].

(** A rule file that grants nothing. *)
Definition empty_rules : pydict :=
  [ ("governor", YMap [("version", YStr "1.0")]);
    ("permissions", YMap []) ].

(** A rule file whose approval list holds a number. *)
Definition rules_numeric_approval : pydict :=
  [ ("governor", YMap [("version", YStr "1.0")]);
    ("permissions", YMap [ ("cognition", YMap [("reason", YBool true)]) ]);
    ("approval_required_for", YSeq [YNum 42]) ].

(** A rule file whose approval list holds a string and then a number. *)
Definition rules_mixed_approval : pydict :=
  [ ("governor", YMap [("version", YStr "1.0")]);
    ("permissions",
     YMap [ ("tools", YMap [("x", YMap [("y", YBool true)])]) ]);
    ("approval_required_for", YSeq [YStr "tools.x"; YNum 42]) ].

End Engine.

(** ** emotion.py *)

Module Emotion.

(** [EmotionState.__init__] *)
Definition initial : gmap string Q :=
  {[ "happiness" := 0.5%Q; "sadness" := 0.2%Q;
     "curiosity" := 0.3%Q; "affinity" := 0.0%Q ]}.

(** [adjust_emotions]: four assignments in order; a missing key raises
    [KeyError] at its line and keeps the assignments made before it. *)
Definition adjust_emotions (delta : Q) (es : gmap string Q)
    : result unit * gmap string Q :=
  match es !! "happiness" with
  | None => (Raise KeyError, es)
  | Some h =>
  let es := <["happiness" := Qmax 0.0 (Qmin 1.0 (h + delta * 0.1))]> es in
  match es !! "sadness" with
  | None => (Raise KeyError, es)
  | Some s =>
  let es := <["sadness" := Qmax 0.0 (Qmin 1.0 (s - delta * 0.05))]> es in
  match es !! "curiosity" with
  | None => (Raise KeyError, es)
  | Some c =>
  let es := <["curiosity" := Qmax 0.0 (Qmin 1.0 (c + delta * 0.02))]> es in
  match es !! "affinity" with
  | None => (Raise KeyError, es)
  | Some f =>
  let es := <["affinity" := Qmax 0.0 (Qmin 1.0 (f + delta * 0.01))]> es in
  (Ok tt, es)
  end end end end.

(** [update_emotion] *)
Definition update_emotion (emotion : string) (value : Q) (es : gmap string Q)
    : gmap string Q :=
  match es !! emotion with
  | Some _ => <[emotion := Qmax 0.0 (Qmin 1.0 value)]> es
  | None => es
  end.

(** [emotional_summary]: a copy of the mapping *)
Definition emotional_summary (es : gmap string Q) : gmap string Q := es.

Definition axes : list string := ["happiness"; "sadness"; "curiosity"; "affinity"].

(** every one of the four axes is present with a value in [0,1] *)
Definition in_range (es : gmap string Q) : Prop :=
  forall k, In k axes -> exists v, es !! k = Some v /\ (0 <= v /\ v <= 1)%Q.

End Emotion.

(** ** config.py: the fields the pipeline reads *)

Module Config.

Record Config : Type := mkConfig {
  ai_name : string;
  user_name : string;
  (** [personality.get("core_traits")] *)
  core_traits : option (list string);
  commands : gmap string string;
  (** [state.emotion_state] *)
  state_emotion : gmap string Q
}.

Definition default_commands : gmap string string :=
  {[ "set timer" := "mika_trial.commands.CommandProcessor.set_timer";
     "list projects" := "mika_trial.commands.CommandProcessor.list_projects";
     "thank you" := "mika_trial.commands.CommandProcessor.fallback_chat";
     "hi" := "mika_trial.commands.CommandProcessor.fallback_chat";
     "how are you" := "mika_trial.commands.CommandProcessor.fallback_chat";
     "i'm good" := "mika_trial.commands.CommandProcessor.fallback_chat" ]}.

(** [Config()]: [DEFAULT_PERSONALITY] has no ["core_traits"]. *)
Definition default : Config :=
  {| ai_name := "MIKA";
     user_name := "Yuu";
     core_traits := None;
     commands := default_commands;
     state_emotion := Emotion.initial |}.

Definition with_state_emotion (es : gmap string Q) (c : Config) : Config :=
  {| ai_name := ai_name c;
     user_name := user_name c;
     core_traits := core_traits c;
     commands := commands c;
     state_emotion := es |}.

End Config.

(** ** feedback.py *)

Module Feedback.

Definition Qltb (x y : Q) : bool := negb (Qle_bool y x).

(** [RewardSystem]: the running score and the configuration it was
    built with, whose [state.emotion_state] it writes. *)
Record RewardSystem : Type := mkReward {
  config : Config.Config;
  score : Q
}.

(** [apply_reward] *)
Definition apply_reward (points : Q) (reason : string) (r : RewardSystem)
    : RewardSystem :=
  let score' := (score r + points)%Q in
  let es := Config.state_emotion (config r) in
  if Qltb 0 points then
    {| config := Config.with_state_emotion
                   (<["happiness" :=
                        Qmin 1.0 (default 0.5%Q (es !! "happiness") + 0.05)]> es)
                   (config r);
       score := score' |}
  else if Qltb points 0 then
    {| config := Config.with_state_emotion
                   (<["sadness" :=
                        Qmin 1.0 (default 0.2%Q (es !! "sadness") + 0.05)]> es)
                   (config r);
       score := score' |}
  else {| config := config r; score := score' |}.

(** [InternalFeedback.evaluate_response]: the adjusted text and the
    adjustments made (the second component of the source is always 0.0). *)
Definition evaluate_response (c : Config.Config) (user_text response : string)
    : string * list string :=
  let traits := default [] (Config.core_traits c) in
  if existsb (String.eqb "empathetic") traits
     && existsb (fun w => PyStr.contains w (PyStr.lower user_text))
                ["sad"; "stressed"; "upset"]
  then ((response ++ " I'm here with you.")%string, ["empathy_added"])
  else (response, []).

End Feedback.

(** ** memory.py *)

Module Memory.

Record MemoryItem : Type := mkItem {
  timestamp : Q;
  user_input : string;
  assistant_response : string;
  intent : string;
  emotion : gmap string Q;
  importance : Q;
  summary : option string
}.

(** One of the two lists of the persisted record: the key is absent, or
    building the items raises, or the items are built. *)
Inductive field : Type :=
  | Absent
  | Invalid
  | Items (l : list MemoryItem).

(** The memory file as [_load] finds it. *)
Inductive file : Type :=
  | Missing
  | Unreadable
  | Parsed (short long : field).

Record MemoryCore : Type := mkCore {
  memory_file : file;
  short_term_limit : Z;
  importance_threshold : Q;
  short_term : list MemoryItem;
  long_term : list MemoryItem
}.

Definition with_short (l : list MemoryItem) (m : MemoryCore) : MemoryCore :=
  mkCore (memory_file m) (short_term_limit m) (importance_threshold m)
         l (long_term m).

Definition with_long (l : list MemoryItem) (m : MemoryCore) : MemoryCore :=
  mkCore (memory_file m) (short_term_limit m) (importance_threshold m)
         (short_term m) l.

Definition with_file (f : file) (m : MemoryCore) : MemoryCore :=
  mkCore f (short_term_limit m) (importance_threshold m)
         (short_term m) (long_term m).

(** [data.get(key, [])] turned into items *)
Definition items_of (f : field) : result (list MemoryItem) :=
  match f with
  | Absent => Ok []
  | Invalid => Raise TypeError
  | Items l => Ok l
  end.

(** [_load]: the exception handler keeps what was assigned before. *)
Definition _load (m : MemoryCore) : MemoryCore :=
  match memory_file m with
  | Missing => m
  | Unreadable => m
  | Parsed short long =>
      match items_of short with
      | Raise _ => m
      | Ok st =>
          let m1 := with_short st m in
          match items_of long with
          | Raise _ => m1
          | Ok lt => with_long lt m1
          end
      end
  end.

(** [MemoryCore.__init__] over the file found at [memory_path] *)
Definition init (f : file) (limit : Z) (threshold : Q) : MemoryCore :=
  _load (mkCore f limit threshold [] []).

(** [save]: [disk_ok] says whether the write goes through; a write that
    fails is taken to fail before the file is touched, and its exception
    is logged and dropped.  The file is kept as what [_load] finds in it
    ([MemoryFile] below relates that to the document written). *)
Definition save (disk_ok : bool) (m : MemoryCore) : MemoryCore :=
  if disk_ok
  then with_file (Parsed (Items (short_term m)) (Items (long_term m))) m
  else m.

(** [add_interaction] *)
Definition add_interaction (now : Q) (disk_ok : bool)
    (user_input assistant_response intent : string)
    (emotion : gmap string Q) (importance : Q) (m : MemoryCore) : MemoryCore :=
  let item := mkItem now user_input assistant_response intent emotion
                     importance None in
  let st := short_term m ++ [item] in
  let st := if (Z.of_nat (length st) >? short_term_limit m)%Z
            then tail st else st in
  let lt := if Qle_bool (importance_threshold m) importance
            then long_term m ++ [item] else long_term m in
  save disk_ok (with_long lt (with_short st m)).

Definition newline : string := String (ascii_of_nat 10) EmptyString.

(** [get_recent_context] *)
Definition get_recent_context (m : MemoryCore) : string :=
  PyStr.join newline
    (flat_map (fun i => [("User: " ++ user_input i)%string;
                         ("MIKA: " ++ assistant_response i)%string])
              (short_term m)).

(** [get_emotional_trend] *)
Definition get_emotional_trend (m : MemoryCore) : gmap string Q :=
  match short_term m with
  | [] => ∅
  | _ =>
      let totals : gmap string Q :=
        fold_left
          (fun totals i =>
             map_fold (fun k v totals =>
                         <[k := (default 0.0%Q (totals !! k) + v)%Q]> totals)
                      totals (emotion i))
          (short_term m) ∅ in
      (fun v => (v / inject_Z (Z.of_nat (length (short_term m))))%Q) <$> totals
  end.

(** [l[start:]] *)
Definition slice_from {A} (start : Z) (l : list A) : list A :=
  let n := Z.of_nat (length l) in
  let s := if (start <? 0)%Z then Z.max 0 (start + n) else Z.min start n in
  drop (Z.to_nat s) l.

Section Summary.

(** The text of [round(x, 2)] inside an f-string. *)
Variable render : Q -> string.

Definition summary_text (window : list MemoryItem) : string :=
  PyStr.join " | "
    (map (fun i => (intent i ++ " (" ++ render (importance i) ++ ")")%string)
         window).

(** [summarize_long_term] *)
Definition summarize_long_term (now : Q) (disk_ok : bool) (max_items : Z)
    (m : MemoryCore) : MemoryCore :=
  if (Z.of_nat (length (long_term m)) <=? max_items)%Z then m
  else
    let summary_item :=
      mkItem now "(summary)" "(summary)" "memory_summary"
             (get_emotional_trend m) 1.0
             (Some (summary_text (slice_from (- max_items) (long_term m)))) in
    save disk_ok (with_long [summary_item] m).

End Summary.

(** *** Specification-side notions *)

(** the last [n] elements of [l], all of [l] when it has fewer *)
Definition most_recent {A} (n : nat) (l : list A) : list A :=
  drop (length l - n) l.

(** One mutation of a constructed store. *)
Inductive op : Type :=
  | Add (now : Q) (disk_ok : bool) (user_input assistant_response intent : string)
        (emotion : gmap string Q) (importance : Q)
  | Summarize (now : Q) (disk_ok : bool) (max_items : Z)
  | Save (disk_ok : bool).

(** the interaction an operation records, if it records one *)
Definition item_of (o : op) : list MemoryItem :=
  match o with
  | Add now _ u r i e imp => [mkItem now u r i e imp None]
  | _ => []
  end.

Section Run.
Variable render : Q -> string.

Definition step (m : MemoryCore) (o : op) : MemoryCore :=
  match o with
  | Add now ok u r i e imp => add_interaction now ok u r i e imp m
  | Summarize now ok k => summarize_long_term render now ok k m
  | Save ok => save ok m
  end.

Definition run (m : MemoryCore) (ops : list op) : MemoryCore :=
  fold_left step ops m.
End Run.

(** [i] is an item built by consolidation. *)
Definition is_summary (i : MemoryItem) : Prop :=
  intent i = "memory_summary" /\ importance i = 1.0%Q /\ is_Some (summary i).

(** How an item may have come into the long-term list: read from the
    file, built by consolidation, or recorded with an importance that
    reaches the threshold [T]. *)
Definition admitted (T : Q) (loaded added : list MemoryItem) (i : MemoryItem)
    : Prop :=
  In i loaded \/ is_summary i \/ (In i added /\ (T <= importance i)%Q).

(** What holds of a store with capacity [N] and threshold [T] that
    started from the lists [short0] and [long0] and recorded [added]. *)
Record inv (N : Z) (T : Q) (short0 long0 : list MemoryItem)
    (added : list MemoryItem) (m : MemoryCore) : Prop := mkInv {
  inv_limit : short_term_limit m = N;
  inv_threshold : importance_threshold m = T;
  inv_short : short_term m = most_recent (Z.to_nat N) (short0 ++ added);
  inv_long : Forall (admitted T long0 added) (long_term m)
}.

Definition sample_item (u : string) (imp : Q) : MemoryItem :=
  mkItem 0 u "ok" "greeting" ∅ imp None.

End Memory.

(** ** assistant.py *)

Module Assistant.

(** The analyzer's metadata; the pipeline reads only ["sentiment"]
    ([None] when the key is absent). *)
Record Metadata : Type := mkMeta {
  sentiment : option (gmap string Q)
}.

(** What one turn reads from its environment: the clock at the two
    policy queries and at the memory write, and whether the memory file
    can be written. *)
Record Turn : Type := mkTurn {
  gate_time : string;
  tool_time : string;
  memory_time : Q;
  disk_ok : bool
}.

(** Calls made to the external collaborators, in order: the analyzer,
    the handler registry with the handler it resolves, [_llm_response],
    and the output adapter. *)
Inductive call : Type :=
  | Analyze (text : string)
  | Handler (target text : string)
  | Generate (prompt : string)
  | Speak (text : string).

(** The [Config] object is shared by the assistant, its [RewardSystem]
    and its [InternalFeedback]; [emotion_engine] is the mapping of the
    [EmotionState] object the assistant builds for itself. *)
Record MikaAssistant : Type := mkMika {
  config : Config.Config;
  governor : Engine.GovernorEngine;
  emotion_engine : gmap string Q;
  reward_score : Q;
  memory : Memory.MemoryCore;
  calls : list call
}.

Definition with_governor (g : Engine.GovernorEngine) (a : MikaAssistant) :=
  mkMika (config a) g (emotion_engine a) (reward_score a) (memory a) (calls a).

Definition with_emotion (es : gmap string Q) (a : MikaAssistant) :=
  mkMika (config a) (governor a) es (reward_score a) (memory a) (calls a).

Definition with_memory (m : Memory.MemoryCore) (a : MikaAssistant) :=
  mkMika (config a) (governor a) (emotion_engine a) (reward_score a) m (calls a).

Definition called (c : call) (a : MikaAssistant) :=
  mkMika (config a) (governor a) (emotion_engine a) (reward_score a) (memory a)
         (calls a ++ [c]).

(** [self.reward_system.apply_reward]: the reward system writes the
    shared configuration. *)
Definition apply_reward (points : Q) (reason : string) (a : MikaAssistant) :=
  let r := Feedback.apply_reward points reason
             (Feedback.mkReward (config a) (reward_score a)) in
  mkMika (Feedback.config r) (governor a) (emotion_engine a) (Feedback.score r)
         (memory a) (calls a).

(** [bool(d)] for a [GovernorDecision]: the dataclass defines neither
    [__bool__] nor [__len__], so every instance is true. *)
Definition decision_truth (d : Engine.GovernorDecision) : bool := true.

Definition privileged (intent : string) : bool :=
  existsb (String.eqb intent) ["gratitude"; "emotion_check"; "conversation"].

(** [bool(sentiment)] for a mapping *)
Definition nonempty (m : gmap string Q) : bool :=
  match map_to_list m with [] => false | _ => true end.

(** [_estimate_importance] *)
Definition _estimate_importance (intent : string) (sentiment emotion : gmap string Q)
    : Q :=
  let score := (Qabs (default 0.5 (emotion !! "happiness") - 0.5)
                + Qabs (default 0.2 (emotion !! "sadness"))
                + Qabs (default 0.3 (emotion !! "curiosity")))%Q in
  let score := if privileged intent then (score + 0.2)%Q else score in
  let score := if nonempty sentiment
               then (score + Qabs (default 0.0 (sentiment !! "compound")) * 0.3)%Q
               else score in
  Qmin score 1.0.

Definition refusal_reason : string := "I’m not allowed to reason right now.".
Definition refusal_command : string := "I’m not permitted to execute that command.".
Definition apology : string := "I couldn’t complete that command.".
Definition placeholder : string := "I’m listening. Tell me more.".

Section Collaborators.

(** [self.nlp.analyze] *)
Variable analyze : string -> string * Metadata.

(** [self.model]: absent when no model is loaded; given the
    assistant's name, the recent context, the emotional trend and the
    prompt, the text of the first choice. *)
Variable model : option (string -> string -> gmap string Q -> string -> string).

(** [self.command_processor.resolve_handler], which [commands.py] does
    not define: taken as given.  A handler gets the text, the metadata
    and the emotion engine, which it may write. *)
Variable resolve_handler :
  string ->
  result (string -> Metadata -> gmap string Q -> result string * gmap string Q).

(** [_llm_response] *)
Definition _llm_response (a : MikaAssistant) (prompt : string) : string :=
  match model with
  | None => placeholder
  | Some llm =>
      let text := llm (Config.ai_name (config a))
                      (Memory.get_recent_context (memory a))
                      (Memory.get_emotional_trend (memory a)) prompt in
      if String.eqb text "" then "I’m listening." else PyStr.strip text
  end.

(** the [try] block of the command path *)
Definition run_command (target text : string) (metadata : Metadata)
    (a : MikaAssistant) : string * MikaAssistant :=
  let a := called (Handler target text) a in
  match resolve_handler target with
  | Raise _ => (apology, apply_reward (-1) "command_failure" a)
  | Ok handler =>
      match handler text metadata (emotion_engine a) with
      | (Ok response, es) =>
          (response, apply_reward 1 "command_success" (with_emotion es a))
      | (Raise _, es) =>
          (apology, apply_reward (-1) "command_failure" (with_emotion es a))
      end
  end.

(** the routing of [handle_input]: command path or generative path *)
Definition route (env : Turn) (text : string) (metadata : Metadata)
    (a : MikaAssistant) : result string * MikaAssistant :=
  match Config.commands (config a) !! PyStr.lower text with
  | Some target =>
      match Engine.allows (tool_time env) "tools.execute_code_in_sandbox"
                          (governor a) with
      | (Raise e, g) => (Raise e, with_governor g a)
      | (Ok d, g) =>
          let a := with_governor g a in
          if negb (decision_truth d) then (Ok refusal_command, a)
          else let '(response, a) := run_command target text metadata a in
               (Ok response, a)
      end
  | None =>
      (Ok (_llm_response a text), called (Generate text) a)
  end.

(** [handle_input] *)
Definition handle_input (env : Turn) (text : string) (a : MikaAssistant)
    : result unit * MikaAssistant :=
  match Engine.allows (gate_time env) "cognition.reason" (governor a) with
  | (Raise e, g) => (Raise e, with_governor g a)
  | (Ok d, g) =>
      let a := with_governor g a in
      if negb (decision_truth d) then
        (Ok tt, called (Speak refusal_reason) a)
      else
        let '(intent, metadata) := analyze text in
        let a := called (Analyze text) a in
        let emotion_before := Emotion.emotional_summary (emotion_engine a) in
        match route env text metadata a with
        | (Raise e, a) => (Raise e, a)
        | (Ok response, a) =>
            let adjusted_response :=
              fst (Feedback.evaluate_response (config a) text response) in
            let importance :=
              _estimate_importance intent (default ∅ (sentiment metadata))
                                   emotion_before in
            let a := with_memory
                       (Memory.add_interaction (memory_time env) (disk_ok env)
                          text adjusted_response intent emotion_before
                          importance (memory a)) a in
            (Ok tt, called (Speak adjusted_response) a)
        end
  end.

End Collaborators.

(** [MikaAssistant.__init__] over a loaded governor, with the default
    configuration and no memory file. *)
Definition fresh (rules : Engine.pydict) : MikaAssistant :=
  mkMika Config.default (Engine.mkEngine rules []) Emotion.initial 0
         (Memory.init Memory.Missing 10 0.6) [].

(** *** Specification-side notions *)

(** The importance formula as the specification words it. *)
Definition importance_spec (intent : string) (sentiment : option (gmap string Q))
    (happiness sadness curiosity : Q) : Q :=
  let base := (Qabs (happiness - 0.5) + Qabs sadness + Qabs curiosity)%Q in
  let bonus := if bool_decide (intent = "gratitude"
                               \/ intent = "emotion_check"
                               \/ intent = "conversation")
               then 0.2%Q else 0%Q in
  let mood := match sentiment with
              | Some s => (Qabs (default 0%Q (s !! "compound")) * 0.3)%Q
              | None => 0%Q
              end in
  Qmax 0 (Qmin 1 (base + bonus + mood)).

(** the texts spoken, in order *)
Definition spoken (a : MikaAssistant) : list string :=
  flat_map (fun c => match c with Speak s => [s] | _ => [] end) (calls a).

Definition analyzer_called (a : MikaAssistant) : bool :=
  existsb (fun c => match c with Analyze _ => true | _ => false end) (calls a).

Definition routed (a : MikaAssistant) : bool :=
  existsb (fun c => match c with
                    | Handler _ _ | Generate _ => true
                    | _ => false
                    end) (calls a).

End Assistant.

(** ** Calls on the affect state *)

Module Affect.

(** A call that moves an affect mapping. *)
Inductive op : Type :=
  | Adjust (delta : Q)
  | Reward (points : Q) (reason : string).

(** As the assistant builds them: the mapping of its [EmotionState],
    moved by [adjust_emotions], and its [RewardSystem], which moves the
    mapping held by the configuration. *)
Record state : Type := mkState {
  engine : gmap string Q;
  rewards : Feedback.RewardSystem
}.

Definition step (s : state) (o : op) : result unit * state :=
  match o with
  | Adjust delta =>
      let '(r, es) := Emotion.adjust_emotions delta (engine s) in
      (r, mkState es (rewards s))
  | Reward points reason =>
      (Ok tt, mkState (engine s) (Feedback.apply_reward points reason (rewards s)))
  end.

(** The calls in order; an exception ends the sequence. *)
Fixpoint run (s : state) (ops : list op) : result unit * state :=
  match ops with
  | [] => (Ok tt, s)
  | o :: ops' =>
      match step s o with
      | (Ok _, s') => run s' ops'
      | (Raise e, s') => (Raise e, s')
      end
  end.

(** The same calls when the mapping of the [EmotionState] and the
    mapping of the configuration are one object. *)
Definition step_shared (r : Feedback.RewardSystem) (o : op)
    : result unit * Feedback.RewardSystem :=
  match o with
  | Adjust delta =>
      let '(res, es) :=
        Emotion.adjust_emotions delta (Config.state_emotion (Feedback.config r)) in
      (res, Feedback.mkReward (Config.with_state_emotion es (Feedback.config r))
                              (Feedback.score r))
  | Reward points reason => (Ok tt, Feedback.apply_reward points reason r)
  end.

Fixpoint run_shared (r : Feedback.RewardSystem) (ops : list op)
    : result unit * Feedback.RewardSystem :=
  match ops with
  | [] => (Ok tt, r)
  | o :: ops' =>
      match step_shared r o with
      | (Ok _, r') => run_shared r' ops'
      | (Raise e, r') => (Raise e, r')
      end
  end.

(** the value [x] clamped to [0,1] as the source writes it *)
Definition clamp01 (x : Q) : Q := Qmax 0.0 (Qmin 1.0 x).

End Affect.

(** ** engine.py: construction and sequences of calls *)

Module EngineLoad.

Inductive outcome : Type :=
  | Loaded (g : Engine.GovernorEngine)
  | FileNotFound
  | Failed (e : exn).

(** [GovernorEngine.__init__] over what [yaml.safe_load] gives for the
    rule file, [None] when the file does not exist: the version is read
    with [rules["governor"]["version"]] and the audit log starts empty. *)
Definition init (file : option Engine.yaml) : outcome :=
  match file with
  | None => FileNotFound
  | Some rules =>
      match Engine.subscript rules "governor" with
      | Raise e => Failed e
      | Ok gov =>
          match Engine.subscript gov "version" with
          | Raise e => Failed e
          | Ok _ =>
              match rules with
              | Engine.YMap m => Loaded (Engine.mkEngine m [])
              | _ => Failed TypeError
              end
          end
      end
  end.

(** One query made of a constructed engine. *)
Inductive call : Type :=
  | Allows (now path : string)
  | Clamp (now category key : string) (value : Q)
  | Enforce (now path : string).

(** the engine after the call, whether it returned or raised *)
Definition step (g : Engine.GovernorEngine) (c : call) : Engine.GovernorEngine :=
  match c with
  | Allows now path => snd (Engine.allows now path g)
  | Clamp now category key value => snd (Engine.clamp now category key value g)
  | Enforce now path => snd (Engine.enforce now path g)
  end.

Definition run (g : Engine.GovernorEngine) (calls : list call)
    : Engine.GovernorEngine :=
  fold_left step calls g.

(** the strings of an approval list *)
Definition strings_of (l : list Engine.yaml) : list string :=
  flat_map (fun a => match a with Engine.YStr s => [s] | _ => [] end) l.

End EngineLoad.

(** ** config.py: the check of the emotion state *)

Module ConfigCheck.

(** One round of the loop of [__post_init__]: a key that is missing or
    whose value lies outside [0,1] is set to 0.5. *)
Definition check_key (es : gmap string Q) (key : string) : gmap string Q :=
  match es !! key with
  | Some v => if Qle_bool 0 v && Qle_bool v 1 then es else <[key := 0.5%Q]> es
  | None => <[key := 0.5%Q]> es
  end.

(** The loop over [required_emotion_keys], a set, in the order [keys]. *)
Definition post_init_emotion (keys : list string) (es : gmap string Q)
    : gmap string Q :=
  fold_left check_key keys es.

(** What the check makes of the entry of a required key. *)
Definition checked (entry : option Q) : option Q :=
  match entry with
  | Some v => if Qle_bool 0 v && Qle_bool v 1 then Some v else Some 0.5%Q
  | None => Some 0.5%Q
  end.

End ConfigCheck.

(** ** emotion.py: [evaluate_user_response] *)

Module EmotionEval.

(** [reward_cfg] when it is a mapping, with the defaults of its three
    [.get] calls filled in. *)
Record RewardCfg : Type := mkCfg {
  positive_keywords : list string;
  negative_keywords : list string;
  intensity_weights : list (string * Q)
}.

(** What is known of [reward_system_obj] when it is true: whether it has
    [give_reward] and [give_penalty]. *)
Record Rewarder : Type := mkRewarder {
  has_give_reward : bool;
  has_give_penalty : bool
}.

(** A call made on [reward_system_obj]. *)
Inductive reward_call : Type :=
  | GiveReward (amount : Z) (reason : string)
  | GivePenalty (amount : Z) (reason : string).

Record Sentiment : Type := mkSentiment {
  positive : nat;
  negative : nat;
  compound : Q
}.

(** The emotion engine and the calls made so far. *)
Definition state : Type := (gmap string Q * list reward_call)%type.

Definition count_matches (keywords : list string) (command_lower : string) : nat :=
  length (filter (fun kw => PyStr.contains kw command_lower = true) keywords).

Definition reward (obj : option Rewarder) (amount : Z) (reason : string)
    (calls : list reward_call) : list reward_call :=
  match obj with
  | Some o => if has_give_reward o then calls ++ [GiveReward amount reason] else calls
  | None => calls
  end.

Definition penalty (obj : option Rewarder) (amount : Z) (reason : string)
    (calls : list reward_call) : list reward_call :=
  match obj with
  | Some o => if has_give_penalty o then calls ++ [GivePenalty amount reason] else calls
  | None => calls
  end.

(** [max(1, int(abs(w)))] *)
Definition magnitude (w : Q) : Z := Z.max 1 (Qfloor (Qabs w)).

(** the loop over [intensity.items()] *)
Fixpoint apply_intensity (obj : option Rewarder) (command_lower : string)
    (weights : list (string * Q)) (st : state) : result unit * state :=
  match weights with
  | [] => (Ok tt, st)
  | (phrase, w) :: rest =>
      if PyStr.contains phrase command_lower then
        match Emotion.adjust_emotions w (fst st) with
        | (Raise e, es) => (Raise e, (es, snd st))
        | (Ok _, es) =>
            let calls :=
              if Feedback.Qltb 0 w
              then reward obj (magnitude w) ("intensity:" ++ phrase) (snd st)
              else penalty obj (magnitude w) ("intensity:" ++ phrase) (snd st) in
            apply_intensity obj command_lower rest (es, calls)
        end
      else apply_intensity obj command_lower rest st
  end.

(** the block guarded by [if sentiment and isinstance(sentiment, ...)] *)
Definition apply_sentiment (obj : option Rewarder) (sentiment : Q) (st : state)
    : result unit * state :=
  if Qeq_bool sentiment 0 then (Ok tt, st)
  else if Feedback.Qltb 0.3 sentiment then
    match Emotion.adjust_emotions 1.0 (fst st) with
    | (Raise e, es) => (Raise e, (es, snd st))
    | (Ok _, es) => (Ok tt, (es, reward obj 1 "positive_sentiment_override" (snd st)))
    end
  else if Feedback.Qltb sentiment (-0.3) then
    match Emotion.adjust_emotions (-1.0) (fst st) with
    | (Raise e, es) => (Raise e, (es, snd st))
    | (Ok _, es) => (Ok tt, (es, penalty obj 1 "negative_sentiment_override" (snd st)))
    end
  else (Ok tt, st).

(** [compound / max(1.0, abs(compound))] when [compound != 0] *)
Definition normalize (c : Q) : Q :=
  if Qeq_bool c 0 then c else (c / Qmax 1.0 (Qabs c))%Q.

(** the two [adjust_emotions] calls on the keyword counts *)
Definition apply_counts (pos neg : nat) (es : gmap string Q)
    : result unit * gmap string Q :=
  match (if (0 <? pos)%nat
         then Emotion.adjust_emotions (inject_Z (Z.of_nat pos) * 0.5) es
         else (Ok tt, es)) with
  | (Raise e, es) => (Raise e, es)
  | (Ok _, es) =>
      if (0 <? neg)%nat
      then Emotion.adjust_emotions (- inject_Z (Z.of_nat neg) * 0.5) es
      else (Ok tt, es)
  end.

(** the reward or penalty on the net keyword count *)
Definition apply_net (obj : option Rewarder) (pos neg : nat)
    (calls : list reward_call) : list reward_call :=
  let net := (Z.of_nat pos - Z.of_nat neg)%Z in
  match obj with
  | None => calls
  | Some o =>
      if (0 <? net)%Z && has_give_reward o
      then calls ++ [GiveReward (Z.max 1 net) "keyword_positive"]
      else if (net <? 0)%Z && has_give_penalty o
      then calls ++ [GivePenalty (Z.max 1 (Z.abs net)) "keyword_negative"]
      else calls
  end.

(** [evaluate_user_response]: [command] is [None] for a false command,
    [reward_cfg] is [None] when it is no mapping, [obj] is [None] for a
    false [reward_system_obj]; the debug log is left out. *)
Definition evaluate_user_response (command : option string)
    (reward_cfg : option RewardCfg) (es : gmap string Q)
    (obj : option Rewarder) (sentiment : Q)
    : result Sentiment * state :=
  let command_lower := PyStr.lower (default "" command) in
  let pos := match reward_cfg with
             | Some cfg => count_matches (positive_keywords cfg) command_lower
             | None => 0%nat
             end in
  let neg := match reward_cfg with
             | Some cfg => count_matches (negative_keywords cfg) command_lower
             | None => 0%nat
             end in
  match apply_intensity obj command_lower
          (match reward_cfg with Some cfg => intensity_weights cfg | None => [] end)
          (es, []) with
  | (Raise e, st) => (Raise e, st)
  | (Ok _, st) =>
      match apply_sentiment obj sentiment st with
      | (Raise e, st) => (Raise e, st)
      | (Ok _, st) =>
          let c := ((if Qeq_bool sentiment 0 then 0.0 else 0.0 + sentiment)
                    + inject_Z (Z.of_nat pos - Z.of_nat neg))%Q in
          match apply_counts pos neg (fst st) with
          | (Raise e, es) => (Raise e, (es, snd st))
          | (Ok _, es) =>
              (Ok (mkSentiment pos neg (normalize c)),
               (es, apply_net obj pos neg (snd st)))
          end
      end
  end.

(** [obj] is false or has neither [give_reward] nor [give_penalty], as
    the [RewardSystem] of feedback.py. *)
Definition quiet (obj : option Rewarder) : Prop :=
  match obj with
  | None => True
  | Some o => has_give_reward o = false /\ has_give_penalty o = false
  end.

End EmotionEval.

(** ** commands.py *)

Module Commands.

(** [s.split()]: the words between runs of white space *)
Fixpoint split_ws (s : string) : list string :=
  match s with
  | EmptyString => []
  | String c s' =>
      if PyStr.is_space c then split_ws s'
      else match s' with
           | EmptyString => [String c EmptyString]
           | String c' _ =>
               if PyStr.is_space c' then String c EmptyString :: split_ws s'
               else match split_ws s' with
                    | w :: ws => String c w :: ws
                    | [] => [String c EmptyString]
                    end
           end
  end.

Definition is_digit (c : ascii) : bool :=
  let n := nat_of_ascii c in (48 <=? n)%nat && (n <=? 57)%nat.

(** The digits of an integer literal without its underscores; an
    underscore is accepted only between two digits. *)
Fixpoint drop_underscores (s : string) : option string :=
  match s with
  | EmptyString => Some EmptyString
  | String c s' =>
      if Ascii.eqb c "_" then
        match s' with
        | String c' _ => if is_digit c' then drop_underscores s' else None
        | EmptyString => None
        end
      else option_map (String c) (drop_underscores s')
  end.

(** [int(s)] for a string of ASCII characters: optional sign, decimal
    digits with single underscores between them; [None] is [ValueError].
    No limit is put on the number of digits, where CPython from 3.11 on
    refuses more than 4300. *)
Definition py_int (s : string) : option Z :=
  let s := PyStr.strip s in
  let '(negative, body) :=
    match s with
    | String c r => if Ascii.eqb c "-" then (true, r)
                    else if Ascii.eqb c "+" then (false, r)
                    else (false, s)
    | EmptyString => (false, s)
    end in
  match body with
  | EmptyString => None
  | String c _ =>
      if is_digit c then
        match drop_underscores body with
        | Some digits =>
            match NilZero.uint_of_string digits with
            | Some u => Some (if negative then (- Z.of_uint u)%Z else Z.of_uint u)
            | None => None
            end
        | None => None
        end
      else None
  end.

(** an [int] inside an f-string *)
Definition str_int (z : Z) : string := NilZero.string_of_int (Z.to_int z).

Record Timer : Type := mkTimer {
  set_time : string;
  duration : Z;
  notified : bool
}.

Definition not_caught : string :=
  "I didnâ€™t catch that. Please say 'set timer X minutes'.".
Definition not_positive : string := "Please set a positive duration.".
Definition invalid_format : string :=
  "Invalid timer format. Try 'set timer 5 minutes'.".

(** [set_timer] over [user_data.get("timers")] ([None] when the key is
    absent) and the reading of the clock. *)
Definition set_timer (now : string) (command : string) (timers : option (list Timer))
    : result string * option (list Timer) :=
  let parts := split_ws (PyStr.lower command) in
  match parts with
  | p0 :: p1 :: p2 :: _ =>
      if negb (String.eqb p0 "set") || negb (String.eqb p1 "timer")
      then (Ok not_caught, timers)
      else match py_int p2 with
           | None => (Ok invalid_format, timers)
           | Some d =>
               if (d <=? 0)%Z then (Ok not_positive, timers)
               else match timers with
                    | None => (Raise KeyError, timers)
                    | Some ts =>
                        (Ok ("Timer set for " ++ str_int d ++ " minutes!")%string,
                         Some (ts ++ [mkTimer now d false]))
                    end
           end
  | _ => (Ok not_caught, timers)
  end.

Section Context.

(** The metadata of a turn and its [.get("entities", [])]. *)
Variable Meta : Type.
Variable entities : Meta -> list (string * string).

Record Context : Type := mkContext {
  history : list (string * string * Meta);
  last_intent : option string;
  last_entities : list (string * string)
}.

(** [self.context] and [self.max_history] as [__init__] sets them *)
Definition initial : Context := mkContext [] None [].
Definition max_history : Z := 5.

(** [_update_context] *)
Definition _update_context (command intent : string) (metadata : Meta)
    (ctx : Context) : Context :=
  let h := history ctx ++ [(command, intent, metadata)] in
  let h := if (Z.of_nat (length h) >? max_history)%Z then tail h else h in
  mkContext h (Some intent) (entities metadata).

(** [_handle_chained_intent] *)
Definition _handle_chained_intent (user_name intent : string) (ctx : Context)
    : option string :=
  if match last_intent ctx with
     | Some i => String.eqb i "set timer"
     | None => false
     end
     && existsb (String.eqb intent) ["thank you"; "hi"]
  then Some ("You're welcome, " ++ user_name ++ "! Timer's all set. ðŸ˜Š")%string
  else None.

(** The first two steps of [process]: the context is updated, then the
    chained intent is tried. *)
Definition process_chained (user_name command intent : string) (metadata : Meta)
    (ctx : Context) : option string * Context :=
  let ctx := _update_context command intent metadata ctx in
  (_handle_chained_intent user_name intent ctx, ctx).

(** [_update_context] for a run of turns, in order *)
Definition update_all (turns : list (string * string * Meta)) (ctx : Context)
    : Context :=
  fold_left (fun c t => _update_context (fst (fst t)) (snd (fst t)) (snd t) c)
            turns ctx.

End Context.

(** A character of a decimal numeral: a digit, hence no white space, no
    sign, no underscore, and its own lower case. *)
Definition numeral_char (c : ascii) : Prop :=
  is_digit c = true /\ PyStr.is_space c = false
  /\ Ascii.eqb c "_" = false /\ Ascii.eqb c "-" = false /\ Ascii.eqb c "+" = false
  /\ PyStr.lower_ascii c = c.

Definition numeral (s : string) : Prop :=
  Forall numeral_char (list_ascii_of_string s).

End Commands.

(** ** memory.py: the sum behind the emotional trend *)

Module MemorySpec.

(** The sum over the items of the value each holds for axis [k], an item
    without the axis counting as zero. *)
Fixpoint axis_sum (k : string) (items : list Memory.MemoryItem) : Q :=
  match items with
  | [] => 0
  | i :: rest => (default 0%Q (Memory.emotion i !! k) + axis_sum k rest)%Q
  end.

(** every value of the emotion snapshot of [i] lies in [0,1] *)
Definition snapshot_in_range (i : Memory.MemoryItem) : Prop :=
  forall k v, Memory.emotion i !! k = Some v -> (0 <= v /\ v <= 1)%Q.

Definition has_axis (k : string) (i : Memory.MemoryItem) : Prop :=
  is_Some (Memory.emotion i !! k).

(** the inner loop of [get_emotional_trend]: one item added to the totals *)
Definition add_totals (totals : gmap string Q) (i : Memory.MemoryItem)
    : gmap string Q :=
  map_fold (fun k v totals => <[k := (default 0.0%Q (totals !! k) + v)%Q]> totals)
           totals (Memory.emotion i).

End MemorySpec.

(** ** memory.py: the document in the memory file *)

Module MemoryFile.

(** What [json.dumps] takes and [json.loads] returns; an object is an
    association list read by first match.  On the documents [save]
    builds (objects with string keys, strings, floats and [None])
    [json.loads] gives back the value [json.dumps] was given, so the file
    is taken to hold the value, not its text. *)
Inductive json : Type :=
  | JNull
  | JBool (b : bool)
  | JNum (q : Q)
  | JStr (s : string)
  | JArr (l : list json)
  | JObj (m : list (string * json)).

Fixpoint get (k : string) (m : list (string * json)) : option json :=
  match m with
  | [] => None
  | (k', v) :: m' => if String.eqb k k' then Some v else get k m'
  end.

(** [asdict(m)]: the fields in the order of the dataclass, the emotion
    mapping copied. *)
Definition asdict (i : Memory.MemoryItem) : json :=
  JObj [ ("timestamp", JNum (Memory.timestamp i));
         ("user_input", JStr (Memory.user_input i));
         ("assistant_response", JStr (Memory.assistant_response i));
         ("intent", JStr (Memory.intent i));
         ("emotion",
          JObj (map (fun kv => (fst kv, JNum (snd kv)))
                    (map_to_list (Memory.emotion i))));
         ("importance", JNum (Memory.importance i));
         ("summary", match Memory.summary i with
                     | Some t => JStr t
                     | None => JNull
                     end) ].

(** the [data] that [save] hands to [json.dumps] *)
Definition data (m : Memory.MemoryCore) : json :=
  JObj [ ("short_term", JArr (map asdict (Memory.short_term m)));
         ("long_term", JArr (map asdict (Memory.long_term m))) ].

Definition field_names : list string :=
  ["timestamp"; "user_input"; "assistant_response"; "intent"; "emotion";
   "importance"; "summary"].

(** the fields without a default *)
Definition required : list string :=
  ["timestamp"; "user_input"; "assistant_response"; "intent"; "emotion";
   "importance"].

(** an emotion mapping whose values are numbers *)
Fixpoint emotion_of (e : list (string * json)) : option (gmap string Q) :=
  match e with
  | [] => Some ∅
  | (k, JNum v) :: rest =>
      match emotion_of rest with
      | Some es => Some (<[k := v]> es)
      | None => None
      end
  | _ :: _ => None
  end.

(** the value of [summary]: absent (the default [None]), [None] or a string *)
Definition summary_of (v : option json) : option (option string) :=
  match v with
  | None => Some None
  | Some JNull => Some None
  | Some (JStr t) => Some (Some t)
  | Some _ => None
  end.

(** The item whose fields are the values of [kvs], when these have the
    annotated types. *)
Definition typed (kvs : list (string * json)) : option Memory.MemoryItem :=
  match get "timestamp" kvs, get "user_input" kvs, get "assistant_response" kvs,
        get "intent" kvs, get "emotion" kvs, get "importance" kvs with
  | Some (JNum ts), Some (JStr u), Some (JStr r),
    Some (JStr i), Some (JObj e), Some (JNum imp) =>
      match emotion_of e, summary_of (get "summary" kvs) with
      | Some es, Some sm => Some (Memory.mkItem ts u r i es imp sm)
      | _, _ => None
      end
  | _, _, _, _, _, _ => None
  end.

(** What building a [MemoryItem] from the keywords of a mapping (the
    double-star call of [_load]) does: it raises, or builds an item; the
    dataclass does not check the values, and an item built from values
    that are not of the annotated types has no counterpart among the
    typed items: [Untyped]. *)
Inductive built : Type :=
  | Built (i : Memory.MemoryItem)
  | Raises (e : exn)
  | Untyped.

(** The double-star call of [MemoryItem]: [TypeError] for an argument
    that is not a mapping, for a keyword that is not a field and for a missing field
    without a default. *)
Definition build (m : json) : built :=
  match m with
  | JObj kvs =>
      if existsb (fun kv => negb (existsb (String.eqb (fst kv)) field_names)) kvs
      then Raises TypeError
      else if negb (forallb (fun k => bool_decide (is_Some (get k kvs))) required)
      then Raises TypeError
      else match typed kvs with
           | Some i => Built i
           | None => Untyped
           end
  | _ => Raises TypeError
  end.

(** The list comprehension of [_load] over the elements of [l], left to
    right: the first element that raises ends it; [None] when it builds
    an untyped item and does not raise. *)
Fixpoint build_all (l : list json) : option (result (list Memory.MemoryItem)) :=
  match l with
  | [] => Some (Ok [])
  | m :: rest =>
      match build m with
      | Raises e => Some (Raise e)
      | Built i =>
          match build_all rest with
          | Some (Ok items) => Some (Ok (i :: items))
          | other => other
          end
      | Untyped =>
          match build_all rest with
          | Some (Raise e) => Some (Raise e)
          | _ => None
          end
      end
  end.

(** [iter(v)] *)
Definition iterate (v : json) : result (list json) :=
  match v with
  | JArr l => Ok l
  | JObj m => Ok (map (fun kv => JStr (fst kv)) m)
  | JStr s => Ok (map JStr (PyStr.chars s))
  | _ => Raise TypeError
  end.

(** the items [_load] builds from [data.get(key, [])] *)
Definition field_of (key : string) (doc : list (string * json))
    : option Memory.field :=
  match get key doc with
  | None => Some Memory.Absent
  | Some v =>
      match iterate v with
      | Raise _ => Some Memory.Invalid
      | Ok l =>
          match build_all l with
          | Some (Ok items) => Some (Memory.Items items)
          | Some (Raise _) => Some Memory.Invalid
          | None => None
          end
      end
  end.

(** The file as [_load] finds it when [json.loads] returns [doc];
    [None] when the document makes [_load] build an untyped item.  A
    document that is not an object has no [get]; the second list is not
    read when the first one raises. *)
Definition found (doc : json) : option Memory.file :=
  match doc with
  | JObj kvs =>
      match field_of "short_term" kvs with
      | Some Memory.Invalid => Some (Memory.Parsed Memory.Invalid Memory.Invalid)
      | Some short =>
          match field_of "long_term" kvs with
          | Some long => Some (Memory.Parsed short long)
          | None => None
          end
      | None => None
      end
  | _ => Some (Memory.Parsed Memory.Invalid Memory.Invalid)
  end.

End MemoryFile.

(** ** assistant.py: the turn and the loop, with collaborators that may raise *)

Module Session.

Import Assistant.

Section Collaborators.

(** [str.lower] and [str.strip] of Python over any text; on ASCII text
    they are [PyStr.lower] and [PyStr.strip]. *)
Variable lower : string -> string.
Variable strip : string -> string.

(** [self.nlp.analyze], [self.model] (with the text of its first choice)
    and [speak_fn] are called outside any [try]: each returns or raises. *)
Variable analyze : string -> result (string * Metadata).
Variable model :
  option (string -> string -> gmap string Q -> string -> result string).
Variable speak_fn : string -> result unit.

(** [self.command_processor.resolve_handler], as in [Assistant]. *)
Variable resolve_handler :
  string ->
  result (string -> Metadata -> gmap string Q -> result string * gmap string Q).

(** [speak]: the text is handed to [speak_fn]. *)
Definition speak (text : string) (a : MikaAssistant)
    : result unit * MikaAssistant :=
  let a := called (Speak text) a in
  match speak_fn text with
  | Ok _ => (Ok tt, a)
  | Raise e => (Raise e, a)
  end.

(** [_llm_response] *)
Definition _llm_response (a : MikaAssistant) (prompt : string) : result string :=
  match model with
  | None => Ok placeholder
  | Some llm =>
      match llm (Config.ai_name (config a))
                (Memory.get_recent_context (memory a))
                (Memory.get_emotional_trend (memory a)) prompt with
      | Raise e => Raise e
      | Ok text => Ok (if String.eqb text "" then "I’m listening." else strip text)
      end
  end.

(** the routing of [handle_input]: command path or generative path *)
Definition route (env : Turn) (text : string) (metadata : Metadata)
    (a : MikaAssistant) : result string * MikaAssistant :=
  match Config.commands (config a) !! lower text with
  | Some target =>
      match Engine.allows (tool_time env) "tools.execute_code_in_sandbox"
                          (governor a) with
      | (Raise e, g) => (Raise e, with_governor g a)
      | (Ok d, g) =>
          let a := with_governor g a in
          if negb (decision_truth d) then (Ok refusal_command, a)
          else let '(response, a) :=
                 run_command resolve_handler target text metadata a in
               (Ok response, a)
      end
  | None =>
      match _llm_response a text with
      | Ok response => (Ok response, called (Generate text) a)
      | Raise e => (Raise e, called (Generate text) a)
      end
  end.

(** [handle_input] *)
Definition handle_input (env : Turn) (text : string) (a : MikaAssistant)
    : result unit * MikaAssistant :=
  match Engine.allows (gate_time env) "cognition.reason" (governor a) with
  | (Raise e, g) => (Raise e, with_governor g a)
  | (Ok d, g) =>
      let a := with_governor g a in
      if negb (decision_truth d) then speak refusal_reason a
      else
        let a := called (Analyze text) a in
        match analyze text with
        | Raise e => (Raise e, a)
        | Ok (intent, metadata) =>
            let emotion_before := Emotion.emotional_summary (emotion_engine a) in
            match route env text metadata a with
            | (Raise e, a) => (Raise e, a)
            | (Ok response, a) =>
                let adjusted_response :=
                  fst (Feedback.evaluate_response (config a) text response) in
                let importance :=
                  _estimate_importance intent (default ∅ (sentiment metadata))
                                       emotion_before in
                let a := with_memory
                           (Memory.add_interaction (memory_time env) (disk_ok env)
                              text adjusted_response intent emotion_before
                              importance (memory a)) a in
                speak adjusted_response a
            end
        end
  end.

(** The loop of [start] over the texts [listen_fn] returns, up to the
    round in which the shutdown event is found set or [listen_fn] itself
    raises, each with the readings of its turn: an empty text is skipped,
    the others are stripped and handled; an exception leaves the loop. *)
Fixpoint loop (inputs : list (Turn * string)) (a : MikaAssistant)
    : result unit * MikaAssistant :=
  match inputs with
  | [] => (Ok tt, a)
  | (env, user_text) :: rest =>
      if String.eqb user_text "" then loop rest a
      else match handle_input env (strip user_text) a with
           | (Ok _, a') => loop rest a'
           | (Raise e, a') => (Raise e, a')
           end
  end.

(** the body of [start] *)
Definition start_body (inputs : list (Turn * string)) (a : MikaAssistant)
    : result unit * MikaAssistant :=
  match speak (Config.ai_name (config a) ++ " is online.") a with
  | (Ok _, a') => loop inputs a'
  | (Raise e, a') => (Raise e, a')
  end.

(** [start] under the decorator [handle_exceptions], which logs the
    exception and returns [None] in its place. *)
Definition start (inputs : list (Turn * string)) (a : MikaAssistant)
    : MikaAssistant :=
  snd (start_body inputs a).

(** *** Specification-side notions *)

(** the model, when there is one, returns whatever it is given *)
Definition model_returns : Prop :=
  forall llm n c t p, model = Some llm -> is_ok (llm n c t p) = true.

(** The analyzer, the model and the output adapter return, whatever they
    are given. *)
Definition dependable : Prop :=
  (forall t, is_ok (analyze t) = true)
  /\ model_returns
  /\ (forall t, is_ok (speak_fn t) = true).

(** the analyzer returns on the stripped text of each of the inputs *)
Definition analyzed (inputs : list (Turn * string)) : Prop :=
  Forall (fun p => is_ok (analyze (strip (snd p))) = true) inputs.

(** what a turn that reaches [speak] with [text] returns *)
Definition verdict (text : string) : result unit :=
  match speak_fn text with
  | Ok _ => Ok tt
  | Raise e => Raise e
  end.

End Collaborators.

(** the inputs [start] hands to [handle_input] *)
Definition handled (inputs : list (Turn * string)) : list (Turn * string) :=
  filter (fun p => snd p <> "") inputs.

(** a model that always returns *)
Definition returning
    (model : option (string -> string -> gmap string Q -> string -> string))
    : option (string -> string -> gmap string Q -> string -> result string) :=
  match model with
  | Some llm => Some (fun n c t p => Ok (llm n c t p))
  | None => None
  end.

End Session.

(** ** assistant.py: the shutdown *)

Module Lifecycle.

(** The assistant with its shutdown event. *)
Record Running : Type := mkRunning {
  assistant : Assistant.MikaAssistant;
  shutdown_event : bool
}.

(** [shutdown]: [summarize_long_term()] with its default of 20 items,
    then [save]; [now] is the clock of the summary and the two flags say
    whether the two writes succeed. *)
Definition shutdown (render : Q -> string) (now : Q) (ok1 ok2 : bool)
    (r : Running) : Running :=
  if shutdown_event r then r
  else
    mkRunning
      (Assistant.with_memory
         (Memory.save ok2
            (Memory.summarize_long_term render now ok1 20
               (Assistant.memory (assistant r))))
         (assistant r))
      true.

End Lifecycle.

(** * Properties *)

(** ** Splitting and joining paths *)

Section PathSegments.

Import PyStr.

Lemma split_nonempty sep s : split sep s <> [].
Proof.
  destruct s as [|c s]; simpl; [discriminate|].
  destruct (Ascii.eqb c sep); [discriminate|].
  destruct (split sep s); discriminate.
Qed.

Lemma split_no_sep sep s : Forall (no_sep sep) (split sep s).
Proof.
  induction s as [|c s IH]; simpl.
  - constructor; [|constructor]. intros [].
  - destruct (Ascii.eqb c sep) eqn:E.
    + constructor; [intros []|exact IH].
    + destruct (split sep s) as [|w ws]; inversion_clear IH.
      * constructor; [|constructor].
        intros [->|[]]. rewrite Ascii.eqb_refl in E. discriminate.
      * constructor; [|assumption].
        intros [->|Hin]; [rewrite Ascii.eqb_refl in E; discriminate|].
        auto.
Qed.

Lemma split_word sep w : no_sep sep w -> split sep w = [w].
Proof.
  induction w as [|c w IH]; simpl; intros Hw; [reflexivity|].
  destruct (Ascii.eqb c sep) eqn:E.
  - apply Ascii.eqb_eq in E. subst. exfalso. apply Hw. now left.
  - rewrite IH; [reflexivity|]. intros Hin. apply Hw. now right.
Qed.

Lemma split_app_sep sep w rest :
  no_sep sep w ->
  split sep (w ++ String sep rest) = w :: split sep rest.
Proof.
  induction w as [|c w IH]; simpl; intros Hw.
  - now rewrite Ascii.eqb_refl.
  - destruct (Ascii.eqb c sep) eqn:E.
    + apply Ascii.eqb_eq in E. subst. exfalso. apply Hw. now left.
    + rewrite IH; [reflexivity|]. intros Hin. apply Hw. now right.
Qed.

(** Joining segments and splitting again gives the segments back. *)
Lemma split_join sep ws :
  ws <> [] -> Forall (no_sep sep) ws ->
  split sep (join (String sep EmptyString) ws) = ws.
Proof.
  induction ws as [|w ws IH]; [congruence|].
  intros _ Hall. inversion_clear Hall as [|? ? Hw Hws].
  destruct ws as [|w' ws].
  - simpl. now apply split_word.
  - change (join (String sep EmptyString) (w :: w' :: ws))
      with (w ++ String sep (join (String sep EmptyString) (w' :: ws)))%string.
    rewrite split_app_sep by assumption.
    rewrite IH; [reflexivity|discriminate|assumption].
Qed.

(** The first [k >= 1] segments of a path are the segments of a path. *)
Lemma split_take_join sep s k :
  (1 <= k)%nat ->
  split sep (join (String sep EmptyString) (take k (split sep s)))
  = take k (split sep s).
Proof.
  intros Hk. apply split_join.
  - pose proof (split_nonempty sep s) as Hne.
    destruct (split sep s); [congruence|].
    destruct k; [lia|discriminate].
  - apply Forall_take, split_no_sep.
Qed.

(** Splitting distributes over a separator between two texts. *)
Lemma split_app sep a b :
  split sep (a ++ String sep b) = split sep a ++ split sep b.
Proof.
  induction a as [|c a IH].
  - change (split sep (String sep b) = [EmptyString] ++ split sep b).
    simpl. now rewrite Ascii.eqb_refl.
  - change (split sep (String c (a ++ String sep b))
            = split sep (String c a) ++ split sep b).
    simpl. rewrite IH. destruct (Ascii.eqb c sep); [reflexivity|].
    pose proof (split_nonempty sep a) as Hne.
    destruct (split sep a) as [|w ws]; [congruence|reflexivity].
Qed.

(** The segments of a dot-delimited path are what [split] makes of it. *)
Lemma segments_split path parts :
  Engine.segments path parts -> split "." path = parts.
Proof.
  induction 1 as [w Hw|w rest parts Hw _ IH].
  - now apply split_word.
  - change (w ++ "." ++ rest)%string with (w ++ String "." rest)%string.
    rewrite split_app_sep by exact Hw. now rewrite IH.
Qed.

Lemma split_segments path : Engine.segments path (split "." path).
Proof.
  induction path as [|c s IH].
  - apply Engine.segments_one. intros [].
  - simpl. destruct (Ascii.eqb c ".") eqn:E.
    + apply Ascii.eqb_eq in E. subst c.
      apply (Engine.segments_more EmptyString s); [intros []|exact IH].
    + assert (Hc : forall w, Engine.dot_free w -> Engine.dot_free (String c w)).
      { intros w Hw [->|Hin]; [|now apply Hw].
        rewrite Ascii.eqb_refl in E. discriminate. }
      inversion IH as [w Hw E1 E2|w rest parts Hw Hrest E1 E2].
      * apply Engine.segments_one. now apply Hc.
      * apply (Engine.segments_more (String c w) rest parts); [now apply Hc|exact Hrest].
Qed.

Lemma segments_iff path parts :
  Engine.segments path parts <-> split "." path = parts.
Proof.
  split; [apply segments_split|]. intros <-. apply split_segments.
Qed.

(** A dot-delimited prefix has a leading part of the segments. *)
Lemma dot_prefix_split q p :
  Engine.dot_prefix q p -> split "." q `prefix_of` split "." p.
Proof.
  intros [->|[rest ->]]; [reflexivity|].
  change (q ++ "." ++ rest)%string with (q ++ String "." rest)%string.
  rewrite split_app. now exists (split "." rest).
Qed.

End PathSegments.

(** ** The policy engine *)

Section EngineFacts.

Import Engine.

Lemma walk_chain node parts : is_ok (walk node parts) = true <-> chain node parts.
Proof.
  revert node. induction parts as [|p ps IH]; intros node; simpl.
  - split; [constructor|reflexivity].
  - destruct node as [| | | | |m]; simpl;
      try (split; [discriminate|inversion 1]).
    destruct (dict_get p m) as [child|] eqn:E; simpl.
    + rewrite IH. split.
      * intros H. econstructor; eassumption.
      * inversion 1; subst. congruence.
    + split; [discriminate|]. inversion 1; subst. congruence.
Qed.

Lemma walk_app node before after :
  walk node (before ++ after)
  = match walk node before with
    | Ok n => walk n after
    | Raise e => Raise e
    end.
Proof.
  revert node. induction before as [|p ps IH]; intros node; simpl; [reflexivity|].
  destruct (subscript node p); [apply IH|reflexivity].
Qed.

Lemma walk_prefix node parts parts' :
  parts' `prefix_of` parts ->
  is_ok (walk node parts) = true -> is_ok (walk node parts') = true.
Proof.
  intros [rest ->]. rewrite walk_app.
  destruct (walk node parts'); [reflexivity|discriminate].
Qed.

Lemma walk_reaches node parts last :
  walk node parts = Ok last <-> reaches node parts last.
Proof.
  revert node. induction parts as [|p ps IH]; intros node; simpl.
  - split.
    + intros H. inversion H. constructor.
    + inversion 1. reflexivity.
  - destruct node as [| | | | |m]; simpl;
      try (split; [discriminate|inversion 1]).
    destruct (dict_get p m) as [child|] eqn:E; simpl.
    + rewrite IH. split.
      * intros H. econstructor; eassumption.
      * inversion 1; subst. congruence.
    + split; [discriminate|]. inversion 1; subst. congruence.
Qed.

Lemma walk_malformed node parts :
  hits_malformed node parts -> is_ok (walk node parts) = false.
Proof.
  intros (before & p & after & bad & -> & Hw & Hbad).
  apply walk_reaches in Hw.
  rewrite walk_app, Hw. simpl.
  destruct bad; try reflexivity. now destruct (Hbad m).
Qed.

Lemma lookup_is_walk g path :
  _lookup_permission g path = is_ok (walk (permissions g) (PyStr.split "." path)).
Proof.
  unfold _lookup_permission, permissions.
  now destruct (walk _ _).
Qed.

Lemma lookup_present g path : _lookup_permission g path = true <-> present g path.
Proof.
  rewrite lookup_is_walk, walk_chain. unfold present. split.
  - intros H. exists (PyStr.split "." path). split; [apply split_segments|exact H].
  - intros (parts & Hseg & Hch). apply segments_split in Hseg. now subst.
Qed.

Lemma lookup_absent g path : _lookup_permission g path = false <-> ~ present g path.
Proof.
  rewrite <- lookup_present. destruct (_lookup_permission g path); split;
    congruence.
Qed.

Lemma lookup_malformed g path : malformed g path -> _lookup_permission g path = false.
Proof.
  intros (parts & Hseg & Hbad). apply segments_split in Hseg. subst parts.
  rewrite lookup_is_walk. now apply walk_malformed.
Qed.

Lemma lookup_prefix g g' p q :
  rules g' = rules g -> dot_prefix q p ->
  _lookup_permission g p = true -> _lookup_permission g' q = true.
Proof.
  intros Hrules Hpre. rewrite !lookup_is_walk. unfold permissions. rewrite Hrules.
  apply walk_prefix. now apply dot_prefix_split.
Qed.

Lemma any_approval_strings path l :
  Forall (fun a => exists s, a = YStr s) l ->
  exists b, any_approval path l = Ok b.
Proof.
  induction 1 as [|a l [s ->] _ IH]; simpl; [eauto|].
  destruct (_ || _); eauto.
Qed.

Lemma requires_approval_returns g path :
  approvals_wf g -> exists b, _requires_approval g path = Ok b.
Proof.
  unfold approvals_wf, _requires_approval.
  destruct (dict_get "approval_required_for" (rules g)) as [v|]; simpl.
  - destruct v; try contradiction. simpl. apply any_approval_strings.
  - eauto.
Qed.

(** A returning [allows] reports the lookup and audits the decision. *)
Lemma allows_returns g now path :
  approvals_wf g ->
  exists appr,
    let ok := _lookup_permission g path in
    let d := mkDecision ok (if ok then "allowed" else "forbidden") appr in
    allows now path g = (Ok d, _audit now "permission_check" path (OfDecision d) g).
Proof.
  intros Hwf. destruct (requires_approval_returns g path Hwf) as [b Hb].
  exists b. unfold allows. now rewrite Hb.
Qed.

Lemma audit_appends_one now ev subj d g : appends_one g (_audit now ev subj d g).
Proof. split; [reflexivity|]. simpl. eauto. Qed.

End EngineFacts.

(** C7 (as amended): on an engine whose approval list is absent or a list
    of strings, [allows] returns for every path: a path absent from the
    permission tree is refused with reason "forbidden", a path present as
    a chain of keys is allowed, and a traversal that meets a node that is
    not a mapping is refused as well, and the rules stay as they were.
    The lookup itself never raises, whatever the rule file holds: it is
    true exactly on the present paths and false on a malformed node. *)
Theorem C7_allows_fails_closed (g : Engine.GovernorEngine) (now path : string) :
  (Engine._lookup_permission g path = true <-> Engine.present g path)
  /\ (Engine.malformed g path -> Engine._lookup_permission g path = false)
  /\ (Engine.approvals_wf g ->
      exists d,
        fst (Engine.allows now path g) = Ok d
        /\ Engine.rules (snd (Engine.allows now path g)) = Engine.rules g
        /\ (~ Engine.present g path ->
            Engine.allowed d = false /\ Engine.reason d = "forbidden")
        /\ (Engine.present g path ->
            Engine.allowed d = true /\ Engine.reason d = "allowed")
        /\ (Engine.malformed g path ->
            Engine.allowed d = false /\ Engine.reason d = "forbidden")).
Proof.
  split; [apply lookup_present|].
  split; [apply lookup_malformed|].
  intros Hwf. destruct (allows_returns g now path Hwf) as [appr Heq].
  cbv zeta in Heq. rewrite Heq. simpl.
  eexists. split; [reflexivity|]. split; [reflexivity|]. simpl.
  split; [|split].
  - intros Hn. apply lookup_absent in Hn. rewrite Hn. split; reflexivity.
  - intros Hp. apply lookup_present in Hp. rewrite Hp. split; reflexivity.
  - intros Hm. apply lookup_malformed in Hm. rewrite Hm. split; reflexivity.
Qed.

Lemma C7_allows_fails_closed_witness :
  exists d,
    fst (Engine.allows "12:00" "models.create_neural_networks"
           (Engine.mkEngine Engine.sample_rules [])) = Ok d
    /\ Engine.allowed d = false /\ Engine.reason d = "forbidden".
Proof.
  destruct (C7_allows_fails_closed (Engine.mkEngine Engine.sample_rules [])
              "12:00" "models.create_neural_networks") as (_ & _ & Hallows).
  destruct Hallows as (d & Hd & _ & _ & _ & Hbad).
  - simpl. repeat constructor. eexists. reflexivity.
  - exists d. split; [exact Hd|]. apply Hbad.
    exists ["models"; "create_neural_networks"]. split.
    + apply (Engine.segments_more "models" "create_neural_networks").
      * intros H. simpl in H. intuition discriminate.
      * apply Engine.segments_one. intros H. simpl in H. intuition discriminate.
    + exists ["models"], "create_neural_networks", [], (Engine.YStr "none").
      split; [reflexivity|]. split; [|discriminate].
      eapply Engine.reaches_step; [reflexivity|constructor].
Defined.

(** C7 (as stated) fails: with a number in the approval list, [allows]
    on an absent path raises [TypeError] out of the engine instead of
    returning a decision with allowed = false. *)
Lemma C7_numeric_approval_counterexample :
  let g := Engine.mkEngine Engine.rules_numeric_approval [] in
  ~ Engine.present g "tools.execute_code_in_sandbox"
  /\ Engine.allows "12:00" "tools.execute_code_in_sandbox" g = (Raise TypeError, g)
  /\ ~ (exists d,
          fst (Engine.allows "12:00" "tools.execute_code_in_sandbox" g) = Ok d
          /\ Engine.allowed d = false /\ Engine.reason d = "forbidden").
Proof.
  cbv zeta. split; [|split].
  - apply lookup_absent. reflexivity.
  - reflexivity.
  - intros (d & Hd & _). discriminate Hd.
Qed.

(** C10 (as amended): the lookup is prefix-monotone whatever the rule
    file holds: when it finds a path it finds every dot-delimited prefix
    of it, interior nodes included.  On an engine whose approval list is
    absent or a list of strings the decisions [allows] returns say the
    same, whatever the audit log holds by then. *)
Theorem C10_allows_prefix_monotone (g g' : Engine.GovernorEngine)
    (now now' p q : string) :
  Engine.rules g' = Engine.rules g ->
  Engine.dot_prefix q p ->
  (Engine._lookup_permission g p = true -> Engine._lookup_permission g' q = true)
  /\ (Engine.present g p -> Engine.present g' q)
  /\ (Engine.approvals_wf g ->
      forall d,
        fst (Engine.allows now p g) = Ok d ->
        Engine.allowed d = true ->
        exists d', fst (Engine.allows now' q g') = Ok d' /\ Engine.allowed d' = true).
Proof.
  intros Hrules Hpre.
  pose proof (lookup_prefix g g' p q Hrules Hpre) as Hmono.
  split; [exact Hmono|]. split.
  - intros Hp. apply lookup_present. apply Hmono. now apply lookup_present.
  - intros Hwf d Hp Hd.
    assert (Hwf' : Engine.approvals_wf g')
      by (unfold Engine.approvals_wf in *; now rewrite Hrules).
    destruct (allows_returns g now p Hwf) as [appr Heq].
    cbv zeta in Heq. rewrite Heq in Hp. simpl in Hp. inversion Hp; subst d.
    simpl in Hd.
    destruct (allows_returns g' now' q Hwf') as [appr' Heq'].
    cbv zeta in Heq'. rewrite Heq'. simpl. eexists. split; [reflexivity|]. simpl.
    now apply Hmono.
Qed.

Lemma C10_allows_prefix_monotone_witness :
  exists d',
    fst (Engine.allows "12:01" "tools" (Engine.mkEngine Engine.sample_rules []))
    = Ok d'
    /\ Engine.allowed d' = true.
Proof.
  destruct (C10_allows_prefix_monotone
              (Engine.mkEngine Engine.sample_rules [])
              (Engine.mkEngine Engine.sample_rules [])
              "12:00" "12:01" "tools.execute_code_in_sandbox" "tools")
    as (_ & _ & Hallows).
  - reflexivity.
  - right. exists "execute_code_in_sandbox". reflexivity.
  - apply Hallows with (d := Engine.mkDecision true "allowed" false).
    + simpl. repeat constructor. eexists. reflexivity.
    + reflexivity.
    + reflexivity.
Defined.

(** C10 (as stated) fails: with the approval list ["tools.x", 42],
    [allows] returns allowed = true for "tools.x.y", while for its prefix
    "tools" it raises [TypeError] and returns no decision at all. *)
Lemma C10_mixed_approval_counterexample :
  let g := Engine.mkEngine Engine.rules_mixed_approval [] in
  Engine.dot_prefix "tools" "tools.x.y"
  /\ fst (Engine.allows "12:00" "tools.x.y" g)
     = Ok (Engine.mkDecision true "allowed" true)
  /\ fst (Engine.allows "12:01" "tools" g) = Raise TypeError
  /\ ~ (exists d', fst (Engine.allows "12:01" "tools" g) = Ok d'
                   /\ Engine.allowed d' = true).
Proof.
  cbv zeta. split; [|split; [|split]].
  - right. exists "x.y". reflexivity.
  - reflexivity.
  - reflexivity.
  - intros (d' & Hd & _). discriminate Hd.
Qed.

(** C3 (as amended): every call to [allows] on an engine whose approval
    list is well formed, and every call to [clamp] whose key has a
    configured pair of bounds, returns and appends exactly one audit record
    at the end of the log; the new record sits at the position after all
    earlier ones, which is its only sequence number, the log grows by one,
    and every earlier record stays at its position unchanged. *)
Theorem C3_audit_appends_one (g : Engine.GovernorEngine) (now : string) :
  (forall path,
      Engine.approvals_wf g ->
      exists d, fst (Engine.allows now path g) = Ok d
                /\ Engine.appends_one g (snd (Engine.allows now path g)))
  /\ (forall category key value lo hi,
         Engine.bounded g key lo hi ->
         fst (Engine.clamp now category key value g) = Ok (Qmax lo (Qmin hi value))
         /\ Engine.appends_one g (snd (Engine.clamp now category key value g)))
  /\ (forall g',
         Engine.appends_one g g' ->
         length (Engine.audit_log g') = S (length (Engine.audit_log g))
         /\ is_Some (Engine.audit_log g' !! length (Engine.audit_log g))
         /\ forall i r, Engine.audit_log g !! i = Some r ->
                        (i < length (Engine.audit_log g))%nat
                        /\ Engine.audit_log g' !! i = Some r).
Proof.
  split; [|split].
  - intros path Hwf. destruct (allows_returns g now path Hwf) as [appr Heq].
    cbv zeta in Heq. rewrite Heq. simpl.
    eexists. split; [reflexivity|]. split; [reflexivity|]. simpl. eauto.
  - intros category key value lo hi Hb. unfold Engine.bounded in Hb.
    unfold Engine.clamp. rewrite Hb. simpl.
    split; [reflexivity|]. split; [reflexivity|]. simpl. eauto.
  - intros g' [_ [r Hlog]]. rewrite Hlog. split; [|split].
    + rewrite length_app. simpl. lia.
    + exists r. now rewrite list_lookup_middle.
    + intros i r' Hi. split.
      * eapply lookup_lt_Some; eassumption.
      * now apply lookup_app_l_Some.
Qed.

Lemma C3_audit_appends_one_witness :
  (exists d,
      fst (Engine.allows "12:00" "cognition.reason"
             (Engine.mkEngine Engine.sample_rules [])) = Ok d
      /\ Engine.appends_one (Engine.mkEngine Engine.sample_rules [])
           (snd (Engine.allows "12:00" "cognition.reason"
                   (Engine.mkEngine Engine.sample_rules []))))
  /\ fst (Engine.clamp "12:00" "personality" "warmth" 0.9
            (Engine.mkEngine Engine.sample_rules []))
     = Ok (Qmax 0.2 (Qmin 0.8 0.9)).
Proof.
  destruct (C3_audit_appends_one (Engine.mkEngine Engine.sample_rules []) "12:00")
    as (Hallows & Hclamp & _).
  split.
  - apply Hallows. simpl. repeat constructor. eexists. reflexivity.
  - apply (Hclamp "personality" "warmth" 0.9%Q 0.2%Q 0.8%Q). reflexivity.
Defined.

(** C3 (as stated) fails: a [clamp] call whose key has no configured
    bounds returns the value and leaves the audit log as it was. *)
Lemma C3_clamp_without_bounds_counterexample :
  let g := Engine.mkEngine Engine.sample_rules [] in
  fst (Engine.clamp "12:00" "personality" "humor" 0.9 g) = Ok 0.9%Q
  /\ Engine.audit_log (snd (Engine.clamp "12:00" "personality" "humor" 0.9 g)) = []
  /\ length (Engine.audit_log (snd (Engine.clamp "12:00" "personality" "humor" 0.9 g)))
     <> S (length (Engine.audit_log g)).
Proof. repeat split. discriminate. Qed.

(** ** The memory store *)

Section MemoryFacts.

Import Memory.
Variable render : Q -> string.

Lemma tail_drop {A} (l : list A) : tail l = drop 1 l.
Proof. now destruct l. Qed.

Lemma most_recent_all {A} (n : nat) (l : list A) :
  (length l <= n)%nat -> most_recent n l = l.
Proof.
  intros H. unfold most_recent.
  replace (length l - n)%nat with 0%nat by lia. reflexivity.
Qed.

Lemma most_recent_length {A} (n : nat) (l : list A) :
  length (most_recent n l) = Nat.min (length l) n.
Proof. unfold most_recent. rewrite length_drop. lia. Qed.

(** Appending to the window and dropping the oldest item when the
    window overflows keeps the window on the most recent items. *)
Lemma evict_most_recent {A} (n : nat) (l : list A) (x : A) :
  (if (n <? length (most_recent n l ++ [x]))%nat
   then tail (most_recent n l ++ [x])
   else most_recent n l ++ [x])
  = most_recent n (l ++ [x]).
Proof.
  rewrite length_app, most_recent_length. simpl.
  unfold most_recent. rewrite length_app. simpl.
  destruct (Nat.ltb_spec n (Nat.min (length l) n + 1)) as [Hlt|Hge].
  - rewrite tail_drop.
    rewrite <- drop_app_le by lia.
    rewrite drop_drop. f_equal. lia.
  - replace (length l + 1 - n)%nat with 0%nat by lia.
    replace (length l - n)%nat with 0%nat by lia.
    reflexivity.
Qed.

Lemma init_limit f N T : short_term_limit (init f N T) = N.
Proof.
  unfold init, _load. simpl.
  destruct f as [| |short long]; try reflexivity.
  destruct (items_of short); [|reflexivity].
  destruct (items_of long); reflexivity.
Qed.

Lemma init_threshold f N T : importance_threshold (init f N T) = T.
Proof.
  unfold init, _load. simpl.
  destruct f as [| |short long]; try reflexivity.
  destruct (items_of short); [|reflexivity].
  destruct (items_of long); reflexivity.
Qed.

Lemma save_fields ok m :
  short_term_limit (save ok m) = short_term_limit m
  /\ importance_threshold (save ok m) = importance_threshold m
  /\ short_term (save ok m) = short_term m
  /\ long_term (save ok m) = long_term m.
Proof. unfold save. destruct ok; repeat split. Qed.

Lemma admitted_more T long0 added extra i :
  admitted T long0 added i -> admitted T long0 (added ++ extra) i.
Proof.
  intros [H|[H|[H1 H2]]]; [now left|right; now left|].
  right; right. split; [|assumption]. apply in_or_app. now left.
Qed.

Lemma step_inv N T short0 long0 added m o :
  (0 <= N)%Z ->
  inv N T short0 long0 added m ->
  inv N T short0 long0 (added ++ item_of o) (step render m o).
Proof.
  intros HN [Hlim Hthr Hshort Hlong].
  assert (Hlong' : Forall (admitted T long0 (added ++ item_of o)) (long_term m)).
  { eapply Forall_impl; [exact Hlong|]. intros i. apply admitted_more. }
  destruct o as [now ok u r it e imp|now ok k|ok]; simpl.
  - unfold add_interaction.
    set (item := mkItem now u r it e imp None).
    destruct (save_fields ok
                (with_long
                   (if Qle_bool (importance_threshold m) imp
                    then long_term m ++ [item] else long_term m)
                   (with_short
                      (if (Z.of_nat (length (short_term m ++ [item]))
                           >? short_term_limit m)%Z
                       then tail (short_term m ++ [item])
                       else short_term m ++ [item]) m)))
      as (E1 & E2 & E3 & E4).
    constructor.
    + rewrite E1. exact Hlim.
    + rewrite E2. exact Hthr.
    + rewrite E3. simpl. rewrite Hlim, Hshort, app_assoc.
      rewrite <- evict_most_recent.
      replace (Z.of_nat (length (most_recent (Z.to_nat N) (short0 ++ added) ++ [item]))
               >? N)%Z
        with (Z.to_nat N <? length (most_recent (Z.to_nat N) (short0 ++ added) ++ [item]))%nat;
        [reflexivity|].
      destruct (Nat.ltb_spec (Z.to_nat N)
                  (length (most_recent (Z.to_nat N) (short0 ++ added) ++ [item])));
        symmetry; [apply Z.gtb_lt|rewrite Z.gtb_ltb; apply Z.ltb_ge]; lia.
    + rewrite E4. simpl. rewrite Hthr.
      destruct (Qle_bool T imp) eqn:Himp; [|exact Hlong'].
      apply Forall_app. split; [exact Hlong'|].
      constructor; [|constructor].
      right; right. split.
      * apply in_or_app. right. now left.
      * now apply Qle_bool_iff.
  - rewrite app_nil_r. unfold summarize_long_term.
    destruct (Z.of_nat (length (long_term m)) <=? k)%Z.
    + constructor; assumption.
    + match goal with |- inv _ _ _ _ _ (save ok ?x) =>
        destruct (save_fields ok x) as (E1 & E2 & E3 & E4)
      end.
      constructor.
      * rewrite E1. exact Hlim.
      * rewrite E2. exact Hthr.
      * rewrite E3. exact Hshort.
      * rewrite E4. simpl. constructor; [|constructor].
        right; left. repeat split. simpl. eauto.
  - rewrite app_nil_r.
    destruct (save_fields ok m) as (E1 & E2 & E3 & E4).
    constructor.
    + rewrite E1. exact Hlim.
    + rewrite E2. exact Hthr.
    + rewrite E3. exact Hshort.
    + rewrite E4. exact Hlong.
Qed.

Lemma run_inv N T short0 long0 ops :
  (0 <= N)%Z ->
  forall added m,
    inv N T short0 long0 added m ->
    inv N T short0 long0 (added ++ flat_map item_of ops) (run render m ops).
Proof.
  intros HN. induction ops as [|o ops IH]; intros added m Hinv; simpl.
  - now rewrite app_nil_r.
  - rewrite app_assoc. apply IH. now apply step_inv.
Qed.

End MemoryFacts.

(** C4 (as amended): for a capacity [N >= 0] and a store whose short-term
    list, as loaded from the file, holds at most [N] items, after any
    sequence of recordings, consolidations and saves the short-term list
    holds at most [N] items, namely the most recent [min(count, N)] of the
    loaded and recorded interactions in their order, and every long-term
    item was read from the file, or built by consolidation, or recorded
    with an importance of at least [T]. *)
Theorem C4_memory_invariant (render : Q -> string) (f : Memory.file)
    (N : Z) (T : Q) (ops : list Memory.op) :
  (0 <= N)%Z ->
  (Z.of_nat (length (Memory.short_term (Memory.init f N T))) <= N)%Z ->
  let m0 := Memory.init f N T in
  let m := Memory.run render m0 ops in
  let history := Memory.short_term m0 ++ flat_map Memory.item_of ops in
  (Z.of_nat (length (Memory.short_term m)) <= N)%Z
  /\ length (Memory.short_term m) = Nat.min (length history) (Z.to_nat N)
  /\ Memory.short_term m = Memory.most_recent (Z.to_nat N) history
  /\ Forall (Memory.admitted T (Memory.long_term m0) (flat_map Memory.item_of ops))
            (Memory.long_term m).
Proof.
  intros HN Hloaded m0 m history.
  assert (Hinv : Memory.inv N T (Memory.short_term m0) (Memory.long_term m0)
                     ([] ++ flat_map Memory.item_of ops) m).
  { apply run_inv; [assumption|]. constructor.
    - apply init_limit.
    - apply init_threshold.
    - rewrite app_nil_r. symmetry. apply most_recent_all.
      fold m0 in Hloaded. lia.
    - apply Forall_forall. intros i Hi. left.
      apply list_elem_of_In. exact Hi. }
  destruct Hinv as [_ _ Hshort Hlong]. simpl in Hshort, Hlong.
  fold history in Hshort.
  assert (Hlen : length (Memory.short_term m)
                 = Nat.min (length history) (Z.to_nat N)).
  { rewrite Hshort. apply most_recent_length. }
  repeat split; try assumption. lia.
Qed.

Lemma C4_memory_invariant_witness :
  (Z.of_nat (length (Memory.short_term
     (Memory.run (fun _ => "0.9")
        (Memory.init (Memory.Parsed (Memory.Items [Memory.sample_item "a" 0.7])
                                    Memory.Absent) 1 0.6)
        [Memory.Add 1 true "b" "fine" "greeting" ∅ 0.9]))) <= 1)%Z.
Proof.
  apply (C4_memory_invariant (fun _ => "0.9")
           (Memory.Parsed (Memory.Items [Memory.sample_item "a" 0.7]) Memory.Absent)
           1 0.6 [Memory.Add 1 true "b" "fine" "greeting" ∅ 0.9]).
  - lia.
  - simpl. lia.
Defined.

(** C4 (as stated) fails: a store built over a file that holds two
    short-term items, with capacity 1, has two short-term items after
    loading and still two after the next recording. *)
Lemma C4_oversized_load_counterexample :
  let m0 := Memory.init
              (Memory.Parsed (Memory.Items [Memory.sample_item "a" 0.7;
                                            Memory.sample_item "b" 0.7])
                             Memory.Absent) 1 0.6 in
  let m := Memory.run (fun _ => "0.9") m0
             [Memory.Add 1 true "c" "fine" "greeting" ∅ 0.9] in
  length (Memory.short_term m0) = 2%nat
  /\ length (Memory.short_term m) = 2%nat
  /\ ~ (Z.of_nat (length (Memory.short_term m)) <= 1)%Z.
Proof. vm_compute. repeat split. intros H. apply H. reflexivity. Qed.

Section SummaryFacts.

Import Memory.
Variable render : Q -> string.

Lemma append_assoc (a b c : string) : ((a ++ b) ++ c = a ++ (b ++ c))%string.
Proof.
  induction a as [|x a IH]; [reflexivity|].
  change (String x ((a ++ b) ++ c) = String x (a ++ (b ++ c)))%string.
  now rewrite IH.
Qed.

Lemma slice_from_recent {A} (k : Z) (l : list A) :
  (1 <= k)%Z -> slice_from (- k) l = most_recent (Z.to_nat k) l.
Proof.
  intros Hk. unfold slice_from, most_recent.
  destruct (Z.ltb_spec (- k) 0); [|lia].
  f_equal. lia.
Qed.

(** For a window of at least one item, consolidation leaves a list that
    is short enough alone and otherwise replaces it by one summary of
    the most recent [max_items] items. *)
Lemma summarize_long_term_positive now ok max_items m :
  (1 <= max_items)%Z ->
  let m' := summarize_long_term render now ok max_items m in
  short_term m' = short_term m
  /\ ((Z.of_nat (length (long_term m)) <= max_items)%Z -> m' = m)
  /\ ((max_items < Z.of_nat (length (long_term m)))%Z ->
      long_term m'
      = [mkItem now "(summary)" "(summary)" "memory_summary"
                (get_emotional_trend m) 1.0
                (Some (summary_text render
                         (most_recent (Z.to_nat max_items) (long_term m))))]).
Proof.
  intros Hk m'. subst m'. unfold summarize_long_term.
  destruct (Z.leb_spec (Z.of_nat (length (long_term m))) max_items) as [Hle|Hgt].
  - repeat split. intros. lia.
  - match goal with |- context [save ok ?x] =>
      destruct (save_fields ok x) as (_ & _ & E3 & E4)
    end.
    rewrite E3, E4. simpl. rewrite slice_from_recent by assumption.
    repeat split. intros. lia.
Qed.

(** With a window of zero the slice is the whole list. *)
Lemma summarize_long_term_zero now ok m :
  long_term m <> [] ->
  long_term (summarize_long_term render now ok 0 m)
  = [mkItem now "(summary)" "(summary)" "memory_summary"
            (get_emotional_trend m) 1.0
            (Some (summary_text render (long_term m)))].
Proof.
  intros Hne. unfold summarize_long_term.
  destruct (Z.leb_spec (Z.of_nat (length (long_term m))) 0) as [Hle|Hgt].
  - destruct (long_term m); [congruence|simpl in Hle; lia].
  - match goal with |- context [save ok ?x] =>
      destruct (save_fields ok x) as (_ & _ & _ & E4)
    end.
    rewrite E4. simpl. unfold slice_from.
    change (- 0 <? 0)%Z with false. cbv iota.
    replace (Z.to_nat (Z.min (- 0) (Z.of_nat (length (long_term m)))))
      with 0%nat by lia.
    reflexivity.
Qed.

End SummaryFacts.

(** C8 fails at [max_items = 0]: on a long-term list of two items the
    consolidation builds its summary from both items, where the most
    recent zero items would give the empty summary. *)
Theorem C8_summary_window_zero (render : Q -> string) :
  let lt := [Memory.sample_item "a" 0.7; Memory.sample_item "b" 0.9] in
  let m := Memory.mkCore Memory.Missing 10 0.6 [] lt in
  Memory.long_term (Memory.summarize_long_term render 5 true 0 m)
  = [Memory.mkItem 5 "(summary)" "(summary)" "memory_summary" ∅ 1.0
       (Some (Memory.summary_text render lt))]
  /\ Memory.summary_text render lt
     = ("greeting (" ++ render 0.7%Q ++ ") | greeting (" ++ render 0.9%Q ++ ")")%string
  /\ Memory.summary_text render (Memory.most_recent 0 lt) = ""
  /\ Memory.summary_text render lt
     <> Memory.summary_text render (Memory.most_recent 0 lt).
Proof.
  repeat split.
  - cbn. rewrite !append_assoc. reflexivity.
  - simpl. discriminate.
Qed.

(** ** The affect state *)

Section AffectFacts.

Import Emotion.

Lemma clamp01_range x : (0 <= Affect.clamp01 x /\ Affect.clamp01 x <= 1)%Q.
Proof.
  unfold Affect.clamp01. split.
  - apply Qle_trans with 0.0%Q; [discriminate|apply Q.le_max_l].
  - apply Q.max_lub; [discriminate|].
    apply Qle_trans with 1.0%Q; [apply Q.le_min_l|discriminate].
Qed.

Lemma nudge_range (x : Q) :
  (0 <= x /\ x <= 1)%Q -> (0 <= Qmin 1.0 (x + 0.05) /\ Qmin 1.0 (x + 0.05) <= 1)%Q.
Proof.
  intros [H0 H1]. split.
  - apply Q.min_glb; [discriminate|]. lra.
  - apply Qle_trans with 1.0%Q; [apply Q.le_min_l|discriminate].
Qed.

Lemma in_range_insert es k v :
  in_range es -> (0 <= v /\ v <= 1)%Q -> in_range (<[k := v]> es).
Proof.
  intros Hes Hv k' Hk'.
  destruct (decide (k = k')) as [->|Hne].
  - exists v. rewrite lookup_insert_eq. auto.
  - rewrite lookup_insert_ne by assumption. auto.
Qed.

(** With the four axes present, [adjust_emotions] returns and has made
    its four assignments. *)
Lemma adjust_emotions_returns delta es h s c f :
  es !! "happiness" = Some h -> es !! "sadness" = Some s ->
  es !! "curiosity" = Some c -> es !! "affinity" = Some f ->
  adjust_emotions delta es
  = (Ok tt,
     <["affinity" := Affect.clamp01 (f + delta * 0.01)]>
       (<["curiosity" := Affect.clamp01 (c + delta * 0.02)]>
          (<["sadness" := Affect.clamp01 (s - delta * 0.05)]>
             (<["happiness" := Affect.clamp01 (h + delta * 0.1)]> es)))).
Proof.
  intros Hh Hs Hc Hf. unfold adjust_emotions, Affect.clamp01.
  rewrite Hh.
  rewrite lookup_insert_ne by discriminate. rewrite Hs.
  rewrite !lookup_insert_ne by discriminate. rewrite Hc.
  rewrite !lookup_insert_ne by discriminate. rewrite Hf.
  reflexivity.
Qed.

Lemma adjust_emotions_in_range delta es :
  in_range es ->
  exists es', adjust_emotions delta es = (Ok tt, es') /\ in_range es'.
Proof.
  intros Hes.
  destruct (Hes "happiness") as (h & Hh & _); [simpl; tauto|].
  destruct (Hes "sadness") as (s & Hs & _); [simpl; tauto|].
  destruct (Hes "curiosity") as (c & Hc & _); [simpl; tauto|].
  destruct (Hes "affinity") as (f & Hf & _); [simpl; tauto|].
  eexists. split; [eapply adjust_emotions_returns; eassumption|].
  repeat apply in_range_insert; try apply clamp01_range. assumption.
Qed.

Lemma apply_reward_in_range points reason r :
  in_range (Config.state_emotion (Feedback.config r)) ->
  in_range (Config.state_emotion
              (Feedback.config (Feedback.apply_reward points reason r))).
Proof.
  intros Hes. unfold Feedback.apply_reward.
  destruct (Feedback.Qltb 0 points); [|destruct (Feedback.Qltb points 0)]; simpl.
  - apply in_range_insert; [assumption|].
    destruct (Hes "happiness") as (h & -> & Hh); [simpl; tauto|].
    now apply nudge_range.
  - apply in_range_insert; [assumption|].
    destruct (Hes "sadness") as (s & -> & Hs); [simpl; tauto|].
    now apply nudge_range.
  - assumption.
Qed.

Lemma run_in_range ops : forall s,
  in_range (Affect.engine s) ->
  in_range (Config.state_emotion (Feedback.config (Affect.rewards s))) ->
  exists s', Affect.run s ops = (Ok tt, s')
             /\ in_range (Affect.engine s')
             /\ in_range (Config.state_emotion (Feedback.config (Affect.rewards s'))).
Proof.
  induction ops as [|o ops IH]; intros s He Hc; simpl; [eauto|].
  destruct o as [delta|points reason]; simpl.
  - destruct (adjust_emotions_in_range delta _ He) as (es' & -> & He').
    apply IH; assumption.
  - apply IH; [assumption|]. simpl. now apply apply_reward_in_range.
Qed.

Lemma run_shared_in_range ops : forall r,
  in_range (Config.state_emotion (Feedback.config r)) ->
  exists r', Affect.run_shared r ops = (Ok tt, r')
             /\ in_range (Config.state_emotion (Feedback.config r')).
Proof.
  induction ops as [|o ops IH]; intros r Hc; simpl; [eauto|].
  destruct o as [delta|points reason]; simpl.
  - destruct (adjust_emotions_in_range delta _ Hc) as (es' & -> & He').
    apply IH. assumption.
  - apply IH. now apply apply_reward_in_range.
Qed.

End AffectFacts.

(** C9: from mappings whose four axes lie in [0,1], every finite sequence
    of [adjust_emotions] and [apply_reward] calls runs to its end and
    leaves the four axes of the mapping of the emotion state and of the
    mapping the reward system writes in [0,1], also when the two are one
    mapping; and one [adjust_emotions] call moves happiness by delta*0.1,
    sadness by -delta*0.05, curiosity by delta*0.02 and affinity by
    delta*0.01, each clamped to [0,1]. *)
Theorem C9_affect_stays_in_range (s : Affect.state) (ops : list Affect.op) :
  Emotion.in_range (Affect.engine s) ->
  Emotion.in_range (Config.state_emotion (Feedback.config (Affect.rewards s))) ->
  (exists s',
      Affect.run s ops = (Ok tt, s')
      /\ Emotion.in_range (Affect.engine s')
      /\ Emotion.in_range (Config.state_emotion (Feedback.config (Affect.rewards s'))))
  /\ (exists r',
         Affect.run_shared (Affect.rewards s) ops = (Ok tt, r')
         /\ Emotion.in_range (Config.state_emotion (Feedback.config r')))
  /\ (forall delta h sd c f,
         Affect.engine s !! "happiness" = Some h ->
         Affect.engine s !! "sadness" = Some sd ->
         Affect.engine s !! "curiosity" = Some c ->
         Affect.engine s !! "affinity" = Some f ->
         exists es',
           Emotion.adjust_emotions delta (Affect.engine s) = (Ok tt, es')
           /\ es' !! "happiness" = Some (Qmax 0.0 (Qmin 1.0 (h + delta * 0.1)))
           /\ es' !! "sadness" = Some (Qmax 0.0 (Qmin 1.0 (sd - delta * 0.05)))
           /\ es' !! "curiosity" = Some (Qmax 0.0 (Qmin 1.0 (c + delta * 0.02)))
           /\ es' !! "affinity" = Some (Qmax 0.0 (Qmin 1.0 (f + delta * 0.01)))).
Proof.
  intros He Hc. split; [|split].
  - now apply run_in_range.
  - now apply run_shared_in_range.
  - intros delta h sd c f Hh Hs Hcu Hf.
    eexists. split; [eapply adjust_emotions_returns; eassumption|].
    unfold Affect.clamp01.
    repeat split;
      repeat (first [rewrite lookup_insert_eq; reflexivity
                    |rewrite lookup_insert_ne by discriminate]).
Qed.

Ltac axes_in_range :=
  let k := fresh "k" in
  intros k [<-|[<-|[<-|[<-|[]]]]];
  eexists; (split; [reflexivity|split; discriminate]).

Lemma C9_affect_stays_in_range_witness :
  exists s',
    Affect.run (Affect.mkState Emotion.initial (Feedback.mkReward Config.default 0))
               [Affect.Adjust 2; Affect.Reward 1 "command_success";
                Affect.Adjust (-30); Affect.Reward (-1) "command_failure"]
    = (Ok tt, s')
    /\ Emotion.in_range (Affect.engine s')
    /\ Emotion.in_range (Config.state_emotion (Feedback.config (Affect.rewards s'))).
Proof.
  destruct (C9_affect_stays_in_range
              (Affect.mkState Emotion.initial (Feedback.mkReward Config.default 0))
              [Affect.Adjust 2; Affect.Reward 1 "command_success";
               Affect.Adjust (-30); Affect.Reward (-1) "command_failure"])
    as [H _].
  - axes_in_range.
  - axes_in_range.
  - exact H.
Defined.

(** ** Rewards *)

Lemma Qltb_lt x y : Feedback.Qltb x y = true <-> (x < y)%Q.
Proof.
  unfold Feedback.Qltb. destruct (Qle_bool y x) eqn:E; simpl.
  - apply Qle_bool_iff in E. split; [discriminate|intros; lra].
  - split; [intros _|reflexivity]. apply Qnot_le_lt.
    intros H. apply Qle_bool_iff in H. congruence.
Qed.

Lemma Qltb_ge x y : Feedback.Qltb x y = false <-> (y <= x)%Q.
Proof.
  unfold Feedback.Qltb. destruct (Qle_bool y x) eqn:E; simpl.
  - apply Qle_bool_iff in E. tauto.
  - split; [discriminate|]. intros H. apply Qle_bool_iff in H. congruence.
Qed.

(** C5 (as amended): [apply_reward] adds the points to the running score
    and leaves the mapping of the emotion state the assistant builds, the
    one it snapshots for importance scoring, as it was; what it writes is
    the emotion mapping held by the shared configuration: for positive
    points its happiness becomes min(1.0, happiness + 0.05), for negative
    points its sadness becomes min(1.0, sadness + 0.05), and zero points
    leave it alone. *)
Theorem C5_apply_reward_writes_config (points : Q) (reason : string)
    (a : Assistant.MikaAssistant) :
  let a' := Assistant.apply_reward points reason a in
  let es := Config.state_emotion (Assistant.config a) in
  let es' := Config.state_emotion (Assistant.config a') in
  Assistant.reward_score a' = (Assistant.reward_score a + points)%Q
  /\ Assistant.emotion_engine a' = Assistant.emotion_engine a
  /\ ((0 < points)%Q ->
      es' = <["happiness" := Qmin 1.0 (default 0.5%Q (es !! "happiness") + 0.05)]> es)
  /\ ((points < 0)%Q ->
      es' = <["sadness" := Qmin 1.0 (default 0.2%Q (es !! "sadness") + 0.05)]> es)
  /\ ((points == 0)%Q -> es' = es).
Proof.
  unfold Assistant.apply_reward, Feedback.apply_reward. simpl.
  destruct (Feedback.Qltb 0 points) eqn:E1;
    [|destruct (Feedback.Qltb points 0) eqn:E2]; simpl;
    repeat split; try reflexivity; intros H; exfalso;
    repeat match goal with
           | E : Feedback.Qltb _ _ = true |- _ => apply Qltb_lt in E
           | E : Feedback.Qltb _ _ = false |- _ => apply Qltb_ge in E
           end; lra.
Qed.

Lemma C5_apply_reward_writes_config_witness :
  Config.state_emotion
    (Assistant.config
       (Assistant.apply_reward 1 "command_success"
          (Assistant.fresh Engine.sample_rules)))
  = <["happiness" := Qmin 1.0 (0.5 + 0.05)]> Emotion.initial.
Proof.
  apply (C5_apply_reward_writes_config 1 "command_success"
           (Assistant.fresh Engine.sample_rules)).
  reflexivity.
Defined.

(** C5 (as stated) fails: after a reward of one point the happiness of
    the emotion state the assistant owns is still 0.5, not 0.55; the
    mapping of the configuration is the one that moved. *)
Lemma C5_orchestrator_affect_counterexample :
  let a := Assistant.fresh Engine.sample_rules in
  let a' := Assistant.apply_reward 1 "command_success" a in
  Assistant.emotion_engine a !! "happiness" = Some 0.5%Q
  /\ Assistant.emotion_engine a' !! "happiness" = Some 0.5%Q
  /\ ~ (0.5 == Qmin 1.0 (0.5 + 0.05))%Q
  /\ Config.state_emotion (Assistant.config a') !! "happiness"
     = Some (Qmin 1.0 (0.5 + 0.05))%Q.
Proof.
  repeat split; try reflexivity.
  intros H. vm_compute in H. discriminate.
Qed.

(** ** The turn pipeline *)

Section TurnFacts.

Import Assistant.

Lemma nonempty_false (m : gmap string Q) : nonempty m = false -> m = ∅.
Proof.
  unfold nonempty. intros H. apply map_to_list_empty_iff.
  destruct (map_to_list m); [reflexivity|discriminate].
Qed.

Lemma nonempty_empty : nonempty (∅ : gmap string Q) = false.
Proof. unfold nonempty. now rewrite map_to_list_empty. Qed.

Lemma unit_clamp (x y : Q) :
  (x == y)%Q -> (0 <= y)%Q -> (Qmin x 1.0 == Qmax 0 (Qmin 1 y))%Q.
Proof.
  intros E Hy.
  rewrite Q.max_r by (apply Q.min_glb; [discriminate|assumption]).
  rewrite Q.min_comm. apply Q.min_compat; [reflexivity|exact E].
Qed.

(** The membership test of the code picks the three intents the
    specification names. *)
Lemma privileged_intents intent :
  privileged intent
  = bool_decide (intent = "gratitude" \/ intent = "emotion_check"
                 \/ intent = "conversation").
Proof.
  unfold privileged. cbn [existsb].
  destruct (String.eqb_spec intent "gratitude") as [E1|N1];
    [now rewrite bool_decide_eq_true_2 by auto|].
  destruct (String.eqb_spec intent "emotion_check") as [E2|N2];
    [now rewrite bool_decide_eq_true_2 by auto|].
  destruct (String.eqb_spec intent "conversation") as [E3|N3];
    [now rewrite bool_decide_eq_true_2 by auto|].
  rewrite bool_decide_eq_false_2; [reflexivity|]. intros [H|[H|H]]; congruence.
Qed.

(** The importance the code computes is the importance of the
    specification, and it lies in [0,1]. *)
Lemma estimate_importance_spec intent sent emotion h s c :
  emotion !! "happiness" = Some h ->
  emotion !! "sadness" = Some s ->
  emotion !! "curiosity" = Some c ->
  (_estimate_importance intent (default ∅ sent) emotion
   == importance_spec intent sent h s c)%Q
  /\ (0 <= _estimate_importance intent (default ∅ sent) emotion)%Q
  /\ (_estimate_importance intent (default ∅ sent) emotion <= 1)%Q.
Proof.
  intros Hh Hs Hc.
  assert (Hspec : (_estimate_importance intent (default ∅ sent) emotion
                   == importance_spec intent sent h s c)%Q).
  { unfold _estimate_importance, importance_spec.
    rewrite <- (privileged_intents intent). rewrite Hh, Hs, Hc.
    cbn [from_option id].
    pose proof (Qabs_nonneg (h - 0.5)) as A1.
    pose proof (Qabs_nonneg s) as A2.
    pose proof (Qabs_nonneg c) as A3.
    assert (Z1 : (Qabs 0.0 == 0)%Q) by reflexivity.
    assert (Z2 : (Qabs 0 == 0)%Q) by reflexivity.
    destruct sent as [m|]; cbn [from_option id].
    - destruct (nonempty m) eqn:Hm.
      + destruct (m !! "compound") as [q|]; cbn [from_option id];
          [pose proof (Qabs_nonneg q) as A4|];
          apply unit_clamp; destruct (privileged intent); lra.
      + apply nonempty_false in Hm. subst m. rewrite lookup_empty.
        cbn [from_option id].
        apply unit_clamp; destruct (privileged intent); lra.
    - rewrite nonempty_empty.
      apply unit_clamp; destruct (privileged intent); lra. }
  split; [exact Hspec|]. rewrite Hspec. unfold importance_spec.
  split; [apply Q.le_max_l|].
  apply Q.max_lub; [discriminate|apply Q.le_min_l].
Qed.

End TurnFacts.

(** C1 fails on the code: with a rule file that grants nothing, the
    query for "cognition.reason" answers allowed = false, and the turn
    still calls the analyzer, routes the input, writes the interaction to
    memory and speaks the routed reply instead of the refusal. *)
Theorem C1_denied_gate_is_ignored :
  let a := Assistant.fresh Engine.empty_rules in
  let env := Assistant.mkTurn "12:00" "12:01" 5 true in
  let out := Assistant.handle_input
               (fun _ => ("greeting", Assistant.mkMeta None)) None
               (fun _ => Raise AttributeError) env "hello" a in
  fst (Engine.allows "12:00" "cognition.reason" (Assistant.governor a))
  = Ok (Engine.mkDecision false "forbidden" false)
  /\ fst out = Ok tt
  /\ Assistant.spoken (snd out) = [Assistant.placeholder]
  /\ Assistant.spoken (snd out) <> [Assistant.refusal_reason]
  /\ Assistant.analyzer_called (snd out) = true
  /\ Assistant.routed (snd out) = true
  /\ length (Memory.short_term (Assistant.memory (snd out))) = 1%nat.
Proof. repeat split. discriminate. Qed.

(** C2 fails on the code: "set timer 5 minutes" is not a key of the
    command table, so the turn takes the generative path whether the tool
    permission is granted or not: the reply is the placeholder, which
    does not contain "Timer set for 5 minutes", the reward score stays 0
    where the permission is granted, and the reply is not the refusal
    where it is denied. *)
Theorem C2_set_timer_takes_generative_path
    (analyze : string -> string * Assistant.Metadata)
    (resolve_handler :
       string ->
       result (string -> Assistant.Metadata -> gmap string Q ->
               result string * gmap string Q)) :
  let text := "set timer 5 minutes" in
  let env := Assistant.mkTurn "12:00" "12:01" 5 true in
  let granted := Assistant.fresh Engine.sample_rules in
  let denied := Assistant.fresh Engine.sample_rules_no_tools in
  let run := Assistant.handle_input analyze None resolve_handler env text in
  fst (Engine.allows "12:01" "tools.execute_code_in_sandbox"
         (Assistant.governor granted))
  = Ok (Engine.mkDecision true "allowed" false)
  /\ fst (Engine.allows "12:01" "tools.execute_code_in_sandbox"
            (Assistant.governor denied))
     = Ok (Engine.mkDecision false "forbidden" false)
  /\ Config.commands (Assistant.config granted) !! PyStr.lower text = None
  /\ Assistant.spoken (snd (run granted)) = [Assistant.placeholder]
  /\ PyStr.contains "Timer set for 5 minutes" Assistant.placeholder = false
  /\ Assistant.reward_score (snd (run granted)) = Assistant.reward_score granted
  /\ Assistant.spoken (snd (run denied)) = [Assistant.placeholder]
  /\ Assistant.placeholder <> Assistant.refusal_command.
Proof.
  cbv zeta. unfold Assistant.handle_input.
  repeat split; try reflexivity; try discriminate;
    cbn; destruct (analyze _); reflexivity.
Qed.

(** On the exact key "set timer" the command path is taken, and the tool
    permission is not honoured there either: with the permission denied
    and a registry that resolves nothing, the turn apologises and takes a
    point off the reward score. *)
Remark set_timer_denied_still_runs
    (analyze : string -> string * Assistant.Metadata) :
  let out := Assistant.handle_input analyze None (fun _ => Raise AttributeError)
               (Assistant.mkTurn "12:00" "12:01" 5 true) "set timer"
               (Assistant.fresh Engine.sample_rules_no_tools) in
  Assistant.spoken (snd out) = [Assistant.apology]
  /\ Assistant.reward_score (snd out) = (0 + -1)%Q.
Proof.
  cbv zeta. unfold Assistant.handle_input.
  split; cbn; destruct (analyze _); reflexivity.
Qed.

(** * Further properties of the code *)

(** ** engine.py *)

Section EngineMore.

Import Engine.

(** X1: the engine is constructed exactly when the rule file exists and
    is a mapping whose ["governor"] entry is a mapping with a ["version"];
    it then holds the mapping as its rules and an empty audit log. *)
Theorem X1_engine_constructed (file : option yaml) (g : GovernorEngine) :
  EngineLoad.init file = EngineLoad.Loaded g
  <-> exists m gov v,
        file = Some (YMap m)
        /\ dict_get "governor" m = Some (YMap gov)
        /\ dict_get "version" gov = Some v
        /\ g = mkEngine m [].
Proof.
  unfold EngineLoad.init. split.
  - destruct file as [rules|]; [|discriminate].
    destruct rules as [| | | | |m]; simpl; try discriminate.
    destruct (dict_get "governor" m) as [gov|] eqn:Eg; simpl; [|discriminate].
    destruct gov as [| | | | |gm]; simpl; try discriminate.
    destruct (dict_get "version" gm) as [v|] eqn:Ev; simpl; [|discriminate].
    intros H. inversion H. eauto 10.
  - intros (m & gov & v & -> & Eg & Ev & ->). simpl. rewrite Eg. simpl.
    rewrite Ev. reflexivity.
Qed.

Lemma clamp_bounded now category key value g lo hi :
  bounded g key lo hi ->
  clamp now category key value g
  = (Ok (Qmax lo (Qmin hi value)),
     _audit now "clamp" (category ++ "." ++ key)
            (OfClamp value (Qmax lo (Qmin hi value))) g).
Proof. intros Hb. unfold bounded in Hb. unfold clamp. now rewrite Hb. Qed.

Lemma clamp_value_range (lo hi v : Q) :
  (lo <= hi)%Q ->
  (lo <= Qmax lo (Qmin hi v) /\ Qmax lo (Qmin hi v) <= hi)%Q
  /\ ((lo <= v /\ v <= hi)%Q -> (Qmax lo (Qmin hi v) == v)%Q).
Proof.
  intros Hle. split; [split|].
  - apply Q.le_max_l.
  - apply Q.max_lub; [assumption|apply Q.le_min_l].
  - intros [H1 H2]. rewrite Q.min_r by assumption. now apply Q.max_r.
Qed.

(** X2: with configured bounds [lo <= hi], [clamp] returns a value in
    [lo, hi], and returns the value itself when it already lies there. *)
Theorem X2_clamp_within_bounds (g : GovernorEngine) (now category key : string)
    (value lo hi : Q) :
  bounded g key lo hi ->
  (lo <= hi)%Q ->
  exists r,
    fst (clamp now category key value g) = Ok r
    /\ (lo <= r /\ r <= hi)%Q
    /\ ((lo <= value /\ value <= hi)%Q -> (r == value)%Q).
Proof.
  intros Hb Hle. rewrite (clamp_bounded _ _ _ _ _ _ _ Hb). simpl.
  eexists. split; [reflexivity|]. now apply clamp_value_range.
Qed.

(** X3: with inverted bounds, [hi < lo], [clamp] returns the lower bound
    for every value, which lies above the upper bound. *)
Theorem X3_clamp_inverted_bounds (g : GovernorEngine) (now category key : string)
    (value lo hi : Q) :
  bounded g key lo hi ->
  (hi < lo)%Q ->
  exists r,
    fst (clamp now category key value g) = Ok r /\ (r == lo)%Q /\ (hi < r)%Q.
Proof.
  intros Hb Hlt. rewrite (clamp_bounded _ _ _ _ _ _ _ Hb). simpl.
  eexists. split; [reflexivity|].
  assert (E : (Qmax lo (Qmin hi value) == lo)%Q).
  { apply Q.max_l. apply Qle_trans with hi; [apply Q.le_min_l|now apply Qlt_le_weak]. }
  split; [exact E|]. now rewrite E.
Qed.

(** X4: clamping is idempotent: clamping a clamped value again, at any
    later state of the audit log, gives the same value, whatever the
    bounds are. *)
Theorem X4_clamp_idempotent (g g' : GovernorEngine) (now now' category key : string)
    (value lo hi r : Q) :
  bounded g key lo hi ->
  rules g' = rules g ->
  fst (clamp now category key value g) = Ok r ->
  exists r', fst (clamp now' category key r g') = Ok r' /\ (r' == r)%Q.
Proof.
  intros Hb Hrules Hr.
  assert (Hb' : bounded g' key lo hi)
    by (unfold bounded, clamp_bounds in *; now rewrite Hrules).
  rewrite (clamp_bounded _ _ _ _ _ _ _ Hb) in Hr. simpl in Hr.
  inversion Hr; subst r. clear Hr.
  rewrite (clamp_bounded _ _ _ _ _ _ _ Hb'). simpl.
  eexists. split; [reflexivity|].
  destruct (Qlt_le_dec hi lo) as [Hinv|Hle].
  - assert (E : (Qmax lo (Qmin hi value) == lo)%Q).
    { apply Q.max_l. apply Qle_trans with hi;
        [apply Q.le_min_l|now apply Qlt_le_weak]. }
    rewrite E. apply Q.max_l.
    apply Qle_trans with hi; [apply Q.le_min_l|now apply Qlt_le_weak].
  - destruct (clamp_value_range lo hi value Hle) as [Hrange _].
    now apply (clamp_value_range lo hi _ Hle).
Qed.

(** X5: a key without usable bounds is not clamped: when the rules have
    no ["learning_bounds"], or its table has no ["personality_clamp"], or
    that table lacks the key or holds an empty list for it, [clamp]
    returns the value as it is and leaves the engine as it was. *)
Theorem X5_clamp_unbounded (g : GovernorEngine) (now category key : string)
    (value : Q) :
  (dict_get "learning_bounds" (rules g) = None
   \/ (exists lb, dict_get "learning_bounds" (rules g) = Some (YMap lb)
                  /\ dict_get "personality_clamp" lb = None)
   \/ (exists lb table,
          dict_get "learning_bounds" (rules g) = Some (YMap lb)
          /\ dict_get "personality_clamp" lb = Some (YMap table)
          /\ (dict_get key table = None \/ dict_get key table = Some (YSeq [])))) ->
  clamp now category key value g = (Ok value, g).
Proof.
  unfold clamp, clamp_bounds.
  intros [H|[(lb & H1 & H2)|(lb & table & H1 & H2 & [H3|H3])]].
  - rewrite H. reflexivity.
  - rewrite H1. simpl. rewrite H2. reflexivity.
  - rewrite H1. simpl. rewrite H2. simpl. rewrite H3. reflexivity.
  - rewrite H1. simpl. rewrite H2. simpl. rewrite H3. reflexivity.
Qed.

Lemma prefix_contains a s : String.prefix a s = true -> PyStr.contains a s = true.
Proof.
  intros H. destruct s as [|c s].
  - destruct a; [reflexivity|discriminate].
  - change (String.prefix a (String c s) || PyStr.contains a s = true).
    now rewrite H.
Qed.

Lemma prefix_refl a : String.prefix a a = true.
Proof. induction a as [|c a IH]; simpl; [reflexivity|]. now destruct (ascii_dec c c). Qed.

(** a suffix test that succeeds is a containment test that succeeds *)
Lemma endswith_contains s a : PyStr.endswith s a = true -> PyStr.contains a s = true.
Proof.
  induction s as [|c s IH].
  - intros H. destruct a; [reflexivity|discriminate H].
  - change (String.eqb (String c s) a || PyStr.endswith s a = true ->
            String.prefix a (String c s) || PyStr.contains a s = true).
    intros H. apply orb_true_iff in H. destruct H as [H|H].
    + apply String.eqb_eq in H. subst a. apply orb_true_iff. left.
      apply (prefix_refl (String c s)).
    + apply orb_true_iff. right. now apply IH.
Qed.

Lemma any_approval_contains path l :
  Forall (fun a => exists s, a = YStr s) l ->
  any_approval path l
  = Ok (existsb (fun a => PyStr.contains a path) (EngineLoad.strings_of l)).
Proof.
  induction 1 as [|a l [s ->] _ IH]; simpl; [reflexivity|].
  destruct (PyStr.contains s path) eqn:E.
  - now rewrite orb_true_r.
  - rewrite orb_false_r.
    destruct (PyStr.endswith path s) eqn:E'; [|exact IH].
    apply endswith_contains in E'. congruence.
Qed.

(** X6: with an approval list of strings, a path requires approval
    exactly when some listed identifier occurs in it as a substring; so a
    listed action requires approval (the exact test implies the loose
    one), and an empty identifier in the list gates every path. *)
Theorem X6_approval_is_substring (g : GovernorEngine) (path : string)
    (l : list yaml) :
  dict_get "approval_required_for" (rules g) = Some (YSeq l) ->
  Forall (fun a => exists s, a = YStr s) l ->
  _requires_approval g path
  = Ok (existsb (fun a => PyStr.contains a path) (EngineLoad.strings_of l))
  /\ (requires_approval_exact g path = Ok true -> _requires_approval g path = Ok true)
  /\ (In (YStr "") l -> _requires_approval g path = Ok true).
Proof.
  intros Hget Hall.
  assert (E : _requires_approval g path
              = Ok (existsb (fun a => PyStr.contains a path)
                            (EngineLoad.strings_of l))).
  { unfold _requires_approval. rewrite Hget. simpl. now apply any_approval_contains. }
  split; [exact E|]. rewrite E. split.
  - unfold requires_approval_exact. rewrite Hget. simpl. intros H.
    assert (H' : existsb (fun a => match a with
                                   | YStr s => String.eqb s path
                                   | _ => false
                                   end) l = true) by congruence.
    clear H. f_equal.
    apply existsb_exists in H'. destruct H' as (a & Hin & Ha).
    destruct a; try discriminate. apply String.eqb_eq in Ha. subst s.
    apply existsb_exists. exists path. split.
    + unfold EngineLoad.strings_of. apply in_flat_map.
      exists (YStr path). split; [assumption|now left].
    + apply prefix_contains, prefix_refl.
  - intros Hin. f_equal. apply existsb_exists. exists "". split.
    + unfold EngineLoad.strings_of. apply in_flat_map.
      exists (YStr ""). split; [assumption|now left].
    + destruct path; reflexivity.
Qed.

Lemma enforce_of_allows now path g :
  approvals_wf g ->
  exists appr,
    _requires_approval g path = Ok appr
    /\ enforce now path g
       = (if negb (_lookup_permission g path)
          then Violation ("Action '" ++ path ++ "' is forbidden by Governor.")
          else if appr
               then Violation ("Action '" ++ path ++ "' requires human approval.")
               else Enforced,
          _audit now "permission_check" path
            (OfDecision (mkDecision (_lookup_permission g path)
                           (if _lookup_permission g path
                            then "allowed" else "forbidden") appr)) g).
Proof.
  intros Hwf. destruct (requires_approval_returns g path Hwf) as [appr Ha].
  exists appr. split; [exact Ha|].
  unfold enforce, allows. rewrite Ha. simpl.
  destruct (_lookup_permission g path); simpl; [|reflexivity].
  destruct appr; reflexivity.
Qed.

(** X7: on an engine whose approval list is absent or a list of strings,
    [enforce] succeeds exactly when the path is present in the permission
    tree and no approval is required; an absent path is reported as
    forbidden even when it would also require approval; a present path
    that requires approval is reported as such; and the call adds one
    audit record.  Where the approval test itself raises, [enforce] lets
    the exception through and adds no record. *)
Theorem X7_enforce_outcome (g : GovernorEngine) (now path : string) :
  (forall e, _requires_approval g path = Raise e ->
             enforce now path g = (Failed e, g))
  /\ (approvals_wf g ->
      (fst (enforce now path g) = Enforced
       <-> present g path /\ _requires_approval g path = Ok false)
      /\ (~ present g path ->
          fst (enforce now path g)
          = Violation ("Action '" ++ path ++ "' is forbidden by Governor."))
      /\ (present g path -> _requires_approval g path = Ok true ->
          fst (enforce now path g)
          = Violation ("Action '" ++ path ++ "' requires human approval."))
      /\ appends_one g (snd (enforce now path g))).
Proof.
  split.
  { intros e He. unfold enforce, allows. now rewrite He. }
  intros Hwf. destruct (enforce_of_allows now path g Hwf) as (appr & Ha & He).
  rewrite He. simpl. rewrite Ha.
  destruct (_lookup_permission g path) eqn:El; simpl.
  - apply lookup_present in El.
    split; [|split; [|split]].
    + destruct appr; split; try discriminate; try tauto.
      intros [_ H]. discriminate.
    + contradiction.
    + intros _ H. inversion H. reflexivity.
    + apply audit_appends_one.
  - assert (Hn : ~ present g path)
      by (intros H; apply lookup_present in H; congruence).
    split; [|split; [|split]].
    + split; [discriminate|tauto].
    + reflexivity.
    + contradiction.
    + apply audit_appends_one.
Qed.

Lemma step_extends g c :
  rules (EngineLoad.step g c) = rules g
  /\ exists more, audit_log (EngineLoad.step g c) = audit_log g ++ more
                  /\ (length more <= 1)%nat.
Proof.
  assert (Hsame : forall g0 : GovernorEngine,
             rules g0 = rules g0
             /\ exists more, audit_log g0 = audit_log g0 ++ more
                             /\ (length more <= 1)%nat).
  { intros g0. split; [reflexivity|]. exists []. rewrite app_nil_r. simpl. auto. }
  assert (Haudit : forall now ev subj d,
             rules (_audit now ev subj d g) = rules g
             /\ exists more, audit_log (_audit now ev subj d g) = audit_log g ++ more
                             /\ (length more <= 1)%nat).
  { intros. split; [reflexivity|]. simpl. eexists. split; [reflexivity|]. simpl. auto. }
  destruct c as [now path|now category key value|now path]; simpl.
  - unfold allows. destruct (_requires_approval g path); simpl;
      first [apply Haudit|apply Hsame].
  - unfold clamp.
    destruct (clamp_bounds g key) as [[bounds|]|]; simpl; try apply Hsame.
    destruct (truthy bounds); simpl; try apply Hsame.
    destruct (unpack2 bounds) as [[lo hi]|]; simpl; try apply Hsame.
    destruct (as_number hi), (as_number lo); simpl;
      first [apply Haudit|apply Hsame].
  - unfold enforce, allows. destruct (_requires_approval g path); simpl;
      try apply Hsame.
    destruct (_lookup_permission g path); simpl; try apply Haudit.
    destruct a; simpl; apply Haudit.
Qed.

(** X8: no sequence of [allows], [clamp] and [enforce] calls changes the
    rules, and the audit log only grows at its end: the log before is a
    leading part of the log after, which is longer by at most one record
    per call. *)
Theorem X8_engine_run_keeps_rules (g : GovernorEngine) (calls : list EngineLoad.call) :
  rules (EngineLoad.run g calls) = rules g
  /\ audit_log g `prefix_of` audit_log (EngineLoad.run g calls)
  /\ (length (audit_log (EngineLoad.run g calls))
      <= length (audit_log g) + length calls)%nat.
Proof.
  revert g. induction calls as [|c calls IH]; intros g; simpl.
  - split; [reflexivity|]. split; [reflexivity|lia].
  - destruct (step_extends g c) as (Hr & more & Hlog & Hlen).
    destruct (IH (EngineLoad.step g c)) as (IH1 & IH2 & IH3).
    split; [congruence|]. split.
    + etransitivity; [|exact IH2]. rewrite Hlog. now apply prefix_app_r.
    + rewrite Hlog, length_app in IH3. lia.
Qed.

End EngineMore.

Lemma X2_clamp_within_bounds_witness :
  exists r,
    fst (Engine.clamp "12:00" "personality" "warmth" 0.9
           (Engine.mkEngine Engine.sample_rules [])) = Ok r
    /\ (0.2 <= r /\ r <= 0.8)%Q.
Proof.
  destruct (X2_clamp_within_bounds (Engine.mkEngine Engine.sample_rules [])
              "12:00" "personality" "warmth" 0.9%Q 0.2%Q 0.8%Q)
    as (r & Hr & Hrange & _).
  - reflexivity.
  - unfold Qle. simpl. lia.
  - exists r. split; assumption.
Defined.

Lemma X3_clamp_inverted_bounds_witness :
  exists r,
    fst (Engine.clamp "12:00" "personality" "warmth" 0.5
           (Engine.mkEngine
              [("learning_bounds",
                Engine.YMap
                  [("personality_clamp",
                    Engine.YMap
                      [("warmth", Engine.YSeq [Engine.YNum 0.8; Engine.YNum 0.2])])])]
              [])) = Ok r
    /\ (r == 0.8)%Q /\ (0.2 < r)%Q.
Proof.
  apply X3_clamp_inverted_bounds.
  - reflexivity.
  - unfold Qlt. simpl. lia.
Defined.

Lemma X4_clamp_idempotent_witness :
  exists r',
    fst (Engine.clamp "12:01" "personality" "warmth" (Qmax 0.2 (Qmin 0.8 0.9))
           (Engine.mkEngine Engine.sample_rules [])) = Ok r'
    /\ (r' == Qmax 0.2 (Qmin 0.8 0.9))%Q.
Proof.
  apply (X4_clamp_idempotent (Engine.mkEngine Engine.sample_rules [])
           (Engine.mkEngine Engine.sample_rules [])
           "12:00" "12:01" "personality" "warmth" 0.9%Q 0.2%Q 0.8%Q).
  - reflexivity.
  - reflexivity.
  - reflexivity.
Defined.

Lemma X5_clamp_unbounded_witness :
  Engine.clamp "12:00" "personality" "warmth" 0.9
    (Engine.mkEngine Engine.empty_rules [])
  = (Ok 0.9%Q, Engine.mkEngine Engine.empty_rules []).
Proof.
  apply X5_clamp_unbounded. left. reflexivity.
Defined.

Lemma X6_approval_is_substring_witness :
  Engine._requires_approval (Engine.mkEngine Engine.sample_rules [])
    "tools.redeploy_model"
  = Ok (existsb (fun a => PyStr.contains a "tools.redeploy_model") ["deploy"]).
Proof.
  destruct (X6_approval_is_substring (Engine.mkEngine Engine.sample_rules [])
              "tools.redeploy_model" [Engine.YStr "deploy"]) as [H _].
  - reflexivity.
  - constructor; [|constructor]. exists "deploy". reflexivity.
  - exact H.
Defined.

Lemma X7_enforce_outcome_witness :
  fst (Engine.enforce "12:00" "models.create_neural_networks"
         (Engine.mkEngine Engine.sample_rules []))
  = Engine.Violation
      "Action 'models.create_neural_networks' is forbidden by Governor.".
Proof.
  destruct (X7_enforce_outcome (Engine.mkEngine Engine.sample_rules [])
              "12:00" "models.create_neural_networks") as (_ & Hwf).
  destruct Hwf as (_ & H & _).
  - simpl. repeat constructor. eexists. reflexivity.
  - apply H. intros Hp. apply lookup_present in Hp. discriminate Hp.
Defined.

(** ** memory.py *)

Section MemoryMore.

Import Memory.

Lemma init_of_saved m N T :
  init (memory_file (save true m)) N T
  = mkCore (Parsed (Items (short_term m)) (Items (long_term m))) N T
           (short_term m) (long_term m).
Proof. reflexivity. Qed.

Lemma emotion_of_pairs (l : list (string * Q)) :
  MemoryFile.emotion_of (map (fun kv => (fst kv, MemoryFile.JNum (snd kv))) l)
  = Some (list_to_map l).
Proof.
  induction l as [|[k v] l IH]; [reflexivity|].
  cbn [map MemoryFile.emotion_of fst snd]. rewrite IH. reflexivity.
Qed.

(** Building an item from the keywords of [asdict(item)] gives the item. *)
Lemma build_asdict (item : MemoryItem) :
  MemoryFile.build (MemoryFile.asdict item) = MemoryFile.Built item.
Proof.
  destruct item as [ts u r i es imp sm].
  unfold MemoryFile.build, MemoryFile.asdict, MemoryFile.typed.
  cbn [timestamp user_input assistant_response intent emotion importance summary].
  change (existsb _ _) with false at 1. cbn [negb].
  change (forallb _ MemoryFile.required) with true. cbn [negb].
  change (MemoryFile.get "timestamp" _) with (Some (MemoryFile.JNum ts)).
  change (MemoryFile.get "user_input" _) with (Some (MemoryFile.JStr u)).
  change (MemoryFile.get "assistant_response" _) with (Some (MemoryFile.JStr r)).
  change (MemoryFile.get "intent" _) with (Some (MemoryFile.JStr i)).
  change (MemoryFile.get "emotion" _)
    with (Some (MemoryFile.JObj
                  (map (fun kv => (fst kv, MemoryFile.JNum (snd kv)))
                       (map_to_list es)))).
  change (MemoryFile.get "importance" _) with (Some (MemoryFile.JNum imp)).
  change (MemoryFile.get "summary" _)
    with (Some (match sm with
                | Some t => MemoryFile.JStr t
                | None => MemoryFile.JNull
                end)).
  cbv iota beta. rewrite emotion_of_pairs, list_to_map_to_list.
  destruct sm; reflexivity.
Qed.

Lemma build_all_asdict (items : list MemoryItem) :
  MemoryFile.build_all (map MemoryFile.asdict items) = Some (Ok items).
Proof.
  induction items as [|i items IH]; [reflexivity|].
  cbn [map MemoryFile.build_all]. now rewrite build_asdict, IH.
Qed.

(** Reading back the document of a store finds its two lists. *)
Lemma found_data m :
  MemoryFile.found (MemoryFile.data m)
  = Some (Parsed (Items (short_term m)) (Items (long_term m))).
Proof.
  unfold MemoryFile.found, MemoryFile.data, MemoryFile.field_of.
  change (MemoryFile.get "short_term" _)
    with (Some (MemoryFile.JArr (map MemoryFile.asdict (short_term m)))).
  change (MemoryFile.get "long_term" _)
    with (Some (MemoryFile.JArr (map MemoryFile.asdict (long_term m)))).
  cbn [MemoryFile.iterate]. now rewrite !build_all_asdict.
Qed.

(** X9: what [save] writes is read back as the same two lists:
    the keywords of [asdict(m)] rebuild every item, so the document that
    [add_interaction] wrote is found by [_load] as the file of the store,
    and a store built anew over it holds the same short-term and
    long-term lists (and is the same store when built with the same
    settings).  When the write fails the two lists in memory are updated
    all the same. *)
Theorem X9_restart_restores_store (now : Q) (u r i : string) (e : gmap string Q)
    (imp : Q) (m : MemoryCore) (N' : Z) (T' : Q) :
  let written := add_interaction now true u r i e imp m in
  let failed := add_interaction now false u r i e imp m in
  (forall item, MemoryFile.build (MemoryFile.asdict item) = MemoryFile.Built item)
  /\ MemoryFile.found (MemoryFile.data written) = Some (memory_file written)
  /\ init (memory_file written) (short_term_limit m) (importance_threshold m)
     = written
  /\ short_term (init (memory_file written) N' T') = short_term written
  /\ long_term (init (memory_file written) N' T') = long_term written
  /\ short_term failed = short_term written
  /\ long_term failed = long_term written.
Proof.
  cbv zeta. split; [apply build_asdict|]. split; [apply found_data|].
  unfold add_interaction. repeat split.
Qed.

Lemma last_snoc {A} (l : list A) (x : A) : last (l ++ [x]) = Some x.
Proof. induction l as [|y l IH]; [reflexivity|]. simpl. destruct (l ++ [x]) eqn:E.
  - destruct l; discriminate.
  - exact IH.
Qed.

(** X10: [add_interaction] appends the new item to the long-term list
    exactly when its importance reaches the threshold, equality included,
    and otherwise leaves that list alone; with a capacity of at least one
    the item is the last of the short-term list, and with a capacity of
    zero or less an empty short-term list stays empty. *)
Theorem X10_admission_boundary (now : Q) (ok : bool) (u r i : string)
    (e : gmap string Q) (imp : Q) (m : MemoryCore) :
  let item := mkItem now u r i e imp None in
  let m' := add_interaction now ok u r i e imp m in
  ((importance_threshold m <= imp)%Q -> long_term m' = long_term m ++ [item])
  /\ ((imp < importance_threshold m)%Q -> long_term m' = long_term m)
  /\ ((1 <= short_term_limit m)%Z -> last (short_term m') = Some item)
  /\ ((short_term_limit m <= 0)%Z -> short_term m = [] -> short_term m' = []).
Proof.
  cbv zeta. unfold add_interaction.
  match goal with |- context [save ok ?x] =>
    destruct (save_fields ok x) as (_ & _ & E3 & E4)
  end.
  rewrite E3, E4. simpl. repeat split.
  - intros H. apply Qle_bool_iff in H. now rewrite H.
  - intros H. destruct (Qle_bool (importance_threshold m) imp) eqn:E; [|reflexivity].
    apply Qle_bool_iff in E. exfalso. now apply (Qlt_not_le _ _ H).
  - intros HN.
    destruct (Z.of_nat (length (short_term m ++ [mkItem now u r i e imp None]))
              >? short_term_limit m)%Z eqn:E.
    + destruct (short_term m) as [|x st]; simpl.
      * simpl in E. apply Z.gtb_lt in E. lia.
      * apply last_snoc.
    + apply last_snoc.
  - intros HN Hst. rewrite Hst. simpl.
    change (Z.of_nat 1) with 1%Z.
    destruct (1 >? short_term_limit m)%Z eqn:E; [reflexivity|].
    rewrite Z.gtb_ltb in E. apply Z.ltb_ge in E. lia.
Qed.

Lemma summarize_long_term_bounded render now ok max_items m :
  (1 <= max_items)%Z ->
  (Z.of_nat (length (long_term (summarize_long_term render now ok max_items m)))
   <= max_items)%Z
  /\ short_term (summarize_long_term render now ok max_items m) = short_term m.
Proof.
  intros Hk. split.
  - unfold summarize_long_term.
    destruct (Z.leb_spec (Z.of_nat (length (long_term m))) max_items) as [H|H];
      [exact H|].
    match goal with |- context [save ok ?x] =>
      destruct (save_fields ok x) as (_ & _ & _ & E4)
    end.
    rewrite E4. simpl. lia.
  - now apply (summarize_long_term_positive render now ok max_items m).
Qed.

(** X12: for a window of at least one item, consolidation leaves at most
    [max_items] long-term items, does not touch the short-term list, and
    is idempotent: a second consolidation changes nothing. *)
Theorem X12_summarize_idempotent (render render' : Q -> string) (now now' : Q)
    (ok ok' : bool) (max_items : Z) (m : MemoryCore) :
  (1 <= max_items)%Z ->
  let m' := summarize_long_term render now ok max_items m in
  summarize_long_term render' now' ok' max_items m' = m'
  /\ (Z.of_nat (length (long_term m')) <= max_items)%Z
  /\ short_term m' = short_term m.
Proof.
  intros Hk m'.
  destruct (summarize_long_term_bounded render now ok max_items m Hk)
    as [Hlen Hst].
  fold m' in Hlen, Hst.
  split; [|split; assumption].
  unfold summarize_long_term at 1.
  apply Z.leb_le in Hlen. now rewrite Hlen.
Qed.

Lemma join_snoc2 sep (l : list string) a b :
  l <> [] ->
  PyStr.join sep (l ++ [a; b])
  = (PyStr.join sep l ++ sep ++ a ++ sep ++ b)%string.
Proof.
  induction l as [|x l IH]; [congruence|]. intros _.
  destruct l as [|y l].
  - reflexivity.
  - change (PyStr.join sep ((x :: y :: l) ++ [a; b]))
      with (x ++ sep ++ PyStr.join sep ((y :: l) ++ [a; b]))%string.
    rewrite IH by discriminate.
    change (PyStr.join sep (x :: y :: l))
      with (x ++ sep ++ PyStr.join sep (y :: l))%string.
    now rewrite !append_assoc.
Qed.

(** X13: the recent context of an empty store is the empty string, and
    an interaction added below capacity adds exactly its two lines at the
    end of the context, after a line break when the context was not
    empty. *)
Theorem X13_context_grows_by_two_lines (now : Q) (ok : bool) (u r i : string)
    (e : gmap string Q) (imp : Q) (m : MemoryCore) :
  (Z.of_nat (length (short_term m)) < short_term_limit m)%Z ->
  (short_term m = [] ->
   get_recent_context m = ""
   /\ get_recent_context (add_interaction now ok u r i e imp m)
      = ("User: " ++ u ++ newline ++ "MIKA: " ++ r)%string)
  /\ (short_term m <> [] ->
      get_recent_context (add_interaction now ok u r i e imp m)
      = (get_recent_context m ++ newline
         ++ ("User: " ++ u) ++ newline ++ ("MIKA: " ++ r))%string).
Proof.
  intros Hroom.
  assert (Hst : short_term (add_interaction now ok u r i e imp m)
                = short_term m ++ [mkItem now u r i e imp None]).
  { unfold add_interaction.
    match goal with |- context [save ok ?x] =>
      destruct (save_fields ok x) as (_ & _ & E3 & _)
    end.
    rewrite E3. simpl.
    destruct (Z.of_nat (length (short_term m ++ [mkItem now u r i e imp None]))
              >? short_term_limit m)%Z eqn:E; [|reflexivity].
    apply Z.gtb_lt in E. rewrite length_app in E. simpl in E. lia. }
  unfold get_recent_context. rewrite Hst. split.
  - intros ->. split; [reflexivity|]. cbn. now rewrite !append_assoc.
  - intros Hne. rewrite flat_map_app. cbn [flat_map app user_input assistant_response].
    apply join_snoc2. destruct (short_term m); [congruence|discriminate].
Qed.

End MemoryMore.

Section TrendFacts.

Import Memory MemorySpec.

Lemma add_totals_lookup totals i k :
  add_totals totals i !! k
  = match emotion i !! k with
    | Some v => Some (default 0.0%Q (totals !! k) + v)%Q
    | None => totals !! k
    end.
Proof.
  unfold add_totals.
  apply (map_fold_weak_ind
           (fun r (m : gmap string Q) =>
              r !! k = match m !! k with
                       | Some v => Some (default 0.0%Q (totals !! k) + v)%Q
                       | None => totals !! k
                       end)).
  - now rewrite lookup_empty.
  - intros j x m r Hj IH.
    destruct (decide (j = k)) as [->|Hne].
    + rewrite !lookup_insert_eq. rewrite Hj in IH. now rewrite IH.
    + now rewrite !lookup_insert_ne by assumption.
Qed.

Lemma fold_totals_lookup k items : forall totals,
  match fold_left add_totals items totals !! k with
  | None => totals !! k = None /\ Forall (fun i => emotion i !! k = None) items
  | Some q =>
      (q == default 0%Q (totals !! k) + axis_sum k items)%Q
      /\ (is_Some (totals !! k) \/ Exists (has_axis k) items)
  end.
Proof.
  induction items as [|i items IH]; intros totals; simpl.
  - destruct (totals !! k) as [q|] eqn:E; simpl.
    + split; [lra|left; eauto].
    + split; [reflexivity|constructor].
  - specialize (IH (add_totals totals i)).
    rewrite add_totals_lookup in IH.
    destruct (fold_left add_totals items (add_totals totals i) !! k) as [q|].
    + destruct IH as [Hq Hex].
      destruct (emotion i !! k) as [v|] eqn:Ev; simpl in *.
      * split; [destruct (totals !! k); simpl in *; lra|].
        right. constructor. unfold has_axis. rewrite Ev. eauto.
      * split; [lra|]. destruct Hex as [H|H]; [now left|right; now constructor 2].
    + destruct IH as [Hn Hall].
      destruct (emotion i !! k) as [v|] eqn:Ev; [discriminate|].
      split; [assumption|]. now constructor.
Qed.

Lemma axis_sum_range k items :
  Forall snapshot_in_range items ->
  (0 <= axis_sum k items /\ axis_sum k items <= inject_Z (Z.of_nat (length items)))%Q.
Proof.
  induction 1 as [|i items Hi _ IH]; simpl axis_sum.
  - split; discriminate.
  - assert (Hv : (0 <= default 0%Q (emotion i !! k)
                  /\ default 0%Q (emotion i !! k) <= 1)%Q).
    { destruct (emotion i !! k) as [v|] eqn:E; simpl.
      - exact (Hi k v E).
      - split; discriminate. }
    replace (length (i :: items)) with (S (length items)) by reflexivity.
    rewrite Nat2Z.inj_succ. unfold Z.succ. rewrite inject_Z_plus.
    change (inject_Z 1) with 1%Q. lra.
Qed.

(** X11: the emotional trend of an empty short-term list is the empty
    mapping; otherwise an axis is in the trend exactly when some item's
    snapshot has it, and its value is the sum of the items' values for it
    divided by the number of all short-term items, items without the axis
    counting as zero; when every snapshot value lies in [0,1], so does
    every value of the trend. *)
Theorem X11_trend_is_mean (m : MemoryCore) (k : string) :
  (short_term m = [] -> get_emotional_trend m = ∅)
  /\ (short_term m <> [] ->
      match get_emotional_trend m !! k with
      | None => Forall (fun i => emotion i !! k = None) (short_term m)
      | Some q =>
          (q == axis_sum k (short_term m)
                / inject_Z (Z.of_nat (length (short_term m))))%Q
          /\ Exists (has_axis k) (short_term m)
          /\ (Forall snapshot_in_range (short_term m) -> (0 <= q /\ q <= 1)%Q)
      end).
Proof.
  split.
  - intros H. unfold get_emotional_trend. now rewrite H.
  - intros Hne. unfold get_emotional_trend.
    destruct (short_term m) as [|i0 rest] eqn:Est; [congruence|].
    rewrite lookup_fmap.
    pose proof (fold_totals_lookup k (i0 :: rest) ∅) as H.
    change (fold_left
              (fun totals i =>
                 map_fold (fun k v totals =>
                             <[k := (default 0.0%Q (totals !! k) + v)%Q]> totals)
                          totals (emotion i)) (i0 :: rest) ∅)
      with (fold_left add_totals (i0 :: rest) ∅).
    destruct (fold_left add_totals (i0 :: rest) ∅ !! k) as [q|]; simpl.
    + destruct H as [Hq Hex]. rewrite lookup_empty in Hq, Hex. simpl in Hq.
      assert (Hn : (0 < inject_Z (Z.of_nat (length (i0 :: rest))))%Q).
      { change 0%Q with (inject_Z 0). rewrite <- Zlt_Qlt. simpl. lia. }
      assert (Hmean : (q / inject_Z (Z.of_nat (length (i0 :: rest)))
                       == axis_sum k (i0 :: rest)
                          / inject_Z (Z.of_nat (length (i0 :: rest))))%Q).
      { rewrite Hq. now rewrite Qplus_0_l. }
      split; [exact Hmean|]. split.
      * destruct Hex as [[x Hx]|Hex]; [discriminate|exact Hex].
      * intros Hall. rewrite Hmean.
        destruct (axis_sum_range k (i0 :: rest) Hall) as [H0 H1].
        split.
        -- apply Qle_shift_div_l; [exact Hn|]. lra.
        -- apply Qle_shift_div_r; [exact Hn|]. lra.
    + exact (proj2 H).
Qed.

End TrendFacts.

(** ** emotion.py and the emotion check of config.py *)

Section EmotionMore.

Import Emotion.

(** X14: [update_emotion] sets an axis the state has to the value clamped
    into [0,1] and leaves the other axes alone; for a name the state does
    not have it changes nothing, so it never adds an axis; and it keeps
    every axis in [0,1]. *)
Theorem X14_update_emotion (emotion : string) (value : Q) (es : gmap string Q) :
  (es !! emotion = None -> update_emotion emotion value es = es)
  /\ (is_Some (es !! emotion) ->
      update_emotion emotion value es !! emotion = Some (Qmax 0.0 (Qmin 1.0 value)))
  /\ (forall k, k <> emotion -> update_emotion emotion value es !! k = es !! k)
  /\ (forall k, is_Some (update_emotion emotion value es !! k) <-> is_Some (es !! k))
  /\ (in_range es -> in_range (update_emotion emotion value es)).
Proof.
  unfold update_emotion.
  destruct (es !! emotion) as [old|] eqn:E.
  - split; [discriminate|]. split; [intros _; apply lookup_insert_eq|].
    split; [intros k Hk; now apply lookup_insert_ne|]. split.
    + intros k. destruct (decide (emotion = k)) as [<-|Hne].
      * rewrite lookup_insert_eq, E. split; eauto.
      * now rewrite lookup_insert_ne.
    + intros Hes. apply in_range_insert; [assumption|apply clamp01_range].
  - split; [reflexivity|]. split; [intros [x Hx]; discriminate|].
    split; [reflexivity|]. split; [reflexivity|tauto].
Qed.

Lemma clamp01_up (x y : Q) :
  (0 <= x /\ x <= 1)%Q -> (x <= y)%Q -> (x <= Affect.clamp01 y)%Q.
Proof.
  intros [H0 H1] Hxy. unfold Affect.clamp01.
  apply Qle_trans with (Qmin 1.0 y); [|apply Q.le_max_r].
  apply Q.min_glb; [|assumption].
  apply Qle_trans with 1%Q; [assumption|discriminate].
Qed.

Lemma clamp01_down (x y : Q) :
  (0 <= x /\ x <= 1)%Q -> (y <= x)%Q -> (Affect.clamp01 y <= x)%Q.
Proof.
  intros [H0 H1] Hxy. unfold Affect.clamp01.
  apply Q.max_lub.
  - apply Qle_trans with 0%Q; [discriminate|assumption].
  - apply Qle_trans with y; [apply Q.le_min_r|assumption].
Qed.

(** X15: on a state with its four axes in [0,1], [adjust_emotions] with a
    delta of zero or more never lowers happiness, curiosity or affinity
    and never raises sadness; with a delta of zero or less it is the other
    way round. *)
Theorem X15_adjust_direction (delta : Q) (es : gmap string Q) :
  in_range es ->
  exists es',
    adjust_emotions delta es = (Ok tt, es')
    /\ forall h s c f h' s' c' f',
         es !! "happiness" = Some h -> es !! "sadness" = Some s ->
         es !! "curiosity" = Some c -> es !! "affinity" = Some f ->
         es' !! "happiness" = Some h' -> es' !! "sadness" = Some s' ->
         es' !! "curiosity" = Some c' -> es' !! "affinity" = Some f' ->
         ((0 <= delta)%Q -> (h <= h' /\ s' <= s /\ c <= c' /\ f <= f')%Q)
         /\ ((delta <= 0)%Q -> (h' <= h /\ s <= s' /\ c' <= c /\ f' <= f)%Q).
Proof.
  intros Hes.
  destruct (Hes "happiness") as (h0 & Hh & Rh); [simpl; tauto|].
  destruct (Hes "sadness") as (s0 & Hs & Rs); [simpl; tauto|].
  destruct (Hes "curiosity") as (c0 & Hc & Rc); [simpl; tauto|].
  destruct (Hes "affinity") as (f0 & Hf & Rf); [simpl; tauto|].
  eexists. split; [eapply adjust_emotions_returns; eassumption|].
  intros h s c f h' s' c' f' Eh Es Ec Ef Eh' Es' Ec' Ef'.
  rewrite Hh in Eh. rewrite Hs in Es. rewrite Hc in Ec. rewrite Hf in Ef.
  inversion Eh; inversion Es; inversion Ec; inversion Ef; subst h s c f.
  repeat (first [rewrite lookup_insert_eq in Eh'
                |rewrite lookup_insert_ne in Eh' by discriminate]).
  repeat (first [rewrite lookup_insert_eq in Es'
                |rewrite lookup_insert_ne in Es' by discriminate]).
  repeat (first [rewrite lookup_insert_eq in Ec'
                |rewrite lookup_insert_ne in Ec' by discriminate]).
  repeat (first [rewrite lookup_insert_eq in Ef'
                |rewrite lookup_insert_ne in Ef' by discriminate]).
  inversion Eh'; inversion Es'; inversion Ec'; inversion Ef'; subst h' s' c' f'.
  split; intros Hd; repeat split;
    first [apply clamp01_up; [assumption|lra]|apply clamp01_down; [assumption|lra]].
Qed.

Lemma checked_idem entry : ConfigCheck.checked (ConfigCheck.checked entry)
                            = ConfigCheck.checked entry.
Proof.
  destruct entry as [v|]; simpl; [|reflexivity].
  destruct (Qle_bool 0 v && Qle_bool v 1) eqn:E; simpl; [now rewrite E|reflexivity].
Qed.

Lemma check_key_lookup es key k :
  ConfigCheck.check_key es key !! k
  = if decide (key = k) then ConfigCheck.checked (es !! k) else es !! k.
Proof.
  unfold ConfigCheck.check_key, ConfigCheck.checked.
  destruct (decide (key = k)) as [->|Hne].
  - destruct (es !! k) as [v|] eqn:E.
    + destruct (Qle_bool 0 v && Qle_bool v 1); [exact E|apply lookup_insert_eq].
    + apply lookup_insert_eq.
  - destruct (es !! key) as [v|].
    + destruct (Qle_bool 0 v && Qle_bool v 1); [reflexivity|].
      now apply lookup_insert_ne.
    + now apply lookup_insert_ne.
Qed.

Lemma post_init_lookup keys : forall es k,
  ConfigCheck.post_init_emotion keys es !! k
  = if in_dec string_dec k keys then ConfigCheck.checked (es !! k) else es !! k.
Proof.
  unfold ConfigCheck.post_init_emotion.
  induction keys as [|key keys IH]; intros es k.
  - reflexivity.
  - change (fold_left ConfigCheck.check_key (key :: keys) es)
      with (fold_left ConfigCheck.check_key keys (ConfigCheck.check_key es key)).
    rewrite IH, check_key_lookup.
    destruct (in_dec string_dec k keys) as [Hin|Hn];
      destruct (in_dec string_dec k (key :: keys)) as [Hin'|Hn'];
      destruct (decide (key = k)) as [->|Hne];
      try reflexivity; try apply checked_idem;
      try (exfalso; apply Hn'; simpl; tauto).
    destruct Hin' as [?|?]; [congruence|contradiction].
Qed.

Lemma checked_range entry :
  exists v, ConfigCheck.checked entry = Some v /\ (0 <= v /\ v <= 1)%Q.
Proof.
  destruct entry as [v|]; simpl.
  - destruct (Qle_bool 0 v) eqn:E0; destruct (Qle_bool v 1) eqn:E1; simpl;
      try (exists 0.5%Q; split; [reflexivity|split; discriminate]).
    exists v. split; [reflexivity|]. split; now apply Qle_bool_iff.
  - exists 0.5%Q. split; [reflexivity|split; discriminate].
Qed.

(** X16: whatever order the required keys are visited in, the check of
    [__post_init__] leaves the four axes present with values in [0,1]: a
    value already in [0,1] is kept, a missing or out-of-range one becomes
    0.5, and other keys of the mapping are not touched. *)
Theorem X16_post_init_emotion (keys : list string) (es : gmap string Q) :
  (forall k, In k keys <-> In k axes) ->
  in_range (ConfigCheck.post_init_emotion keys es)
  /\ (forall k v, In k axes -> es !! k = Some v -> (0 <= v /\ v <= 1)%Q ->
                  ConfigCheck.post_init_emotion keys es !! k = Some v)
  /\ (forall k, In k axes ->
                (forall v, es !! k = Some v -> ~ (0 <= v /\ v <= 1)%Q) ->
                ConfigCheck.post_init_emotion keys es !! k = Some 0.5%Q)
  /\ (forall k, ~ In k axes -> ConfigCheck.post_init_emotion keys es !! k = es !! k).
Proof.
  intros Hkeys. split; [|split; [|split]].
  - intros k Hk. rewrite post_init_lookup.
    destruct (in_dec string_dec k keys) as [_|Hn]; [apply checked_range|].
    exfalso. apply Hn. now apply Hkeys.
  - intros k v Hk Hv [H0 H1]. rewrite post_init_lookup.
    destruct (in_dec string_dec k keys) as [_|Hn]; [|exfalso; apply Hn; now apply Hkeys].
    rewrite Hv. simpl.
    apply Qle_bool_iff in H0, H1. now rewrite H0, H1.
  - intros k Hk Hbad. rewrite post_init_lookup.
    destruct (in_dec string_dec k keys) as [_|Hn]; [|exfalso; apply Hn; now apply Hkeys].
    destruct (es !! k) as [v|] eqn:Ev; simpl; [|reflexivity].
    destruct (Qle_bool 0 v) eqn:E0; destruct (Qle_bool v 1) eqn:E1; simpl;
      try reflexivity.
    exfalso. apply (Hbad v eq_refl). split; now apply Qle_bool_iff.
  - intros k Hk. rewrite post_init_lookup.
    destruct (in_dec string_dec k keys) as [Hin|_]; [|reflexivity].
    exfalso. apply Hk. now apply Hkeys.
Qed.

End EmotionMore.

Section EvaluateFacts.

Import Emotion EmotionEval.

Lemma quiet_reward obj amount reason calls :
  quiet obj -> reward obj amount reason calls = calls.
Proof. destruct obj as [o|]; simpl; [|reflexivity]. now intros [-> _]. Qed.

Lemma quiet_penalty obj amount reason calls :
  quiet obj -> penalty obj amount reason calls = calls.
Proof. destruct obj as [o|]; simpl; [|reflexivity]. now intros [_ ->]. Qed.

Lemma apply_intensity_in_range obj command_lower weights : forall st,
  in_range (fst st) ->
  exists st',
    apply_intensity obj command_lower weights st = (Ok tt, st')
    /\ in_range (fst st')
    /\ (quiet obj -> snd st = [] -> snd st' = []).
Proof.
  induction weights as [|[phrase w] rest IH]; intros st Hes; simpl.
  - eauto.
  - destruct (PyStr.contains phrase command_lower); [|now apply IH].
    destruct (adjust_emotions_in_range w _ Hes) as (es' & -> & Hes').
    destruct (IH (es', if Feedback.Qltb 0 w
                       then reward obj (magnitude w) ("intensity:" ++ phrase) (snd st)
                       else penalty obj (magnitude w) ("intensity:" ++ phrase) (snd st))
                 Hes') as (st' & Hrun & Hr & Hq).
    exists st'. split; [exact Hrun|]. split; [exact Hr|].
    intros Hquiet Hnil. apply Hq; [assumption|]. simpl.
    rewrite quiet_reward, quiet_penalty by assumption.
    now destruct (Feedback.Qltb 0 w).
Qed.

Lemma apply_sentiment_in_range obj sentiment st :
  in_range (fst st) ->
  exists st',
    apply_sentiment obj sentiment st = (Ok tt, st')
    /\ in_range (fst st')
    /\ (quiet obj -> snd st = [] -> snd st' = []).
Proof.
  intros Hes. unfold apply_sentiment.
  destruct (Qeq_bool sentiment 0); [eauto|].
  destruct (Feedback.Qltb 0.3 sentiment).
  - destruct (adjust_emotions_in_range 1.0 _ Hes) as (es' & -> & Hes').
    eexists. split; [reflexivity|]. split; [exact Hes'|].
    intros Hq Hn. simpl. now rewrite quiet_reward.
  - destruct (Feedback.Qltb sentiment (-0.3)); [|eauto].
    destruct (adjust_emotions_in_range (-1.0) _ Hes) as (es' & -> & Hes').
    eexists. split; [reflexivity|]. split; [exact Hes'|].
    intros Hq Hn. simpl. now rewrite quiet_penalty.
Qed.

Lemma apply_counts_in_range pos neg es :
  in_range es ->
  exists es', apply_counts pos neg es = (Ok tt, es') /\ in_range es'.
Proof.
  intros Hes. unfold apply_counts.
  destruct (0 <? pos)%nat.
  - destruct (adjust_emotions_in_range (inject_Z (Z.of_nat pos) * 0.5) _ Hes)
      as (es1 & -> & Hes1).
    destruct (0 <? neg)%nat; [|eauto].
    now apply adjust_emotions_in_range.
  - destruct (0 <? neg)%nat; [|eauto].
    now apply adjust_emotions_in_range.
Qed.

Lemma quiet_net obj pos neg calls : quiet obj -> apply_net obj pos neg calls = calls.
Proof.
  destruct obj as [o|]; simpl; [|reflexivity]. intros [-> ->].
  now rewrite !andb_false_r.
Qed.

Lemma normalize_range c : (-1 <= normalize c /\ normalize c <= 1)%Q.
Proof.
  unfold normalize. destruct (Qeq_bool c 0) eqn:E.
  - apply Qeq_bool_eq in E. rewrite E. split; discriminate.
  - assert (Hd : (1 <= Qmax 1.0 (Qabs c))%Q)
      by (apply Qle_trans with 1.0%Q; [discriminate|apply Q.le_max_l]).
    assert (Ha : (Qabs c <= Qmax 1.0 (Qabs c))%Q) by apply Q.le_max_r.
    pose proof (Qle_Qabs c) as Hc.
    pose proof (Qle_Qabs (- c)) as Hc'. rewrite Qabs_opp in Hc'.
    split.
    + apply Qle_shift_div_l; [lra|lra].
    + apply Qle_shift_div_r; [lra|lra].
Qed.

Lemma count_matches_le keywords command_lower :
  (count_matches keywords command_lower <= length keywords)%nat.
Proof. unfold count_matches. apply length_filter. Qed.

(** X17: on an emotion state with its four axes in [0,1],
    [evaluate_user_response] returns: the state still has its axes in
    [0,1], the compound it reports lies in [-1,1], the counts are at most
    the numbers of configured keywords (zero when the reward configuration
    is no mapping), and an object that is false or has neither
    [give_reward] nor [give_penalty] is never called. *)
Theorem X17_evaluate_user_response (command : option string)
    (reward_cfg : option RewardCfg) (es : gmap string Q)
    (obj : option Rewarder) (sentiment : Q) :
  in_range es ->
  exists s st',
    evaluate_user_response command reward_cfg es obj sentiment = (Ok s, st')
    /\ in_range (fst st')
    /\ (-1 <= compound s /\ compound s <= 1)%Q
    /\ (forall cfg, reward_cfg = Some cfg ->
                    (positive s <= length (positive_keywords cfg))%nat
                    /\ (negative s <= length (negative_keywords cfg))%nat)
    /\ (reward_cfg = None -> positive s = 0%nat /\ negative s = 0%nat)
    /\ (quiet obj -> snd st' = []).
Proof.
  intros Hes. unfold evaluate_user_response.
  set (cl := PyStr.lower (default "" command)).
  set (pos := match reward_cfg with
              | Some cfg => count_matches (positive_keywords cfg) cl
              | None => 0%nat
              end).
  set (neg := match reward_cfg with
              | Some cfg => count_matches (negative_keywords cfg) cl
              | None => 0%nat
              end).
  destruct (apply_intensity_in_range obj cl
              (match reward_cfg with Some cfg => intensity_weights cfg | None => [] end)
              (es, []) Hes) as (st1 & -> & H1 & Q1).
  destruct (apply_sentiment_in_range obj sentiment st1 H1) as (st2 & -> & H2 & Q2).
  destruct (apply_counts_in_range pos neg (fst st2) H2) as (es3 & -> & H3).
  eexists _, _. split; [reflexivity|]. simpl.
  split; [exact H3|]. split; [apply normalize_range|].
  split; [|split].
  - intros cfg ->. subst pos neg. split; apply count_matches_le.
  - intros ->. subst pos neg. split; reflexivity.
  - intros Hq. rewrite quiet_net by assumption. apply Q2; [assumption|].
    now apply Q1.
Qed.

End EvaluateFacts.

(** ** feedback.py and assistant.py *)

Section TurnMore.

Import Assistant.

Variable analyze : string -> string * Metadata.
Variable model : option (string -> string -> gmap string Q -> string -> string).
Variable resolve_handler :
  string ->
  result (string -> Metadata -> gmap string Q -> result string * gmap string Q).

Lemma prefix_app (r x : string) : String.prefix r (r ++ x) = true.
Proof.
  induction r as [|c r IH]; [now destruct x|].
  change (String.prefix (String c r) (String c (r ++ x)) = true).
  simpl. now destruct (ascii_dec c c).
Qed.

Lemma existsb_eqb_In (x : string) (l : list string) :
  existsb (String.eqb x) l = true <-> In x l.
Proof.
  rewrite existsb_exists. split.
  - intros (y & Hy & E). apply String.eqb_eq in E. now subst.
  - intros H. exists x. split; [assumption|apply String.eqb_refl].
Qed.

(** X18: [evaluate_response] never drops text: the response is a leading
    part of the adjusted response; without the trait "empathetic", as in
    the default personality, nothing is appended; with it, the sentence
    " I'm here with you." is appended exactly when the lower-cased user
    text contains "sad", "stressed" or "upset" anywhere, inside longer
    words too. *)
Theorem X18_evaluate_response (c : Config.Config) (user_text response : string) :
  let traits := default [] (Config.core_traits c) in
  let distress := existsb (fun w => PyStr.contains w (PyStr.lower user_text))
                          ["sad"; "stressed"; "upset"] in
  String.prefix response (fst (Feedback.evaluate_response c user_text response)) = true
  /\ (~ In "empathetic" traits ->
      Feedback.evaluate_response c user_text response = (response, []))
  /\ (In "empathetic" traits -> distress = true ->
      Feedback.evaluate_response c user_text response
      = ((response ++ " I'm here with you.")%string, ["empathy_added"]))
  /\ (distress = false ->
      Feedback.evaluate_response c user_text response = (response, [])).
Proof.
  cbv zeta. unfold Feedback.evaluate_response.
  destruct (existsb (String.eqb "empathetic") (default [] (Config.core_traits c)))
    eqn:Et;
    destruct (existsb (fun w => PyStr.contains w (PyStr.lower user_text))
                      ["sad"; "stressed"; "upset"]) eqn:Ed;
    cbn [andb fst]; repeat split;
    try (intros; reflexivity);
    try apply prefix_app;
    try apply prefix_refl;
    try (intros; discriminate).
  all: try (intros Hn; exfalso; apply Hn; now apply existsb_eqb_In).
  all: try (intros Hin; apply existsb_eqb_In in Hin; congruence).
Qed.

End TurnMore.

Section TurnAccounting.

Import Assistant.

Lemma lstrip_all_space s :
  forallb PyStr.is_space (list_ascii_of_string s) = true -> PyStr.lstrip s = "".
Proof.
  induction s as [|c s IH]; [reflexivity|]. simpl.
  intros H. apply andb_true_iff in H. destruct H as [Hc Hs].
  rewrite Hc. now apply IH.
Qed.

(** X19: without a model the generative reply is the placeholder; with a
    model, an empty completion gives "I’m listening.", but a completion
    that is not empty and holds only white space gives the empty reply. *)
Theorem X19_llm_reply (a : MikaAssistant) (prompt : string)
    (llm : string -> string -> gmap string Q -> string -> string) :
  let text := llm (Config.ai_name (config a)) (Memory.get_recent_context (memory a))
                  (Memory.get_emotional_trend (memory a)) prompt in
  _llm_response None a prompt = placeholder
  /\ (text = "" -> _llm_response (Some llm) a prompt = "I’m listening.")
  /\ (text <> "" ->
      forallb PyStr.is_space (list_ascii_of_string text) = true ->
      _llm_response (Some llm) a prompt = "").
Proof.
  cbv zeta. unfold _llm_response. split; [reflexivity|]. split.
  - intros ->. reflexivity.
  - intros Hne Hsp.
    destruct (String.eqb_spec
                (llm (Config.ai_name (config a))
                     (Memory.get_recent_context (memory a))
                     (Memory.get_emotional_trend (memory a)) prompt) "")
      as [E|_]; [contradiction|].
    unfold PyStr.strip. now rewrite lstrip_all_space.
Qed.

End TurnAccounting.

Section SessionFacts.

Import Assistant.

Variable lower : string -> string.
Variable strip : string -> string.
Variable analyze : string -> result (string * Metadata).
Variable model :
  option (string -> string -> gmap string Q -> string -> result string).
Variable speak_fn : string -> result unit.
Variable resolve_handler :
  string ->
  result (string -> Metadata -> gmap string Q -> result string * gmap string Q).

Lemma speak_calls text a :
  Session.speak speak_fn text a = (Session.verdict speak_fn text, called (Speak text) a).
Proof. unfold Session.speak, Session.verdict. now destruct (speak_fn text). Qed.

Lemma llm_returns a prompt :
  Session.model_returns model -> exists reply, Session._llm_response strip model a prompt = Ok reply.
Proof.
  intros Hm. unfold Session._llm_response, Session.model_returns in *.
  destruct model as [llm|]; [|eauto].
  specialize (Hm llm (Config.ai_name (config a))
                 (Memory.get_recent_context (memory a))
                 (Memory.get_emotional_trend (memory a)) prompt eq_refl).
  destruct (llm _ _ _ _); [eauto|discriminate].
Qed.

(** What routing leaves behind: the memory as it was, no spoken text, on
    the command path one more audit record and a reply, on the generative
    path the outcome of [_llm_response] and nothing else. *)
Lemma route_effects env text metadata a :
  Engine.approvals_wf (governor a) ->
  exists out a2 more,
    Session.route lower strip model resolve_handler env text metadata a = (out, a2)
    /\ memory a2 = memory a
    /\ Engine.rules (governor a2) = Engine.rules (governor a)
    /\ calls a2 = calls a ++ more
    /\ flat_map (fun c => match c with Speak t => [t] | _ => [] end) more = []
    /\ (Config.commands (config a) !! lower text = None ->
        out = Session._llm_response strip model a text
        /\ governor a2 = governor a /\ config a2 = config a
        /\ reward_score a2 = reward_score a
        /\ emotion_engine a2 = emotion_engine a)
    /\ (is_Some (Config.commands (config a) !! lower text) ->
        exists response r,
          out = Ok response
          /\ Engine.audit_log (governor a2) = Engine.audit_log (governor a) ++ [r]
          /\ Engine.subject r = "tools.execute_code_in_sandbox"
          /\ ((forall t, is_ok (resolve_handler t) = false) ->
              response = apology
              /\ reward_score a2 = (reward_score a + -1)%Q
              /\ emotion_engine a2 = emotion_engine a)).
Proof.
  intros Hwf. unfold Session.route.
  destruct (Config.commands (config a) !! lower text) as [target|] eqn:Ec.
  - destruct (allows_returns (governor a) (tool_time env)
                "tools.execute_code_in_sandbox" Hwf) as [appr Heq].
    cbv zeta in Heq. rewrite Heq. simpl. unfold run_command.
    destruct (resolve_handler target) as [handler|e] eqn:Er.
    + cbn [called with_governor emotion_engine].
      destruct (handler text metadata (emotion_engine a)) as [[response|e] es];
        eexists _, _, [Handler target text]; simpl;
        (split; [reflexivity|]); (split; [reflexivity|]); (split; [reflexivity|]);
        (split; [reflexivity|]); (split; [reflexivity|]);
        (split; [discriminate|]); intros _; eexists _, _;
        (split; [reflexivity|]); (split; [reflexivity|]); (split; [reflexivity|]);
        intros Hres; specialize (Hres target); rewrite Er in Hres; discriminate.
    + eexists _, _, [Handler target text]. simpl.
      split; [reflexivity|]. split; [reflexivity|]. split; [reflexivity|].
      split; [reflexivity|]. split; [reflexivity|].
      split; [discriminate|]. intros _. eexists _, _.
      split; [reflexivity|]. split; [reflexivity|]. split; [reflexivity|].
      intros _. repeat split.
  - destruct (Session._llm_response strip model a text) as [reply|e];
      eexists _, _, [Generate text]; simpl;
      (split; [reflexivity|]); (split; [reflexivity|]); (split; [reflexivity|]);
      (split; [reflexivity|]); (split; [reflexivity|]);
      (split; [intros _; repeat split|]); intros [x Hx]; discriminate.
Qed.

(** A turn whose analyzer raises stops there: the gate has been audited,
    nothing is routed, stored or spoken. *)
Lemma turn_analyzer_raises env text a e :
  Engine.approvals_wf (governor a) ->
  analyze text = Raise e ->
  exists a',
    Session.handle_input lower strip analyze model speak_fn resolve_handler env text a
    = (Raise e, a')
    /\ spoken a' = spoken a
    /\ memory a' = memory a
    /\ config a' = config a
    /\ reward_score a' = reward_score a
    /\ Engine.rules (governor a') = Engine.rules (governor a).
Proof.
  intros Hwf Han. unfold Session.handle_input.
  destruct (allows_returns (governor a) (gate_time env) "cognition.reason" Hwf)
    as [appr Heq].
  cbv zeta in Heq. rewrite Heq. simpl. rewrite Han.
  eexists. split; [reflexivity|]. unfold spoken. simpl.
  rewrite flat_map_app. simpl. rewrite app_nil_r. repeat split.
Qed.

(** A turn whose analyzer and model return reaches [speak]: the reply is
    stored before it is spoken, and the outcome of the turn is the outcome
    of [speak_fn]. *)
Lemma turn_reaches_speak env text a intent metadata :
  Engine.approvals_wf (governor a) ->
  analyze text = Ok (intent, metadata) ->
  (Config.commands (config a) !! lower text = None ->
   Session.model_returns model) ->
  exists response a',
    Session.handle_input lower strip analyze model speak_fn resolve_handler env text a
    = (Session.verdict speak_fn response, a')
    /\ spoken a' = spoken a ++ [response]
    /\ memory a'
       = Memory.add_interaction (memory_time env) (disk_ok env) text response
           intent (emotion_engine a)
           (_estimate_importance intent (default ∅ (sentiment metadata))
                                 (emotion_engine a))
           (memory a)
    /\ Engine.rules (governor a') = Engine.rules (governor a)
    /\ (Config.commands (config a) !! lower text = None ->
        (exists r, Engine.audit_log (governor a')
                   = Engine.audit_log (governor a) ++ [r]
                   /\ Engine.subject r = "cognition.reason")
        /\ config a' = config a
        /\ reward_score a' = reward_score a
        /\ emotion_engine a' = emotion_engine a)
    /\ (is_Some (Config.commands (config a) !! lower text) ->
        (exists r1 r2,
            Engine.audit_log (governor a')
            = Engine.audit_log (governor a) ++ [r1; r2]
            /\ Engine.subject r1 = "cognition.reason"
            /\ Engine.subject r2 = "tools.execute_code_in_sandbox")
        /\ ((forall t, is_ok (resolve_handler t) = false) ->
            response = fst (Feedback.evaluate_response (config a') text apology)
            /\ reward_score a' = (reward_score a + -1)%Q
            /\ emotion_engine a' = emotion_engine a)).
Proof.
  intros Hwf Han Hmodel. unfold Session.handle_input.
  destruct (allows_returns (governor a) (gate_time env) "cognition.reason" Hwf)
    as [appr Heq].
  cbv zeta in Heq. rewrite Heq. simpl. rewrite Han.
  match goal with |- context [Session.route _ _ _ _ _ _ _ ?x] => set (a1 := x) end.
  destruct (route_effects env text metadata a1 Hwf)
    as (out & a2 & more & Hr & Hmem & Hrules & Hcalls & Hquiet & Hgen & Hcmd).
  assert (Hout : exists response, out = Ok response).
  { destruct (Config.commands (config a) !! lower text) as [target|] eqn:Ec.
    - assert (Hs : is_Some (Config.commands (config a1) !! lower text))
        by (exists target; exact Ec).
      destruct (Hcmd Hs) as (response & r & -> & _). eauto.
    - destruct (Hgen Ec) as (-> & _).
      destruct (llm_returns a1 text (Hmodel eq_refl)) as [reply ->]. eauto. }
  destruct Hout as [response ->].
  rewrite Hr. rewrite speak_calls.
  eexists _, _. split; [reflexivity|].
  split; [|split; [|split; [|split]]].
  - unfold spoken. simpl. rewrite Hcalls. subst a1. simpl.
    rewrite !flat_map_app. simpl. rewrite Hquiet. now rewrite !app_nil_r.
  - simpl. rewrite Hmem. subst a1. reflexivity.
  - simpl. rewrite Hrules. reflexivity.
  - intros Hnone. destruct (Hgen Hnone) as (_ & Hg & Hc & Hs & He).
    simpl. rewrite Hg, Hc, Hs, He. subst a1. simpl.
    split; [eexists; split; reflexivity|]. repeat split.
  - intros Hsome. destruct (Hcmd Hsome) as (response' & r & E & Hlog & Hsub & Hfail).
    inversion E; subst response'. split.
    + simpl. rewrite Hlog. subst a1. simpl. rewrite <- app_assoc. simpl.
      eexists _, r. split; [reflexivity|]. split; [reflexivity|exact Hsub].
    + intros Hres. destruct (Hfail Hres) as (-> & Hscore & Hem).
      simpl. rewrite Hscore, Hem. repeat split.
Qed.

(** X20: take a turn on an engine whose approval list is absent or a list
    of strings.  When the analyzer, the model and the output adapter
    return, the turn returns, hands exactly one text to the adapter and
    stores that text as the response of the interaction it adds to the
    memory it started with; the rules stay as they were; on the generative
    path the audit log gains the one record of "cognition.reason" and the
    reward score, the configuration and the emotion state are untouched;
    on the command path the log gains that record and then the record of
    "tools.execute_code_in_sandbox".  When the analyzer raises, the turn
    raises the same exception with nothing spoken and nothing stored.
    When the adapter raises on the reply, the turn raises with the
    interaction already stored. *)
Theorem X20_turn_accounting (env : Turn) (text : string) (a : MikaAssistant) :
  Engine.approvals_wf (governor a) ->
  (Session.dependable analyze model speak_fn ->
   exists intent metadata response imp a',
     analyze text = Ok (intent, metadata)
     /\ Session.handle_input lower strip analyze model speak_fn resolve_handler
          env text a = (Ok tt, a')
     /\ spoken a' = spoken a ++ [response]
     /\ memory a'
        = Memory.add_interaction (memory_time env) (disk_ok env) text response
            intent (emotion_engine a) imp (memory a)
     /\ Engine.rules (governor a') = Engine.rules (governor a)
     /\ (Config.commands (config a) !! lower text = None ->
         (exists r, Engine.audit_log (governor a')
                    = Engine.audit_log (governor a) ++ [r]
                    /\ Engine.subject r = "cognition.reason")
         /\ config a' = config a
         /\ reward_score a' = reward_score a
         /\ emotion_engine a' = emotion_engine a)
     /\ (is_Some (Config.commands (config a) !! lower text) ->
         exists r1 r2,
           Engine.audit_log (governor a')
           = Engine.audit_log (governor a) ++ [r1; r2]
           /\ Engine.subject r1 = "cognition.reason"
           /\ Engine.subject r2 = "tools.execute_code_in_sandbox"))
  /\ (forall e,
        analyze text = Raise e ->
        exists a',
          Session.handle_input lower strip analyze model speak_fn resolve_handler
            env text a = (Raise e, a')
          /\ spoken a' = spoken a
          /\ memory a' = memory a)
  /\ (forall e intent metadata,
        analyze text = Ok (intent, metadata) ->
        Session.model_returns model ->
        (forall t, speak_fn t = Raise e) ->
        exists response imp a',
          Session.handle_input lower strip analyze model speak_fn resolve_handler
            env text a = (Raise e, a')
          /\ memory a'
             = Memory.add_interaction (memory_time env) (disk_ok env) text
                 response intent (emotion_engine a) imp (memory a)).
Proof.
  intros Hwf. split; [|split].
  - intros (Han & Hmodel & Hspeak).
    specialize (Han text). destruct (analyze text) as [[intent metadata]|e] eqn:E;
      [|discriminate].
    destruct (turn_reaches_speak env text a intent metadata Hwf E
                (fun _ => Hmodel))
      as (response & a' & Hrun & Hsp & Hmem & Hrules & Hgen & Hcmd).
    exists intent, metadata, response. eexists. exists a'.
    split; [reflexivity|]. split.
    { rewrite Hrun. unfold Session.verdict. specialize (Hspeak response).
      destruct (speak_fn response); [reflexivity|discriminate]. }
    split; [exact Hsp|]. split; [exact Hmem|]. split; [exact Hrules|].
    split; [exact Hgen|]. intros Hsome. apply (Hcmd Hsome).
  - intros e Han.
    destruct (turn_analyzer_raises env text a e Hwf Han)
      as (a' & Hrun & Hsp & Hmem & _).
    exists a'. repeat split; assumption.
  - intros e intent metadata Han Hmodel Hspeak.
    destruct (turn_reaches_speak env text a intent metadata Hwf Han
                (fun _ => Hmodel))
      as (response & a' & Hrun & _ & Hmem & _).
    exists response. eexists. exists a'. split; [|exact Hmem].
    rewrite Hrun. unfold Session.verdict. now rewrite Hspeak.
Qed.

(** X21: take a turn whose lower-cased text is a key of the command
    table, on an engine whose approval list is absent or a list of
    strings, with an analyzer that returns on the text and an output
    adapter that returns.  As long as the handler registry resolves
    nothing, which is what the missing [resolve_handler] amounts to, the
    turn, whatever the tool permission says, speaks the apology (with
    the empathy sentence when [evaluate_response] adds it), takes one
    point off the reward score and leaves the emotion state alone. *)
Theorem X21_command_turn_apologises (env : Turn) (text : string) (a : MikaAssistant) :
  Engine.approvals_wf (governor a) ->
  is_Some (Config.commands (config a) !! lower text) ->
  (forall t, is_ok (resolve_handler t) = false) ->
  is_ok (analyze text) = true ->
  (forall t, is_ok (speak_fn t) = true) ->
  exists a',
    Session.handle_input lower strip analyze model speak_fn resolve_handler env text a
    = (Ok tt, a')
    /\ spoken a'
       = spoken a ++ [fst (Feedback.evaluate_response (config a') text apology)]
    /\ reward_score a' = (reward_score a + -1)%Q
    /\ emotion_engine a' = emotion_engine a.
Proof.
  intros Hwf Hsome Hres Han Hspeak.
  destruct (analyze text) as [[intent metadata]|e] eqn:E; [|discriminate].
  assert (Hnot : Config.commands (config a) !! lower text = None ->
                 Session.model_returns model).
  { intros Hnone. rewrite Hnone in Hsome. destruct Hsome as [x Hx]. discriminate. }
  destruct (turn_reaches_speak env text a intent metadata Hwf E Hnot)
    as (response & a' & Hrun & Hsp & _ & _ & _ & Hcmd).
  destruct (Hcmd Hsome) as (_ & Hfail).
  destruct (Hfail Hres) as (Hresp & Hscore & Hem).
  exists a'. split.
  { rewrite Hrun. unfold Session.verdict. specialize (Hspeak response).
    destruct (speak_fn response); [reflexivity|discriminate]. }
  split; [|split; assumption]. rewrite Hsp, Hresp. reflexivity.
Qed.

(** With collaborators that always return, ASCII lowering and stripping,
    the turn is the turn of the [Assistant] module. *)
Lemma handle_input_returning
    (analyze0 : string -> string * Metadata)
    (model0 : option (string -> string -> gmap string Q -> string -> string))
    env text a :
  Session.handle_input PyStr.lower PyStr.strip (fun t => Ok (analyze0 t))
    (Session.returning model0) (fun _ => Ok tt) resolve_handler env text a
  = Assistant.handle_input analyze0 model0 resolve_handler env text a.
Proof.
  unfold Session.handle_input, Assistant.handle_input.
  destruct (Engine.allows _ _ _) as [[d|e] g]; [|reflexivity].
  cbn [decision_truth negb]. cbv zeta.
  destruct (analyze0 text) as [intent metadata].
  unfold Session.route, Assistant.route, Session._llm_response,
    Assistant._llm_response.
  cbn [config called with_governor governor memory].
  destruct (Config.commands (config a) !! PyStr.lower text) as [target|].
  - destruct (Engine.allows _ _ _) as [[d'|e'] g']; [|reflexivity].
    cbn [decision_truth negb].
    destruct (run_command _ _ _ _ _) as [response a2]. reflexivity.
  - destruct model0 as [llm|]; reflexivity.
Qed.

End SessionFacts.

(** C6: a turn whose policy queries return, whose analyzer returns an
    intent and metadata and whose reply is produced records its
    interaction with the importance |happiness - 0.5| + |sadness| +
    |curiosity|, plus 0.2 for an intent among gratitude, emotion_check and
    conversation, plus |compound| * 0.3 when sentiment metadata is
    present, clamped into [0,1], all computed over the affect snapshot
    taken after the analysis and before routing, whatever routing does to
    the affect state and whether or not the output adapter returns. *)
Theorem C6_importance_of_turn
    (lower strip : string -> string)
    (analyze : string -> result (string * Assistant.Metadata))
    (model : option (string -> string -> gmap string Q -> string -> result string))
    (speak_fn : string -> result unit)
    (resolve_handler :
       string ->
       result (string -> Assistant.Metadata -> gmap string Q ->
               result string * gmap string Q))
    (env : Assistant.Turn) (text : string) (a : Assistant.MikaAssistant)
    (intent : string) (metadata : Assistant.Metadata) (h s c : Q) :
  Engine.approvals_wf (Assistant.governor a) ->
  analyze text = Ok (intent, metadata) ->
  Session.model_returns model ->
  Assistant.emotion_engine a !! "happiness" = Some h ->
  Assistant.emotion_engine a !! "sadness" = Some s ->
  Assistant.emotion_engine a !! "curiosity" = Some c ->
  exists response imp a',
    Session.handle_input lower strip analyze model speak_fn resolve_handler
      env text a = (Session.verdict speak_fn response, a')
    /\ Assistant.memory a'
       = Memory.add_interaction (Assistant.memory_time env)
           (Assistant.disk_ok env) text response intent
           (Assistant.emotion_engine a) imp (Assistant.memory a)
    /\ imp = Assistant._estimate_importance intent
               (default ∅ (Assistant.sentiment metadata))
               (Assistant.emotion_engine a)
    /\ (imp == Assistant.importance_spec intent (Assistant.sentiment metadata)
                 h s c)%Q
    /\ (0 <= imp /\ imp <= 1)%Q.
Proof.
  intros Hwf Han Hmodel Hh Hs Hc.
  destruct (turn_reaches_speak lower strip analyze model speak_fn resolve_handler
              env text a intent metadata Hwf Han (fun _ => Hmodel))
    as (response & a' & Hrun & _ & Hmem & _).
  exists response. eexists. exists a'.
  split; [exact Hrun|]. split; [exact Hmem|]. split; [reflexivity|].
  apply (estimate_importance_spec _ _ _ h s c); assumption.
Qed.

Lemma C6_importance_of_turn_witness :
  exists response imp a',
    Session.handle_input PyStr.lower PyStr.strip
      (fun _ => Ok ("gratitude", Assistant.mkMeta (Some {[ "compound" := 0.5%Q ]})))
      None (fun _ => Ok tt) (fun _ => Raise AttributeError)
      (Assistant.mkTurn "12:00" "12:01" 5 true) "thanks a lot"
      (Assistant.fresh Engine.sample_rules)
    = (Ok tt, a')
    /\ Assistant.memory a'
       = Memory.add_interaction 5 true "thanks a lot" response "gratitude"
           Emotion.initial imp (Memory.init Memory.Missing 10 0.6)
    /\ (imp == Assistant.importance_spec "gratitude"
                 (Some {[ "compound" := 0.5%Q ]}) 0.5 0.2 0.3)%Q.
Proof.
  destruct (C6_importance_of_turn PyStr.lower PyStr.strip
              (fun _ => Ok ("gratitude",
                            Assistant.mkMeta (Some {[ "compound" := 0.5%Q ]})))
              None (fun _ => Ok tt) (fun _ => Raise AttributeError)
              (Assistant.mkTurn "12:00" "12:01" 5 true) "thanks a lot"
              (Assistant.fresh Engine.sample_rules)
              "gratitude" (Assistant.mkMeta (Some {[ "compound" := 0.5%Q ]}))
              0.5%Q 0.2%Q 0.3%Q)
    as (response & imp & a' & Hrun & Hmem & _ & Himp & _).
  - simpl. repeat constructor. eexists. reflexivity.
  - reflexivity.
  - intros llm n c t p Hllm. discriminate Hllm.
  - reflexivity.
  - reflexivity.
  - reflexivity.
  - exists response, imp, a'. split; [exact Hrun|]. split; [exact Hmem|exact Himp].
Defined.

Section LoopFacts.

Import Assistant.

Variable lower : string -> string.
Variable strip : string -> string.
Variable analyze : string -> result (string * Metadata).
Variable model :
  option (string -> string -> gmap string Q -> string -> result string).
Variable speak_fn : string -> result unit.
Variable resolve_handler :
  string ->
  result (string -> Metadata -> gmap string Q -> result string * gmap string Q).


Lemma wf_rules (g g' : Engine.GovernorEngine) :
  Engine.rules g' = Engine.rules g -> Engine.approvals_wf g -> Engine.approvals_wf g'.
Proof. unfold Engine.approvals_wf. now intros ->. Qed.

(** While the collaborators return, every input that is not empty gets
    one reply. *)
Lemma loop_replies inputs : forall a,
  Engine.approvals_wf (governor a) ->
  Session.analyzed strip analyze inputs ->
  Session.model_returns model ->
  (forall t, is_ok (speak_fn t) = true) ->
  exists replies a',
    Session.loop lower strip analyze model speak_fn resolve_handler inputs a
    = (Ok tt, a')
    /\ spoken a' = spoken a ++ replies
    /\ length replies = length (Session.handled inputs)
    /\ Engine.rules (governor a') = Engine.rules (governor a).
Proof.
  induction inputs as [|[env user_text] inputs IH]; intros a Hwf Han Hmodel Hspeak.
  - exists [], a. rewrite app_nil_r. repeat split.
  - inversion_clear Han as [|? ? Hhere Hrest]. cbv beta in Hhere. simpl in Hhere.
    unfold Session.handled. rewrite filter_cons.
    cbn [Session.loop snd].
    destruct (String.eqb_spec user_text "") as [->|Hne].
    + destruct (decide ("" <> "")) as [Hd|_]; [congruence|].
      now apply IH.
    + destruct (decide (user_text <> "")) as [_|Hd]; [|contradiction].
      destruct (analyze (strip user_text)) as [[intent metadata]|e] eqn:E;
        [|discriminate].
      destruct (turn_reaches_speak lower strip analyze model speak_fn
                  resolve_handler env (strip user_text) a intent metadata
                  Hwf E (fun _ => Hmodel))
        as (response & a1 & Hrun & Hsp & _ & Hrules & _).
      rewrite Hrun. unfold Session.verdict. specialize (Hspeak response) as Hs.
      destruct (speak_fn response) as [u|e']; [|discriminate]. clear Hs.
      destruct (IH a1 (wf_rules _ _ Hrules Hwf) Hrest Hmodel Hspeak)
        as (replies & a' & Hloop & Hsp' & Hlen & Hrules').
      exists (response :: replies), a'. split; [exact Hloop|]. split; [|split].
      * rewrite Hsp', Hsp, <- app_assoc. reflexivity.
      * simpl. rewrite Hlen. reflexivity.
      * now rewrite Hrules', Hrules.
Qed.

Lemma loop_app before after : forall a,
  Session.loop lower strip analyze model speak_fn resolve_handler
    (before ++ after) a
  = match Session.loop lower strip analyze model speak_fn resolve_handler
            before a with
    | (Ok _, a') =>
        Session.loop lower strip analyze model speak_fn resolve_handler after a'
    | (Raise e, a') => (Raise e, a')
    end.
Proof.
  induction before as [|[env user_text] before IH]; intros a; [reflexivity|].
  cbn [app Session.loop].
  destruct (String.eqb user_text ""); [apply IH|].
  destruct (Session.handle_input _ _ _ _ _ _ _ _ _) as [[u|e] a']; [apply IH|].
  reflexivity.
Qed.

(** X22: [start] on an engine whose approval list is absent or a list of
    strings first hands "<ai_name> is online." to the output adapter.
    While the analyzer, the model and the adapter return, it then speaks
    exactly one text for every input that is not empty (white space alone
    counts as an input) and keeps the rules as they were.  An exception
    ends the loop without a word: when the analyzer raises on an input,
    the inputs before it have their replies, and that input and all later
    ones get none; when the adapter raises on the first line, no input is
    handled at all. *)
Theorem X22_start_replies (inputs : list (Turn * string)) (a : MikaAssistant) :
  Engine.approvals_wf (governor a) ->
  let online := (Config.ai_name (config a) ++ " is online.")%string in
  let run := Session.start lower strip analyze model speak_fn resolve_handler in
  (Session.dependable analyze model speak_fn ->
   exists replies,
     Session.start_body lower strip analyze model speak_fn resolve_handler inputs a
     = (Ok tt, run inputs a)
     /\ spoken (run inputs a) = spoken a ++ online :: replies
     /\ length replies = length (Session.handled inputs)
     /\ Engine.rules (governor (run inputs a)) = Engine.rules (governor a))
  /\ (forall before env text after e,
        inputs = before ++ (env, text) :: after ->
        text <> "" ->
        analyze (strip text) = Raise e ->
        Session.analyzed strip analyze before ->
        Session.model_returns model ->
        (forall t, is_ok (speak_fn t) = true) ->
        exists replies,
          spoken (run inputs a) = spoken a ++ online :: replies
          /\ length replies = length (Session.handled before))
  /\ (forall e, speak_fn online = Raise e ->
                run inputs a = called (Speak online) a).
Proof.
  intros Hwf online run. subst run.
  unfold Session.start, Session.start_body.
  set (a0 := called (Speak online) a).
  assert (Hwf0 : Engine.approvals_wf (governor a0)) by exact Hwf.
  assert (Hsp0 : spoken a0 = spoken a ++ [online]).
  { unfold a0, spoken. simpl. now rewrite flat_map_app. }
  fold online.
  assert (Hstart : forall u, speak_fn online = Ok u ->
            Session.speak speak_fn online a = (Ok tt, a0)).
  { intros u Hu. unfold Session.speak. fold a0. now rewrite Hu. }
  split; [|split].
  - intros (Han & Hmodel & Hspeak).
    specialize (Hspeak online) as Hs.
    destruct (speak_fn online) as [u|e] eqn:Eo; [|discriminate]. clear Hs.
    rewrite (Hstart u eq_refl).
    assert (Hall : Session.analyzed strip analyze inputs)
      by (apply Forall_forall; intros p _; apply Han).
    destruct (loop_replies inputs a0 Hwf0 Hall Hmodel Hspeak)
      as (replies & a' & Hloop & Hsp & Hlen & Hrules).
    rewrite Hloop. simpl.
    exists replies. split; [reflexivity|]. split; [|split].
    + rewrite Hsp, Hsp0, <- app_assoc. reflexivity.
    + exact Hlen.
    + rewrite Hrules. reflexivity.
  - intros before env text after e -> Hne Hraise Hbefore Hmodel Hspeak.
    specialize (Hspeak online) as Hs.
    destruct (speak_fn online) as [u|e'] eqn:Eo; [|discriminate]. clear Hs.
    rewrite (Hstart u eq_refl). rewrite loop_app.
    destruct (loop_replies before a0 Hwf0 Hbefore Hmodel Hspeak)
      as (replies & a1 & Hloop & Hsp & Hlen & Hrules).
    rewrite Hloop. cbn [Session.loop].
    destruct (String.eqb_spec text "") as [->|_]; [congruence|].
    destruct (turn_analyzer_raises lower strip analyze model speak_fn
                resolve_handler env (strip text) a1 e
                (wf_rules _ _ Hrules Hwf0) Hraise)
      as (a2 & Hrun & Hsp2 & _).
    rewrite Hrun. simpl.
    exists replies. split; [|exact Hlen].
    rewrite Hsp2, Hsp, Hsp0, <- app_assoc. reflexivity.
  - intros e He. unfold Session.speak. fold a0. now rewrite He.
Qed.

End LoopFacts.

Section LifecycleFacts.

Import Assistant.

(** X23: [shutdown] runs once: the first call sets the event, leaves at
    most 20 long-term items and the short-term list as it was, and, when
    its last write succeeds, leaves a file that holds exactly the two
    lists; any later call changes nothing. *)
Theorem X23_shutdown_once (render render' : Q -> string) (now now' : Q)
    (ok1 ok2 ok1' ok2' : bool) (r : Lifecycle.Running) :
  let r' := Lifecycle.shutdown render now ok1 ok2 r in
  let m' := memory (Lifecycle.assistant r') in
  Lifecycle.shutdown render' now' ok1' ok2' r' = r'
  /\ (Lifecycle.shutdown_event r = true -> r' = r)
  /\ (Lifecycle.shutdown_event r = false ->
      Lifecycle.shutdown_event r' = true
      /\ (length (Memory.long_term m') <= 20)%nat
      /\ Memory.short_term m' = Memory.short_term (memory (Lifecycle.assistant r))
      /\ (ok2 = true ->
          Memory.memory_file m'
          = Memory.Parsed (Memory.Items (Memory.short_term m'))
                          (Memory.Items (Memory.long_term m')))).
Proof.
  cbv zeta. unfold Lifecycle.shutdown.
  destruct (Lifecycle.shutdown_event r) eqn:E.
  - rewrite E. repeat split; try discriminate.
  - simpl. split; [reflexivity|]. split; [discriminate|]. intros _.
    split; [reflexivity|].
    destruct (summarize_long_term_bounded render now ok1 20
                (memory (Lifecycle.assistant r))) as (Hlen & Hst); [lia|].
    destruct (save_fields ok2
                (Memory.summarize_long_term render now ok1 20
                   (memory (Lifecycle.assistant r)))) as (_ & _ & E3 & E4).
    rewrite E3, E4. split; [lia|]. split; [exact Hst|].
    intros ->. reflexivity.
Qed.

End LifecycleFacts.

(** ** commands.py *)

Section CommandFacts.

Import Commands.

Variable Meta : Type.
Variable entities : Meta -> list (string * string).

(** X24: the chained acknowledgement is given only when the last intent
    of the context is "set timer" and the intent is "thank you" or "hi";
    [process] stores the intent as the last intent before it asks, so
    inside [process] the chained acknowledgement is never given. *)
Theorem X24_chained_never (user_name command intent : string) (metadata : Meta)
    (ctx : Context Meta) :
  fst (process_chained Meta entities user_name command intent metadata ctx) = None
  /\ (is_Some (_handle_chained_intent Meta user_name intent ctx)
      <-> last_intent Meta ctx = Some "set timer"
          /\ (intent = "thank you" \/ intent = "hi")).
Proof.
  split.
  - unfold process_chained, _handle_chained_intent, _update_context. simpl.
    destruct (String.eqb_spec intent "set timer") as [->|_]; reflexivity.
  - unfold _handle_chained_intent. simpl.
    destruct (last_intent Meta ctx) as [l|]; simpl.
    + destruct (String.eqb_spec l "set timer") as [->|Hl]; simpl.
      * rewrite orb_false_r.
        destruct (String.eqb_spec intent "thank you") as [->|H1]; simpl.
        -- split; [auto|eauto].
        -- destruct (String.eqb_spec intent "hi") as [->|H2].
           ++ split; [auto|eauto].
           ++ split; [intros [x Hx]; discriminate|].
              intros [_ [H|H]]; contradiction.
      * split; [intros [x Hx]; discriminate|].
        intros [H _]. congruence.
    + split; [intros [x Hx]; discriminate|]. intros [H _]. discriminate.
Qed.

Lemma update_history command intent metadata (ctx : Context Meta) :
  history Meta (_update_context Meta entities command intent metadata
                  (mkContext Meta (Memory.most_recent 5 (history Meta ctx))
                             (last_intent Meta ctx) (last_entities Meta ctx)))
  = Memory.most_recent 5 (history Meta ctx ++ [(command, intent, metadata)]).
Proof.
  unfold _update_context. simpl. rewrite <- evict_most_recent.
  replace (Z.of_nat (length (Memory.most_recent 5 (history Meta ctx)
                             ++ [(command, intent, metadata)])) >? max_history)%Z
    with (5 <? length (Memory.most_recent 5 (history Meta ctx)
                       ++ [(command, intent, metadata)]))%nat; [reflexivity|].
  unfold max_history.
  destruct (Nat.ltb_spec 5 (length (Memory.most_recent 5 (history Meta ctx)
                                    ++ [(command, intent, metadata)])));
    symmetry; [apply Z.gtb_lt|rewrite Z.gtb_ltb; apply Z.ltb_ge]; lia.
Qed.

Lemma update_all_history turns : forall (ctx : Context Meta) all,
  history Meta ctx = Memory.most_recent 5 all ->
  history Meta (update_all Meta entities turns ctx)
  = Memory.most_recent 5 (all ++ turns).
Proof.
  induction turns as [|[[command intent] metadata] turns IH]; intros ctx all Hctx;
    simpl.
  - now rewrite app_nil_r.
  - rewrite (IH _ (all ++ [(command, intent, metadata)])).
    + now rewrite <- app_assoc.
    + pose proof (update_history command intent metadata
                    (mkContext Meta all (last_intent Meta ctx)
                               (last_entities Meta ctx))) as H.
      simpl in H. rewrite <- H. unfold _update_context. simpl. now rewrite Hctx.
Qed.

(** X25: from the context a new processor starts with, any run of
    [_update_context] calls leaves a history of at most five entries, the
    five most recent in their order, and the last intent and entities are
    those of the last call. *)
Theorem X25_history_bounded (turns : list (string * string * Meta)) :
  let ctx := update_all Meta entities turns (initial Meta) in
  history Meta ctx = Memory.most_recent 5 turns
  /\ (length (history Meta ctx) <= 5)%nat
  /\ (forall command intent metadata,
         last turns = Some (command, intent, metadata) ->
         last_intent Meta ctx = Some intent
         /\ last_entities Meta ctx = entities metadata).
Proof.
  cbv zeta.
  assert (H : history Meta (update_all Meta entities turns (initial Meta))
              = Memory.most_recent 5 turns).
  { apply (update_all_history turns (initial Meta) []). reflexivity. }
  split; [exact H|]. split.
  - rewrite H, most_recent_length. lia.
  - intros command intent metadata Hlast.
    destruct (last_is_Some turns) as [Hl _].
    assert (Hex : exists front, turns = front ++ [(command, intent, metadata)]).
    { clear H Hl. induction turns as [|t turns IH]; [discriminate|].
      destruct turns as [|t' turns].
      - simpl in Hlast. inversion Hlast. exists []. reflexivity.
      - destruct (IH Hlast) as [front ->]. exists (t :: front). reflexivity. }
    destruct Hex as [front ->]. unfold update_all. rewrite fold_left_app.
    simpl. split; reflexivity.
Qed.

End CommandFacts.

Section TimerFacts.

Import Commands.

Lemma numeral_uint (u : Decimal.uint) : numeral (NilEmpty.string_of_uint u).
Proof.
  unfold numeral.
  induction u; simpl; constructor; try assumption;
    repeat split; reflexivity.
Qed.

Lemma numeral_lstrip s : numeral s -> PyStr.lstrip s = s.
Proof.
  destruct s as [|c s]; [reflexivity|]. intros H. inversion_clear H as [|? ? Hc _].
  simpl. destruct Hc as (_ & -> & _). reflexivity.
Qed.

Lemma numeral_rstrip s : numeral s -> PyStr.rstrip s = s.
Proof.
  unfold numeral. induction s as [|c s IH]; [reflexivity|].
  intros H. inversion_clear H as [|? ? Hc Hs].
  change (PyStr.rstrip (String c s))
    with (match PyStr.rstrip s with
          | EmptyString => if PyStr.is_space c then EmptyString
                           else String c EmptyString
          | r => String c r
          end).
  rewrite (IH Hs). destruct Hc as (_ & -> & _). now destruct s.
Qed.

Lemma numeral_lower s : numeral s -> PyStr.lower s = s.
Proof.
  unfold numeral. induction s as [|c s IH]; [reflexivity|].
  intros H. inversion_clear H as [|? ? Hc Hs]. simpl.
  destruct Hc as (_ & _ & _ & _ & _ & ->). now rewrite (IH Hs).
Qed.

Lemma numeral_underscores s : numeral s -> drop_underscores s = Some s.
Proof.
  unfold numeral. induction s as [|c s IH]; [reflexivity|].
  intros H. inversion_clear H as [|? ? Hc Hs].
  change (drop_underscores (String c s))
    with (if Ascii.eqb c "_"
          then match s with
               | String c' _ => if is_digit c' then drop_underscores s else None
               | EmptyString => None
               end
          else option_map (String c) (drop_underscores s)).
  destruct Hc as (_ & _ & -> & _). now rewrite (IH Hs).
Qed.

(** [int] reads back the digits of a numeral that is not empty. *)
Lemma py_int_numeral (u : Decimal.uint) :
  u <> Decimal.Nil ->
  py_int (NilEmpty.string_of_uint u) = Some (Z.of_uint u)
  /\ py_int (String "-" (NilEmpty.string_of_uint u)) = Some (- Z.of_uint u)%Z.
Proof.
  intros Hu.
  pose proof (numeral_uint u) as Hn.
  assert (Hparse : NilZero.uint_of_string (NilEmpty.string_of_uint u) = Some u).
  { pose proof (NilZero.usu u Hu) as H. unfold NilZero.string_of_uint in H.
    destruct u; [congruence|exact H..]. }
  destruct (NilEmpty.string_of_uint u) as [|c s] eqn:Es.
  { destruct u; simpl in Es; congruence. }
  pose proof Hn as Hn'. inversion_clear Hn' as [|? ? Hc Hs].
  destruct Hc as (Hd & Hsp & Hus & Hminus & Hplus & Hlow).
  split.
  - unfold py_int, PyStr.strip.
    rewrite (numeral_lstrip _ Hn), (numeral_rstrip _ Hn).
    rewrite Hminus, Hplus. cbv beta iota zeta.
    rewrite Hd, (numeral_underscores _ Hn), Hparse. reflexivity.
  - unfold py_int, PyStr.strip.
    change (PyStr.lstrip (String "-" (String c s))) with (String "-" (String c s)).
    assert (Hr : PyStr.rstrip (String "-" (String c s)) = String "-" (String c s)).
    { change (PyStr.rstrip (String "-" (String c s)))
        with (match PyStr.rstrip (String c s) with
              | EmptyString => String "-" EmptyString
              | r => String "-" r
              end).
      now rewrite (numeral_rstrip _ Hn). }
    rewrite Hr. change (Ascii.eqb "-" "-") with true. cbv beta iota zeta.
    rewrite Hd, (numeral_underscores _ Hn), Hparse. reflexivity.
Qed.

Lemma of_uint_pos p : Z.of_uint (Pos.to_uint p) = Z.pos p.
Proof. unfold Z.of_uint. now rewrite DecimalPos.Unsigned.of_to. Qed.

Lemma str_int_pos p : str_int (Z.pos p) = NilEmpty.string_of_uint (Pos.to_uint p).
Proof.
  unfold str_int. simpl. unfold NilZero.string_of_uint.
  pose proof (Unsigned.to_uint_nonnil p). now destruct (Pos.to_uint p).
Qed.

(** X26: [int] reads back what an integer prints as: for every integer
    [z] of at most 4300 digits, positive, zero or negative, [int(str(z))]
    is [z]. *)
Theorem X26_int_of_str (z : Z) :
  (Z.abs z < 10 ^ 4300)%Z -> py_int (str_int z) = Some z.
Proof.
  intros _. destruct z as [|p|p].
  - reflexivity.
  - rewrite str_int_pos.
    destruct (py_int_numeral (Pos.to_uint p) (Unsigned.to_uint_nonnil p)) as [H _].
    now rewrite H, of_uint_pos.
  - unfold str_int. simpl. unfold NilZero.string_of_uint.
    pose proof (Unsigned.to_uint_nonnil p) as Hn.
    destruct (py_int_numeral (Pos.to_uint p) Hn) as [_ H].
    rewrite of_uint_pos in H.
    destruct (Pos.to_uint p); [congruence|exact H..].
Qed.

(** X27: with a timer list in place, [set_timer] never raises and
    answers in one of four ways: it stores nothing and returns one of its
    three fixed messages, or it stores exactly one timer, not yet
    notified, with a duration above zero, and confirms that duration. *)
Theorem X27_set_timer_outcomes (now command : string) (ts : list Timer) :
  exists reply,
    fst (set_timer now command (Some ts)) = Ok reply
    /\ ((snd (set_timer now command (Some ts)) = Some ts
         /\ (reply = not_caught \/ reply = not_positive \/ reply = invalid_format))
        \/ (exists d,
               (0 < d)%Z
               /\ snd (set_timer now command (Some ts))
                  = Some (ts ++ [mkTimer now d false])
               /\ reply = ("Timer set for " ++ str_int d ++ " minutes!")%string)).
Proof.
  unfold set_timer.
  destruct (split_ws (PyStr.lower command)) as [|p0 [|p1 [|p2 rest]]];
    try (eexists; split; [reflexivity|left; split; [reflexivity|now left]]).
  destruct (negb (String.eqb p0 "set") || negb (String.eqb p1 "timer")).
  - eexists. split; [reflexivity|]. left. split; [reflexivity|now left].
  - destruct (py_int p2) as [d|].
    + destruct (Z.leb_spec d 0).
      * eexists. split; [reflexivity|]. left. split; [reflexivity|]. right. now left.
      * eexists. split; [reflexivity|]. right. exists d. repeat split. assumption.
    + eexists. split; [reflexivity|]. left. split; [reflexivity|]. right. now right.
Qed.

Lemma lower_app a b : PyStr.lower (a ++ b) = (PyStr.lower a ++ PyStr.lower b)%string.
Proof.
  induction a as [|c a IH]; [reflexivity|].
  change (String (PyStr.lower_ascii c) (PyStr.lower (a ++ b))
          = String (PyStr.lower_ascii c) (PyStr.lower a ++ PyStr.lower b)%string).
  now rewrite IH.
Qed.

Lemma split_ws_cons c s' :
  split_ws (String c s')
  = if PyStr.is_space c then split_ws s'
    else match s' with
         | EmptyString => [String c EmptyString]
         | String c' _ =>
             if PyStr.is_space c' then String c EmptyString :: split_ws s'
             else match split_ws s' with
                  | w :: ws => String c w :: ws
                  | [] => [String c EmptyString]
                  end
         end.
Proof. reflexivity. Qed.

Lemma split_ws_word w rest :
  Forall (fun c => PyStr.is_space c = false) (list_ascii_of_string w) ->
  w <> "" ->
  split_ws (w ++ String " " rest) = w :: split_ws rest.
Proof.
  induction w as [|c w IH]; [congruence|].
  intros H _. inversion_clear H as [|? ? Hsp Hw]. cbv beta in Hsp.
  change (String c w ++ String " " rest)%string
    with (String c (w ++ String " " rest)).
  rewrite split_ws_cons, Hsp.
  destruct w as [|c2 w].
  - change ("" ++ String " " rest)%string with (String " " rest).
    change (PyStr.is_space " ") with true. cbv iota.
    rewrite split_ws_cons. change (PyStr.is_space " ") with true. reflexivity.
  - assert (IH' := IH Hw ltac:(discriminate)).
    inversion Hw as [|? ? Hsp2 _]. cbv beta in Hsp2.
    rewrite IH'.
    change (String c2 w ++ String " " rest)%string
      with (String c2 (w ++ String " " rest)).
    cbv iota. rewrite Hsp2. reflexivity.
Qed.

Lemma numeral_no_space d :
  numeral d -> Forall (fun c => PyStr.is_space c = false) (list_ascii_of_string d).
Proof.
  intros H. eapply Forall_impl; [exact H|]. intros c (_ & Hs & _). exact Hs.
Qed.

(** X28: for every duration [n] above zero of at most 4300 digits, the
    command "set timer n minutes", with [n] written in decimal, stores one
    timer of [n] minutes and is confirmed with "Timer set for n
    minutes!". *)
Theorem X28_set_timer_confirms (now : string) (n : Z) (ts : list Timer) :
  (0 < n < 10 ^ 4300)%Z ->
  set_timer now ("set timer " ++ str_int n ++ " minutes") (Some ts)
  = (Ok ("Timer set for " ++ str_int n ++ " minutes!")%string,
     Some (ts ++ [mkTimer now n false])).
Proof.
  intros [Hn _]. destruct n as [|p|p]; try lia.
  destruct (py_int_numeral (Pos.to_uint p) (Unsigned.to_uint_nonnil p))
    as [Hint _].
  rewrite of_uint_pos in Hint.
  rewrite str_int_pos.
  pose proof (numeral_uint (Pos.to_uint p)) as Hnum.
  assert (Hne : NilEmpty.string_of_uint (Pos.to_uint p) <> "").
  { pose proof (Unsigned.to_uint_nonnil p).
    destruct (Pos.to_uint p); simpl; congruence. }
  unfold set_timer.
  rewrite lower_app, lower_app, (numeral_lower _ Hnum).
  change (PyStr.lower "set timer ") with "set timer ".
  change (PyStr.lower " minutes") with " minutes".
  set (d := NilEmpty.string_of_uint (Pos.to_uint p)) in *.
  assert (Hsplit : split_ws ("set timer " ++ d ++ " minutes")
                   = ["set"; "timer"; d; "minutes"]).
  { change ("set timer " ++ d ++ " minutes")%string
      with ("set" ++ String " " ("timer" ++ String " " (d ++ String " " "minutes")))%string.
    rewrite (split_ws_word "set") by (repeat constructor; discriminate).
    rewrite (split_ws_word "timer") by (repeat constructor; discriminate).
    rewrite (split_ws_word d) by (try apply numeral_no_space; assumption).
    reflexivity. }
  rewrite Hsplit.
  change (negb (String.eqb "set" "set") || negb (String.eqb "timer" "timer"))
    with false.
  cbv beta iota. rewrite Hint.
  change (Z.pos p <=? 0)%Z with false. cbv iota.
  rewrite str_int_pos. reflexivity.
Qed.

End TimerFacts.

(** ** Instances of the properties above *)

Lemma X10_admission_boundary_witness :
  Memory.long_term
    (Memory.add_interaction 5 true "hello" "hi" "greeting" ∅ 0.6
       (Memory.init Memory.Missing 10 0.6))
  = [] ++ [Memory.mkItem 5 "hello" "hi" "greeting" ∅ 0.6 None].
Proof.
  apply (X10_admission_boundary 5 true "hello" "hi" "greeting" ∅ 0.6%Q
           (Memory.init Memory.Missing 10 0.6)).
  unfold Qle. simpl. lia.
Defined.

Lemma X11_trend_is_mean_witness :
  match Memory.get_emotional_trend
          (Memory.mkCore Memory.Missing 10 0.6
             [Memory.mkItem 5 "hello" "hi" "greeting" Emotion.initial 0.5 None] [])
        !! "happiness" with
  | None =>
      Forall (fun i => Memory.emotion i !! "happiness" = None)
             [Memory.mkItem 5 "hello" "hi" "greeting" Emotion.initial 0.5 None]
  | Some q =>
      (q == MemorySpec.axis_sum "happiness"
              [Memory.mkItem 5 "hello" "hi" "greeting" Emotion.initial 0.5 None]
            / inject_Z (Z.of_nat 1))%Q
      /\ Exists (MemorySpec.has_axis "happiness")
                [Memory.mkItem 5 "hello" "hi" "greeting" Emotion.initial 0.5 None]
      /\ (Forall MemorySpec.snapshot_in_range
                 [Memory.mkItem 5 "hello" "hi" "greeting" Emotion.initial 0.5 None]
          -> (0 <= q /\ q <= 1)%Q)
  end.
Proof.
  apply (X11_trend_is_mean
           (Memory.mkCore Memory.Missing 10 0.6
              [Memory.mkItem 5 "hello" "hi" "greeting" Emotion.initial 0.5 None] [])
           "happiness").
  discriminate.
Defined.

Lemma X12_summarize_idempotent_witness :
  Memory.summarize_long_term (fun _ => "0.7") 9 true 1
    (Memory.summarize_long_term (fun _ => "0.7") 8 true 1
       (Memory.mkCore Memory.Missing 10 0.6 []
          [Memory.sample_item "a" 0.7; Memory.sample_item "b" 0.9]))
  = Memory.summarize_long_term (fun _ => "0.7") 8 true 1
      (Memory.mkCore Memory.Missing 10 0.6 []
         [Memory.sample_item "a" 0.7; Memory.sample_item "b" 0.9]).
Proof.
  apply (X12_summarize_idempotent (fun _ => "0.7") (fun _ => "0.7") 8 9 true true 1
           (Memory.mkCore Memory.Missing 10 0.6 []
              [Memory.sample_item "a" 0.7; Memory.sample_item "b" 0.9])).
  lia.
Defined.

Lemma X13_context_grows_by_two_lines_witness :
  Memory.get_recent_context
    (Memory.add_interaction 5 true "hello" "hi" "greeting" ∅ 0.5
       (Memory.init Memory.Missing 10 0.6))
  = ("User: " ++ "hello" ++ Memory.newline ++ "MIKA: " ++ "hi")%string.
Proof.
  destruct (X13_context_grows_by_two_lines 5 true "hello" "hi" "greeting" ∅ 0.5%Q
              (Memory.init Memory.Missing 10 0.6)) as [H _].
  - simpl. lia.
  - apply H. reflexivity.
Defined.

Lemma X14_update_emotion_witness :
  Emotion.update_emotion "joy" 0.3 Emotion.initial = Emotion.initial.
Proof.
  apply (X14_update_emotion "joy" 0.3%Q Emotion.initial). reflexivity.
Defined.

Lemma X15_adjust_direction_witness :
  exists es', Emotion.adjust_emotions 2 Emotion.initial = (Ok tt, es').
Proof.
  destruct (X15_adjust_direction 2 Emotion.initial) as (es' & H & _).
  - axes_in_range.
  - exists es'. exact H.
Defined.

Lemma X16_post_init_emotion_witness :
  Emotion.in_range
    (ConfigCheck.post_init_emotion
       ["affinity"; "curiosity"; "sadness"; "happiness"]
       {[ "happiness" := 1.5%Q ]}).
Proof.
  apply (X16_post_init_emotion ["affinity"; "curiosity"; "sadness"; "happiness"]
           {[ "happiness" := 1.5%Q ]}).
  intros k. unfold Emotion.axes. simpl.
  split; intros [H|[H|[H|[H|[]]]]]; auto 6.
Defined.

Lemma X17_evaluate_user_response_witness :
  exists s st',
    EmotionEval.evaluate_user_response (Some "Thank you, that was GREAT")
      (Some (EmotionEval.mkCfg ["thank you"; "great"] ["bad"] [("thank you", 0.5%Q)]))
      Emotion.initial (Some (EmotionEval.mkRewarder false false)) 0.8
    = (Ok s, st')
    /\ Emotion.in_range (fst st')
    /\ (-1 <= EmotionEval.compound s /\ EmotionEval.compound s <= 1)%Q.
Proof.
  destruct (X17_evaluate_user_response (Some "Thank you, that was GREAT")
              (Some (EmotionEval.mkCfg ["thank you"; "great"] ["bad"]
                                       [("thank you", 0.5%Q)]))
              Emotion.initial (Some (EmotionEval.mkRewarder false false)) 0.8%Q)
    as (s & st' & H1 & H2 & H3 & _).
  - axes_in_range.
  - exists s, st'. repeat split; assumption || apply H3.
Defined.

Lemma X18_evaluate_response_witness :
  Feedback.evaluate_response Config.default "I am so sad" "I see." = ("I see.", []).
Proof.
  destruct (X18_evaluate_response Config.default "I am so sad" "I see.")
    as (_ & H & _).
  apply H. intros Hin. exact Hin.
Defined.

Lemma X19_llm_reply_witness :
  Assistant._llm_response (Some (fun _ _ _ _ => "  "))
    (Assistant.fresh Engine.sample_rules) "hello" = "".
Proof.
  apply (X19_llm_reply (Assistant.fresh Engine.sample_rules) "hello"
           (fun _ _ _ _ => "  ")).
  - discriminate.
  - reflexivity.
Defined.

Lemma X20_turn_accounting_witness :
  exists intent response imp a',
    Session.handle_input PyStr.lower PyStr.strip
      (fun _ => Ok ("greeting", Assistant.mkMeta None)) None (fun _ => Ok tt)
      (fun _ => Raise AttributeError)
      (Assistant.mkTurn "12:00" "12:01" 5 true) "hello"
      (Assistant.fresh Engine.sample_rules)
    = (Ok tt, a')
    /\ Assistant.spoken a' = [] ++ [response]
    /\ Assistant.memory a'
       = Memory.add_interaction 5 true "hello" response intent
           Emotion.initial imp (Memory.init Memory.Missing 10 0.6).
Proof.
  destruct (X20_turn_accounting PyStr.lower PyStr.strip
              (fun _ => Ok ("greeting", Assistant.mkMeta None)) None
              (fun _ => Ok tt) (fun _ => Raise AttributeError)
              (Assistant.mkTurn "12:00" "12:01" 5 true) "hello"
              (Assistant.fresh Engine.sample_rules))
    as (Hreturns & _).
  - simpl. repeat constructor. eexists. reflexivity.
  - destruct Hreturns
      as (intent & metadata & response & imp & a' & _ & H1 & H2 & H3 & _).
    + split; [|split]; intros; try reflexivity. discriminate.
    + exists intent, response, imp, a'. repeat split; assumption.
Defined.

Lemma X21_command_turn_apologises_witness :
  exists a',
    Session.handle_input PyStr.lower PyStr.strip
      (fun _ => Ok ("greeting", Assistant.mkMeta None)) None (fun _ => Ok tt)
      (fun _ => Raise AttributeError)
      (Assistant.mkTurn "12:00" "12:01" 5 true) "Set Timer"
      (Assistant.fresh Engine.sample_rules_no_tools)
    = (Ok tt, a')
    /\ Assistant.reward_score a' = (0 + -1)%Q.
Proof.
  destruct (X21_command_turn_apologises PyStr.lower PyStr.strip
              (fun _ => Ok ("greeting", Assistant.mkMeta None)) None
              (fun _ => Ok tt) (fun _ => Raise AttributeError)
              (Assistant.mkTurn "12:00" "12:01" 5 true) "Set Timer"
              (Assistant.fresh Engine.sample_rules_no_tools))
    as (a' & H1 & _ & H2 & _).
  - exact I.
  - eexists. reflexivity.
  - reflexivity.
  - reflexivity.
  - reflexivity.
  - exists a'. split; assumption.
Defined.

Lemma X22_start_replies_witness :
  exists replies,
    Assistant.spoken
      (Session.start PyStr.lower PyStr.strip
         (fun _ => Ok ("greeting", Assistant.mkMeta None)) None (fun _ => Ok tt)
         (fun _ => Raise AttributeError)
         [(Assistant.mkTurn "12:00" "12:01" 5 true, "hello");
          (Assistant.mkTurn "12:02" "12:03" 6 true, "");
          (Assistant.mkTurn "12:04" "12:05" 7 true, "  ")]
         (Assistant.fresh Engine.sample_rules))
    = [] ++ "MIKA is online." :: replies
    /\ length replies = 2%nat.
Proof.
  destruct (X22_start_replies PyStr.lower PyStr.strip
              (fun _ => Ok ("greeting", Assistant.mkMeta None)) None
              (fun _ => Ok tt) (fun _ => Raise AttributeError)
              [(Assistant.mkTurn "12:00" "12:01" 5 true, "hello");
               (Assistant.mkTurn "12:02" "12:03" 6 true, "");
               (Assistant.mkTurn "12:04" "12:05" 7 true, "  ")]
              (Assistant.fresh Engine.sample_rules))
    as (Hreturns & _).
  - simpl. repeat constructor. eexists. reflexivity.
  - destruct Hreturns as (replies & _ & Hsp & Hlen & _).
    + split; [|split]; intros; try reflexivity. discriminate.
    + exists replies. split; [exact Hsp|exact Hlen].
Defined.

Lemma X23_shutdown_once_witness :
  Lifecycle.shutdown_event
    (Lifecycle.shutdown (fun _ => "0.7") 9 true true
       (Lifecycle.mkRunning (Assistant.fresh Engine.sample_rules) false))
  = true.
Proof.
  apply (X23_shutdown_once (fun _ => "0.7") (fun _ => "0.7") 9 9 true true true true
           (Lifecycle.mkRunning (Assistant.fresh Engine.sample_rules) false)).
  reflexivity.
Defined.

Lemma X25_history_bounded_witness :
  Commands.last_intent unit
    (Commands.update_all unit (fun _ => [])
       [("set timer 5 minutes", "set timer", tt); ("thanks", "thank you", tt)]
       (Commands.initial unit))
  = Some "thank you".
Proof.
  destruct (X25_history_bounded unit (fun _ => [])
              [("set timer 5 minutes", "set timer", tt); ("thanks", "thank you", tt)])
    as (_ & _ & H).
  apply (H "thanks" "thank you" tt). reflexivity.
Defined.

Lemma X26_int_of_str_witness : Commands.py_int (Commands.str_int (-120)) = Some (-120)%Z.
Proof. apply X26_int_of_str. vm_compute. reflexivity. Defined.

Lemma X28_set_timer_confirms_witness :
  Commands.set_timer "2026-01-01 12:00:00"
    ("set timer " ++ Commands.str_int 5 ++ " minutes") (Some [])
  = (Ok ("Timer set for " ++ Commands.str_int 5 ++ " minutes!")%string,
     Some ([] ++ [Commands.mkTimer "2026-01-01 12:00:00" 5 false])).
Proof.
  apply X28_set_timer_confirms. split; [lia|]. vm_compute. reflexivity.
Defined.
